(** * ELLVINS library system: the loan ledger, the undo log and their store

    A shallow embedding of the [DB] class of [Elvins_system.py] (the SQLite
    store with its borrow/return, fine and undo logic) and of the window
    handlers that guard deletions, followed by the properties of the loan
    lifecycle.

    Conventions of the embedding.
    - A table is the list of its rows in rowid order; [INSERT] appends.
    - Every method takes the store as an explicit argument and returns the
      new store next to its Python result.  A method that reads the clock
      ([datetime.datetime.utcnow()]) takes that instant as [now].
    - A [datetime] is its number of microseconds since the start of the
      proleptic calendar, so that [isoformat]/[fromisoformat] are the
      identity and ordering the ISO texts is ordering the numbers.  Python
      holds the instants of the years 1 to 9999 only: [add_days] raises
      [OverflowError] beyond them, as [datetime + timedelta] does.
    - A method or handler that an exception leaves is an [outcome]: the
      value it returns, or the exception it raises.
    - The [users] table is written and read by the login and user-manager
      dialogs only; none of the operations below touches it and it is left
      out of the state. *)

From Stdlib Require Import ZArith List String Ascii Bool Lia Permutation.
From Stdlib Require Import DecimalString Sorted.
Import ListNotations.

Local Open Scope string_scope.
Local Open Scope list_scope.
Local Open Scope Z_scope.

(* ================================================================== *)
(** * Time *)

Definition datetime := Z.

Definition US_PER_DAY : Z := 86400000000.

(** [dt.date()], as a day number: the time of day is dropped. *)
Definition date (dt : datetime) : Z := dt / US_PER_DAY.

(** The instant [n] days after [dt]. *)
Definition plus_days (dt : datetime) (n : Z) : datetime := dt + n * US_PER_DAY.

(** The exceptions that leave a method of [DB] or a handler of a window. *)
Inductive py_error : Type :=
| OverflowError
| AttributeError.

(** How a call ends: with the value it returns, or with an exception. *)
Inductive outcome (A : Type) : Type :=
| Returned (a : A)
| Raised (e : py_error).

Arguments Returned {A} a.
Arguments Raised {A} e.

(** [datetime.date.max.toordinal()]: the days of the years 1 to 9999. *)
Definition MAX_ORDINAL : Z := 3652059.

(** The largest [days] of a [timedelta]. *)
Definition MAX_DELTA_DAYS : Z := 999999999.

(** The instants from [datetime.min] to [datetime.max]. *)
Definition is_datetime (dt : Z) : bool :=
  (0 <=? dt) && (dt <? MAX_ORDINAL * US_PER_DAY).

(** [dt + datetime.timedelta(days=n)]: [timedelta] raises [OverflowError]
    for more than [MAX_DELTA_DAYS] days either way, and the sum does when
    it leaves the years 1 to 9999. *)
Definition add_days (dt : datetime) (n : Z) : outcome datetime :=
  if (Z.abs n <=? MAX_DELTA_DAYS) && is_datetime (plus_days dt n)
  then Returned (plus_days dt n)
  else Raised OverflowError.

Definition DEFAULT_FINE_PER_DAY : Z := 10.
Definition DEFAULT_LOAN_DAYS : Z := 14.

(* ================================================================== *)
(** * Rows *)

(** A value of a row seen from Python ([dict(row)], and the same after a
    round trip through [json.dumps]/[json.loads]): the columns of this
    program hold integers and texts. *)
Inductive jvalue : Type :=
| JInt (n : Z)
| JStr (s : string).

Definition pydict := list (string * jvalue).

Record school : Type := mk_school {
  sc_id : Z;
  sc_name : string;
  sc_password : string;
  sc_created_at : datetime;
  fine_per_day : Z;
  default_loan_days : Z
}.

Record student : Type := mk_student {
  st_id : Z;
  st_school_id : Z;
  admission_no : string;
  st_name : string;
  st_class : string
}.

Record book : Type := mk_book {
  bk_id : Z;
  bk_school_id : Z;
  title : string;
  author : string;
  barcode : string;
  non_circulating : Z;
  condition : string
}.

Record loan : Type := mk_loan {
  ln_id : Z;
  ln_school_id : Z;
  book_id : Z;
  student_id : Z;
  borrowed_at : datetime;
  due_date : datetime;
  returned_at : option datetime;   (* NULL while the loan is active *)
  fine_paid : Z
}.

Record undo_entry : Type := mk_undo {
  un_id : Z;
  un_school_id : Z;
  table_name : string;
  record_data : pydict;            (* the JSON text, read back *)
  deleted_at : datetime
}.

(** The store: the five tables of [init_schema] that the ledger uses. *)
Record DB : Type := mk_DB {
  schools : list school;
  students : list student;
  books : list book;
  loans : list loan;
  undo_log : list undo_entry
}.

(** The store right after [init_schema] on a new file. *)
Definition empty_db : DB := mk_DB [] [] [] [] [].

Definition set_schools (db : DB) (x : list school) : DB :=
  mk_DB x (students db) (books db) (loans db) (undo_log db).
Definition set_students (db : DB) (x : list student) : DB :=
  mk_DB (schools db) x (books db) (loans db) (undo_log db).
Definition set_books (db : DB) (x : list book) : DB :=
  mk_DB (schools db) (students db) x (loans db) (undo_log db).
Definition set_loans (db : DB) (x : list loan) : DB :=
  mk_DB (schools db) (students db) (books db) x (undo_log db).
Definition set_undo_log (db : DB) (x : list undo_entry) : DB :=
  mk_DB (schools db) (students db) (books db) (loans db) x.

(** [id INTEGER PRIMARY KEY] left out of an [INSERT]: SQLite takes one more
    than the largest rowid in the table, 1 in an empty table. *)
Definition next_rowid (ids : list Z) : Z :=
  match ids with
  | [] => 1
  | i :: rest => 1 + fold_right Z.max i rest
  end.

Definition is_null {A : Type} (o : option A) : bool :=
  match o with None => true | Some _ => false end.

(* ================================================================== *)
(** * Results *)

(** What [_exec] does on an [INSERT] into a table with a [UNIQUE]
    constraint: the new store, or [sqlite3.IntegrityError]. *)
Inductive sql_result : Type :=
| Done (db : DB)
| IntegrityError.

(** The second component of the [(ok, msg)] pairs. *)
Inductive message : Type :=
| UndoRecordNotFound
| RecordRestored
| FailedToRestore (key : string)
| BookAlreadyBorrowed
| BorrowRecorded
| NoActiveLoan
| ReturnedFine (fine days_late : Z)
| ReturnedNoFine.

(** [str(n)] of a Python int. *)
Definition str_of_int (n : Z) : string := NilZero.string_of_int (Z.to_int n).

(** The text of a message, as the f-strings of the source build it. *)
Definition msg_text (m : message) : string :=
  match m with
  | UndoRecordNotFound => "Undo record not found"
  | RecordRestored => "Record restored"
  | FailedToRestore key => "Failed to restore: '" ++ key ++ "'"
  | BookAlreadyBorrowed => "Book already borrowed"
  | BorrowRecorded => "Borrow recorded"
  | NoActiveLoan => "No active loan"
  | ReturnedFine fine days_late =>
      "Returned. Fine due: " ++ str_of_int fine ++
      " (days late: " ++ str_of_int days_late ++ ")"
  | ReturnedNoFine => "Returned. No fine."
  end%string.

(** The fine a return message tells the caller. *)
Definition reported_fine (m : message) : Z :=
  match m with
  | ReturnedFine fine _ => fine
  | _ => 0
  end.

(* ================================================================== *)
(** * Schools *)

Definition insert_school (db : DB) (name password : string) (created_at : datetime)
    (fine days : Z) : sql_result :=
  if existsb (fun s => (sc_name s =? name)%string) (schools db)
  then IntegrityError                                   (* name TEXT UNIQUE *)
  else Done (set_schools db
               (schools db ++
                [mk_school (next_rowid (map sc_id (schools db)))
                           name password created_at fine days])).

Definition register_school (now : datetime) (db : DB) (name password : string)
    (fine_per_day default_loan_days : Z) : DB * bool :=
  match insert_school db name password now fine_per_day default_loan_days with
  | Done db' => (db', true)
  | IntegrityError => (db, false)
  end.

Definition get_school (db : DB) (name : string) : option school :=
  find (fun s => (sc_name s =? name)%string) (schools db).

Definition get_school_by_id (db : DB) (school_id : Z) : option school :=
  find (fun s => sc_id s =? school_id) (schools db).

Definition update_school_settings (db : DB) (school_id fine days : Z) : DB :=
  set_schools db
    (map (fun s => if sc_id s =? school_id
                   then mk_school (sc_id s) (sc_name s) (sc_password s)
                                  (sc_created_at s) fine days
                   else s)
         (schools db)).

(* ================================================================== *)
(** * Students and books *)

(** [WHERE school_id=? AND admission_no=?] *)
Definition student_key (school_id : Z) (adm : string) (s : student) : bool :=
  (st_school_id s =? school_id) && (admission_no s =? adm)%string.

(** [WHERE school_id=? AND barcode=?] *)
Definition book_key (school_id : Z) (barcode_val : string) (b : book) : bool :=
  (bk_school_id b =? school_id) && (barcode b =? barcode_val)%string.

Definition insert_student (db : DB) (school_id : Z) (adm name klass : string)
    : sql_result :=
  if existsb (student_key school_id adm) (students db)
  then IntegrityError                      (* UNIQUE(school_id, admission_no) *)
  else Done (set_students db
               (students db ++
                [mk_student (next_rowid (map st_id (students db)))
                            school_id adm name klass])).

Definition add_student (db : DB) (school_id : Z) (adm name klass : string)
    : DB * bool :=
  match insert_student db school_id adm name klass with
  | Done db' => (db', true)
  | IntegrityError => (db, false)
  end.

Definition find_student (db : DB) (school_id : Z) (adm : string) : option student :=
  find (student_key school_id adm) (students db).

Definition insert_book (db : DB) (school_id : Z) (title_ author_ barcode_val : string)
    (non_circ : Z) (condition_ : string) : sql_result :=
  if existsb (book_key school_id barcode_val) (books db)
  then IntegrityError                           (* UNIQUE(school_id, barcode) *)
  else Done (set_books db
               (books db ++
                [mk_book (next_rowid (map bk_id (books db)))
                         school_id title_ author_ barcode_val non_circ condition_])).

(** [non_circ] is the truth value of the Python argument; the row gets
    [1 if non_circ else 0]. *)
Definition add_book (db : DB) (school_id : Z) (title_ author_ barcode_val : string)
    (non_circ : bool) (condition_ : string) : DB * bool :=
  match insert_book db school_id title_ author_ barcode_val
                    (if non_circ then 1 else 0) condition_ with
  | Done db' => (db', true)
  | IntegrityError => (db, false)
  end.

Definition find_book (db : DB) (school_id : Z) (barcode_val : string) : option book :=
  find (book_key school_id barcode_val) (books db).

(* ================================================================== *)
(** * The undo log *)

(** [dict(student)] and [dict(book)]: every column of the row, by name. *)
Definition student_dict (s : student) : pydict :=
  [("id", JInt (st_id s)); ("school_id", JInt (st_school_id s));
   ("admission_no", JStr (admission_no s)); ("name", JStr (st_name s));
   ("class", JStr (st_class s))].

Definition book_dict (b : book) : pydict :=
  [("id", JInt (bk_id b)); ("school_id", JInt (bk_school_id b));
   ("title", JStr (title b)); ("author", JStr (author b));
   ("barcode", JStr (barcode b)); ("non_circulating", JInt (non_circulating b));
   ("condition", JStr (condition b))].

Definition insert_undo (db : DB) (school_id : Z) (table : string) (data : pydict)
    (now : datetime) : DB :=
  set_undo_log db
    (undo_log db ++
     [mk_undo (next_rowid (map un_id (undo_log db))) school_id table data now]).

Definition delete_student (now : datetime) (db : DB) (school_id : Z) (adm : string)
    : DB :=
  let db1 :=
    match find_student db school_id adm with
    | Some student => insert_undo db school_id "students" (student_dict student) now
    | None => db
    end in
  set_students db1
    (filter (fun s => negb (student_key school_id adm s)) (students db1)).

Definition delete_book (now : datetime) (db : DB) (school_id : Z) (barcode_val : string)
    : DB :=
  let db1 :=
    match find_book db school_id barcode_val with
    | Some book => insert_undo db school_id "books" (book_dict book) now
    | None => db
    end in
  set_books db1
    (filter (fun b => negb (book_key school_id barcode_val b)) (books db1)).

(** Python exceptions raised inside the [try] of [undo_deletion]. *)
Inductive exn : Type :=
| KeyError (key : string).

Definition try_ (A : Type) : Type := (exn + A)%type.

Definition bind_try {A B : Type} (m : try_ A) (k : A -> try_ B) : try_ B :=
  match m with
  | inl e => inl e
  | inr a => k a
  end.

Notation "x <- m ;; k" := (bind_try m (fun x => k))
  (at level 61, m at next level, right associativity).

(** [data[key]] *)
Definition getitem (data : pydict) (key : string) : try_ jvalue :=
  match find (fun kv => (fst kv =? key)%string) data with
  | Some kv => inr (snd kv)
  | None => inl (KeyError key)
  end.

(** [data.get(key, default)] *)
Definition get_default (data : pydict) (key : string) (default : jvalue) : jvalue :=
  match find (fun kv => (fst kv =? key)%string) data with
  | Some kv => snd kv
  | None => default
  end.

(** A Python value bound to a [TEXT] column: a string is stored as it is,
    an integer in its decimal text (the column's affinity). *)
Definition as_text (v : jvalue) : string :=
  match v with
  | JStr s => s
  | JInt n => str_of_int n
  end.

(** Truth value of a Python value. *)
Definition truthy (v : jvalue) : bool :=
  match v with
  | JInt n => negb (n =? 0)
  | JStr s => negb (s =? "")%string
  end.

Definition undo_deletion (db : DB) (school_id undo_id : Z) : DB * (bool * message) :=
  match find (fun u => (un_id u =? undo_id) && (un_school_id u =? school_id))
             (undo_log db) with
  | None => (db, (false, UndoRecordNotFound))
  | Some record =>
      let data := record_data record in
      let body : try_ DB :=
        db1 <- (if (table_name record =? "students")%string then
                  adm <- getitem data "admission_no" ;;
                  name <- getitem data "name" ;;
                  klass <- getitem data "class" ;;
                  inr (fst (add_student db school_id
                              (as_text adm) (as_text name) (as_text klass)))
                else if (table_name record =? "books")%string then
                  title_ <- getitem data "title" ;;
                  author_ <- getitem data "author" ;;
                  barcode_val <- getitem data "barcode" ;;
                  non_circ <- getitem data "non_circulating" ;;
                  inr (fst (add_book db school_id
                              (as_text title_) (as_text author_) (as_text barcode_val)
                              (truthy non_circ)
                              (as_text (get_default data "condition" (JStr "Good")))))
                else inr db) ;;
        inr (set_undo_log db1
               (filter (fun u => negb (un_id u =? undo_id)) (undo_log db1))) in
      match body with
      | inr db' => (db', (true, RecordRestored))
      | inl (KeyError key) => (db, (false, FailedToRestore key))
      end
  end.

(* ================================================================== *)
(** * The loan ledger *)

(** [WHERE school_id=? AND book_id=? AND returned_at IS NULL] *)
Definition active_loan_of (school_id book : Z) (l : loan) : bool :=
  (ln_school_id l =? school_id) && (book_id l =? book) && is_null (returned_at l).

Definition active_loans (db : DB) (school_id book : Z) : list loan :=
  filter (active_loan_of school_id book) (loans db).

(** The due date is computed before the [INSERT]: when it raises, no row
    is written. *)
Definition borrow_book (now : datetime) (db : DB) (school_id book student : Z)
    (days : option Z) : outcome (DB * (bool * message)) :=
  match active_loans db school_id book with
  | _ :: _ => Returned (db, (false, BookAlreadyBorrowed))
  | [] =>
      let borrowed := now in
      let days :=
        match days with
        | Some d => d
        | None =>
            match get_school_by_id db school_id with
            | Some r => default_loan_days r
            | None => DEFAULT_LOAN_DAYS
            end
        end in
      match add_days borrowed days with
      | Raised e => Raised e
      | Returned due =>
          Returned
            (set_loans db
               (loans db ++
                [mk_loan (next_rowid (map ln_id (loans db)))
                         school_id book student borrowed due None 0]),
             (true, BorrowRecorded))
      end
  end.

(** [UPDATE loans SET returned_at=? WHERE id=?] *)
Definition stamp_returned (at_ : datetime) (id : Z) (l : loan) : loan :=
  if ln_id l =? id
  then mk_loan (ln_id l) (ln_school_id l) (book_id l) (student_id l)
               (borrowed_at l) (due_date l) (Some at_) (fine_paid l)
  else l.

Definition return_book (now : datetime) (db : DB) (school_id book : Z)
    : DB * (bool * message) :=
  match active_loans db school_id book with
  | [] => (db, (false, NoActiveLoan))
  | r :: _ =>
      let returned := now in
      let db' := set_loans db (map (stamp_returned returned (ln_id r)) (loans db)) in
      let due := due_date r in
      let ret := returned in
      let days_late := date ret - date due in
      if 0 <? days_late then
        let fine_per_day_ :=
          match get_school_by_id db' school_id with
          | Some sch => fine_per_day sch
          | None => DEFAULT_FINE_PER_DAY
          end in
        let fine := days_late * fine_per_day_ in
        (db', (true, ReturnedFine fine days_late))
      else (db', (true, ReturnedNoFine))
  end.

(* ================================================================== *)
(** * Queries *)

Section OrderBy.
Context {A : Type} (leb : A -> A -> bool).

Fixpoint place (x : A) (l : list A) : list A :=
  match l with
  | [] => [x]
  | y :: l' => if leb x y then x :: l else y :: place x l'
  end.

(** [ORDER BY]: rows in the order of [leb]; rows that compare equal keep
    the order in which they are read. *)
Definition order_by (l : list A) : list A := fold_right place [] l.

End OrderBy.

(** [LIMIT n]: a negative [n] is no limit. *)
Definition limit_rows {A : Type} (n : Z) (l : list A) : list A :=
  if n <? 0 then l else firstn (Z.to_nat n) l.

(** [WHERE school_id=?] reads the rows of a school through the index of
    [UNIQUE(school_id, admission_no)], that is by admission number; the
    [ORDER BY name] then leaves students of one name in that order. *)
Definition list_students (db : DB) (school_id : Z) : list student :=
  order_by (fun a b => String.leb (st_name a) (st_name b))
    (order_by (fun a b => String.leb (admission_no a) (admission_no b))
       (filter (fun s => st_school_id s =? school_id) (students db))).

(** The same through [UNIQUE(school_id, barcode)]: books of one title come
    by barcode. *)
Definition list_books (db : DB) (school_id : Z) : list book :=
  order_by (fun a b => String.leb (title a) (title b))
    (order_by (fun a b => String.leb (barcode a) (barcode b))
       (filter (fun b => bk_school_id b =? school_id) (books db))).

(** [ORDER BY deleted_at DESC LIMIT ?], 10 rows when the caller gives no
    limit. *)
Definition get_recent_deletions (db : DB) (school_id : Z) (limit : option Z)
    : list undo_entry :=
  limit_rows (match limit with Some n => n | None => 10 end)
    (order_by (fun a b => deleted_at b <=? deleted_at a)
              (filter (fun u => un_school_id u =? school_id) (undo_log db))).

(** [loans JOIN students ON students.id = loans.student_id] *)
Definition loans_join_students (db : DB) : list (loan * student) :=
  flat_map (fun l => map (pair l)
                         (filter (fun s => st_id s =? student_id l) (students db)))
           (loans db).

(** [loans JOIN books ON books.id = loans.book_id] *)
Definition loans_join_books (db : DB) : list (loan * book) :=
  flat_map (fun l => map (pair l)
                         (filter (fun b => bk_id b =? book_id l) (books db)))
           (loans db).

Definition has_active_loans_student (db : DB) (school_id : Z) (adm : string) : bool :=
  let count :=
    List.length (filter (fun r => (ln_school_id (fst r) =? school_id)
                             && (admission_no (snd r) =? adm)%string
                             && is_null (returned_at (fst r)))
                        (loans_join_students db)) in
  0 <? Z.of_nat count.

Definition has_active_loans_book (db : DB) (school_id : Z) (barcode_val : string) : bool :=
  let count :=
    List.length (filter (fun r => (ln_school_id (fst r) =? school_id)
                             && (barcode (snd r) =? barcode_val)%string
                             && is_null (returned_at (fst r)))
                        (loans_join_books db)) in
  0 <? Z.of_nat count.

(* ================================================================== *)
(** * Loan listings *)

(** [loans JOIN books ON books.id = loans.book_id
          JOIN students ON students.id = loans.student_id] *)
Definition loans_books_students (db : DB) : list (loan * book * student) :=
  flat_map
    (fun l =>
       flat_map
         (fun b => map (fun s => (l, b, s))
                       (filter (fun s => st_id s =? student_id l) (students db)))
         (filter (fun b => bk_id b =? book_id l) (books db)))
    (loans db).

(** A row of [current_loans]: [loans.*] and the columns taken from the
    book and the student. *)
Record loan_view : Type := mk_loan_view {
  lv_loan : loan;
  lv_title : string;
  lv_barcode : string;
  lv_condition : string;
  lv_admission_no : string;
  lv_student_name : string
}.

(** A row of [get_student_active_loans] and of [loan_history]. *)
Record loan_line : Type := mk_loan_line {
  ll_loan : loan;
  ll_title : string;
  ll_barcode : string;
  ll_admission_no : string;
  ll_student_name : string
}.

(** A row of [get_student_loan_history]. *)
Record book_line : Type := mk_book_line {
  bl_loan : loan;
  bl_title : string;
  bl_barcode : string
}.

Definition view_of (r : loan * book * student) : loan_view :=
  let '(l, b, s) := r in
  mk_loan_view l (title b) (barcode b) (condition b) (admission_no s) (st_name s).

Definition line_of (r : loan * book * student) : loan_line :=
  let '(l, b, s) := r in
  mk_loan_line l (title b) (barcode b) (admission_no s) (st_name s).

Definition current_loans (db : DB) (school_id : Z) : list loan_view :=
  map view_of
    (filter (fun r => (ln_school_id (fst (fst r)) =? school_id)
                      && is_null (returned_at (fst (fst r))))
            (loans_books_students db)).

(** [... ORDER BY loans.due_date] *)
Definition get_student_active_loans (db : DB) (school_id student : Z) : list loan_line :=
  map line_of
    (order_by (fun x y => due_date (fst (fst x)) <=? due_date (fst (fst y)))
       (filter (fun r => (ln_school_id (fst (fst r)) =? school_id)
                         && (student_id (fst (fst r)) =? student)
                         && is_null (returned_at (fst (fst r))))
               (loans_books_students db))).

(** [... ORDER BY loans.borrowed_at DESC] *)
Definition loan_history (db : DB) (school_id : Z) : list loan_line :=
  map line_of
    (order_by (fun x y => borrowed_at (fst (fst y)) <=? borrowed_at (fst (fst x)))
       (filter (fun r => ln_school_id (fst (fst r)) =? school_id)
               (loans_books_students db))).

Definition get_student_loan_history (db : DB) (school_id student : Z) : list book_line :=
  map (fun r => mk_book_line (fst r) (title (snd r)) (barcode (snd r)))
    (order_by (fun x y => borrowed_at (fst y) <=? borrowed_at (fst x))
       (filter (fun r => (ln_school_id (fst r) =? school_id)
                         && (student_id (fst r) =? student))
               (loans_join_books db))).

(* ================================================================== *)
(** * Calls of the store, and the stores they reach *)

Inductive db_call : Type :=
| RegisterSchool (name password : string) (fine days : Z)
| UpdateSchoolSettings (school_id fine days : Z)
| AddStudent (school_id : Z) (adm name klass : string)
| DeleteStudent (school_id : Z) (adm : string)
| AddBook (school_id : Z) (title_ author_ barcode_val : string) (non_circ : bool)
          (condition_ : string)
| DeleteBook (school_id : Z) (barcode_val : string)
| UndoDeletion (school_id undo_id : Z)
| BorrowBook (school_id book student : Z) (days : option Z)
| ReturnBook (school_id book : Z).

(** What a call returns to Python, or the exception it raises; a call that
    raises leaves the store as it was. *)
Inductive retval : Type :=
| RNone
| RBool (ok : bool)
| RPair (ok : bool) (msg : message)
| RRaised (e : py_error).

Definition pair_result (r : DB * (bool * message)) : DB * retval :=
  (fst r, RPair (fst (snd r)) (snd (snd r))).

Definition bool_result (r : DB * bool) : DB * retval := (fst r, RBool (snd r)).

Definition call (now : datetime) (c : db_call) (db : DB) : DB * retval :=
  match c with
  | RegisterSchool name password fine days =>
      bool_result (register_school now db name password fine days)
  | UpdateSchoolSettings school_id fine days =>
      (update_school_settings db school_id fine days, RNone)
  | AddStudent school_id adm name klass =>
      bool_result (add_student db school_id adm name klass)
  | DeleteStudent school_id adm => (delete_student now db school_id adm, RNone)
  | AddBook school_id title_ author_ barcode_val non_circ condition_ =>
      bool_result (add_book db school_id title_ author_ barcode_val non_circ condition_)
  | DeleteBook school_id barcode_val => (delete_book now db school_id barcode_val, RNone)
  | UndoDeletion school_id undo_id => pair_result (undo_deletion db school_id undo_id)
  | BorrowBook school_id book student days =>
      match borrow_book now db school_id book student days with
      | Returned r => pair_result r
      | Raised e => (db, RRaised e)
      end
  | ReturnBook school_id book => pair_result (return_book now db school_id book)
  end.

(** A history: the calls made on a store, each with the instant the clock
    showed. *)
Definition history := list (datetime * db_call).

Definition run (h : history) (db : DB) : DB :=
  fold_left (fun d step => fst (call (fst step) (snd step) d)) h db.

(** The stores that calls of [DB] methods produce from a new file. *)
Definition reachable (db : DB) : Prop := exists h, db = run h empty_db.

(* ================================================================== *)
(** * The window handlers

    The handlers of [LoginDialog], [MainWindow] and [UndoDialog] that write
    to the store.  A handler takes the content of its input fields after
    [.strip()], and the answer to its confirmation dialog where it asks;
    it returns the new store and the text it shows, if any.  The handlers
    of the borrow page also refresh its table of loans, and return next to
    these the exception that leaves them, if any: nothing in the program
    catches it, and the store keeps what was committed before. *)

(** [MainWindow.school_id] and [MainWindow.user["role"]]. *)
Record window : Type := mk_window {
  w_school_id : Z;
  w_role : string
}.

Definition newline : string := String (ascii_of_nat 10) EmptyString.

Definition in_strings (x : string) (l : list string) : bool :=
  existsb (fun y => (x =? y)%string) l.

(** [QSpinBox.value()] after [setRange(lo, hi)]. *)
Definition spin_value (lo hi v : Z) : Z := Z.max lo (Z.min hi v).

(** After a registration the dialog also calls
    [create_default_admin_for_school], which writes to [users] only. *)
Definition LoginDialog_register_school (now : datetime) (db : DB) (name pw : string)
    : DB * option string :=
  if (name =? "")%string || (pw =? "")%string
  then (db, Some "Enter school name and password")
  else
    let (db', created) :=
      register_school now db name pw DEFAULT_FINE_PER_DAY DEFAULT_LOAN_DAYS in
    if negb created then (db', Some "School already exists")
    else (db', Some ("School '" ++ name ++ "' registered." ++ newline ++
                     "Default admin: username='admin', password='admin'")%string).

Definition MainWindow_add_student (w : window) (db : DB) (adm name klass : string)
    : DB * option string :=
  if (adm =? "")%string || (name =? "")%string
  then (db, Some "Admission number and name required")
  else
    let (db', ok) := add_student db (w_school_id w) adm name klass in
    if negb ok then (db', Some "Student already exists")
    else (db', Some ("Student " ++ name ++ " added!")%string).

Definition MainWindow_delete_student (w : window) (now : datetime) (db : DB)
    (adm : string) (reply_yes : bool) : DB * option string :=
  if negb (in_strings (w_role w) ["Admin"; "Librarian"])
  then (db, Some "Permission denied")
  else if (adm =? "")%string then (db, Some "Enter admission no")
  else if has_active_loans_student db (w_school_id w) adm
  then (db, Some "Student has active loans")
  else if reply_yes
  then (delete_student now db (w_school_id w) adm, Some "Student deleted")
  else (db, None).

Definition MainWindow_add_book (w : window) (db : DB)
    (title_ author_ barcode_val : string) (non : bool) (condition_ : string)
    : DB * option string :=
  if (w_role w =? "Assistant")%string then (db, Some "Permission denied")
  else if (title_ =? "")%string || (barcode_val =? "")%string
  then (db, Some "Title and barcode required")
  else
    let (db', ok) :=
      add_book db (w_school_id w) title_ author_ barcode_val non condition_ in
    if negb ok then (db', Some "Book exists (duplicate barcode)")
    else (db', Some ("Book '" ++ title_ ++ "' added!")%string).

Definition MainWindow_delete_book (w : window) (now : datetime) (db : DB)
    (bc : string) (reply_yes : bool) : DB * option string :=
  if negb (w_role w =? "Admin")%string then (db, Some "Only Admin can delete")
  else if (bc =? "")%string then (db, Some "Enter barcode")
  else if has_active_loans_book db (w_school_id w) bc
  then (db, Some "Book is on loan")
  else if reply_yes
  then (delete_book now db (w_school_id w) bc, Some "Book deleted")
  else (db, None).

(** [MainWindow.refresh_borrow_lists]: for every row of [current_loans] the
    loop fills five cells of the table and then reads
    [r.get("condition", "")]; a [sqlite3.Row] has no [get], so the first
    row raises [AttributeError]. *)
Definition refresh_borrow_lists (db : DB) (school_id : Z) : outcome unit :=
  match current_loans db school_id with
  | [] => Returned tt
  | _ :: _ => Raised AttributeError
  end.

(** The exception that leaves a call, if any. *)
Definition escaping {A : Type} (o : outcome A) : option py_error :=
  match o with
  | Returned _ => None
  | Raised e => Some e
  end.

Definition MainWindow_borrow_action (w : window) (now : datetime) (db : DB)
    (adm bc : string) : DB * option string * option py_error :=
  if (adm =? "")%string || (bc =? "")%string
  then (db, Some "Enter admission and barcode", None)
  else
    match find_student db (w_school_id w) adm with
    | None => (db, Some "Student not found", None)
    | Some student =>
        match find_book db (w_school_id w) bc with
        | None => (db, Some "Book not found", None)
        | Some book =>
            if negb (non_circulating book =? 0)
            then (db, Some "Book not for borrowing", None)
            else
              match
                borrow_book now db (w_school_id w) (bk_id book) (st_id student) None
              with
              | Raised e => (db, None, Some e)
              | Returned (db', r) =>
                  if negb (fst r) then (db', Some (msg_text (snd r)), None)
                  else (db', Some ("Borrowed by " ++ st_name student)%string,
                        escaping (refresh_borrow_lists db' (w_school_id w)))
              end
        end
    end.

Definition MainWindow_return_action (w : window) (now : datetime) (db : DB)
    (bc : string) : DB * option string * option py_error :=
  if (bc =? "")%string then (db, Some "Enter barcode", None)
  else
    match find_book db (w_school_id w) bc with
    | None => (db, Some "Book not found", None)
    | Some book =>
        let (db', r) := return_book now db (w_school_id w) (bk_id book) in
        if negb (fst r) then (db', Some (msg_text (snd r)), None)
        else (db', Some (msg_text (snd r)),
              escaping (refresh_borrow_lists db' (w_school_id w)))
    end.

Definition MainWindow_save_settings (w : window) (db : DB) (fine days : Z)
    : DB * option string :=
  if negb (w_role w =? "Admin")%string
  then (db, Some "Only Admin can change settings")
  else (update_school_settings db (w_school_id w)
          (spin_value 0 10000 fine) (spin_value 1 365 days),
        Some "Settings updated!").

(** [UndoDialog.undo_deletion]: the store it leaves and the message of its
    box.  After a success the dialog has the main window show its current
    page again, when the store is already committed. *)
Definition UndoDialog_undo_deletion (w : window) (db : DB) (undo_id : Z)
    : DB * option string :=
  let (db', r) := undo_deletion db (w_school_id w) undo_id in
  (db', Some (msg_text (snd r))).

Inductive ui_action : Type :=
| UiRegisterSchool (name pw : string)
| UiAddStudent (w : window) (adm name klass : string)
| UiDeleteStudent (w : window) (adm : string) (reply_yes : bool)
| UiAddBook (w : window) (title_ author_ barcode_val : string) (non : bool)
            (condition_ : string)
| UiDeleteBook (w : window) (bc : string) (reply_yes : bool)
| UiBorrow (w : window) (adm bc : string)
| UiReturn (w : window) (bc : string)
| UiSaveSettings (w : window) (fine days : Z)
| UiUndo (w : window) (undo_id : Z).

Definition ui_step (now : datetime) (a : ui_action) (db : DB) : DB * option string :=
  match a with
  | UiRegisterSchool name pw => LoginDialog_register_school now db name pw
  | UiAddStudent w adm name klass => MainWindow_add_student w db adm name klass
  | UiDeleteStudent w adm reply_yes => MainWindow_delete_student w now db adm reply_yes
  | UiAddBook w title_ author_ barcode_val non condition_ =>
      MainWindow_add_book w db title_ author_ barcode_val non condition_
  | UiDeleteBook w bc reply_yes => MainWindow_delete_book w now db bc reply_yes
  | UiBorrow w adm bc => fst (MainWindow_borrow_action w now db adm bc)
  | UiReturn w bc => fst (MainWindow_return_action w now db bc)
  | UiSaveSettings w fine days => MainWindow_save_settings w db fine days
  | UiUndo w undo_id => UndoDialog_undo_deletion w db undo_id
  end.

Definition ui_run (h : list (datetime * ui_action)) (db : DB) : DB :=
  fold_left (fun d step => fst (ui_step (fst step) (snd step) d)) h db.

(** The stores that a user of the windows produces from a new file. *)
Definition ui_reachable (db : DB) : Prop := exists h, db = ui_run h empty_db.

(* ================================================================== *)
(** * Vocabulary of the properties *)

(** The number of days a loan made now would run. *)
Definition loan_days (db : DB) (school_id : Z) (days : option Z) : Z :=
  match days with
  | Some d => d
  | None =>
      match get_school_by_id db school_id with
      | Some r => default_loan_days r
      | None => DEFAULT_LOAN_DAYS
      end
  end.

(** The rate [return_book] charges in a school. *)
Definition fine_rate (db : DB) (school_id : Z) : Z :=
  match get_school_by_id db school_id with
  | Some sch => fine_per_day sch
  | None => DEFAULT_FINE_PER_DAY
  end.

(** The row a successful [borrow_book] inserts. *)
Definition new_loan (now : datetime) (db : DB) (school_id book student : Z)
    (days : option Z) : loan :=
  mk_loan (next_rowid (map ln_id (loans db))) school_id book student
          now (plus_days now (loan_days db school_id days)) None 0.

(** A loan of [n] days made at [now] can be dated: [n] fits a [timedelta]
    and the due date lies in the years 1 to 9999. *)
Definition representable (now : datetime) (n : Z) : Prop :=
  Z.abs n <= MAX_DELTA_DAYS
  /\ 0 <= now + n * US_PER_DAY < MAX_ORDINAL * US_PER_DAY.

(** An active loan of a book in a school: a loan row of theirs whose
    return timestamp is null. *)
Definition unreturned (db : DB) (school_id book : Z) (l : loan) : Prop :=
  In l (loans db) /\ ln_school_id l = school_id /\ book_id l = book
  /\ returned_at l = None.

(** The keys of the rows: [UNIQUE(school_id, admission_no)] and
    [UNIQUE(school_id, barcode)]. *)
Definition student_keys (db : DB) : list (Z * string) :=
  map (fun s => (st_school_id s, admission_no s)) (students db).

Definition book_keys (db : DB) : list (Z * string) :=
  map (fun b => (bk_school_id b, barcode b)) (books db).

(** [sch] is the row of the school: the one row of [schools] with the id. *)
Definition school_row (db : DB) (school_id : Z) (sch : school) : Prop :=
  In sch (schools db) /\ sc_id sch = school_id
  /\ forall s, In s (schools db) -> sc_id s = school_id -> s = sch.

(** A shelf with two students and a reference book. *)
Definition shelf_history : history :=
  [(1, AddStudent 1 "A100" "Jane" "4B");
   (2, AddStudent 1 "A200" "Joan" "5C");
   (3, AddBook 1 "Emma" "Austen" "B1" true "Good")].

(** The history of the undo conflict: a book with barcode "B1" is deleted
    and the barcode is given to a new book. *)
Definition conflict_history : history :=
  [(0, RegisterSchool "Oakview" "secret" 10 14);
   (1, AddBook 1 "Emma" "Austen" "B1" false "Good");
   (2, DeleteBook 1 "B1");
   (3, AddBook 1 "Ulysses" "Joyce" "B1" false "New")].

(** The same with a student and the admission number "A100". *)
Definition conflict_history_student : history :=
  [(0, RegisterSchool "Oakview" "secret" 10 14);
   (1, AddStudent 1 "A100" "Jane" "4B");
   (2, DeleteStudent 1 "A100");
   (3, AddStudent 1 "A100" "Joan" "5C")].

(** The entry that [undo_deletion] selects. *)
Definition undo_key (school_id undo_id : Z) (u : undo_entry) : bool :=
  (un_id u =? undo_id) && (un_school_id u =? school_id).

(** The example of the fine: school "Oakview" with a fine of 10 a day and
    loans of 14 days, student "A100", book "BC001", borrowed at [t0]. *)
Definition oakview_history (t0 : datetime) : history :=
  [(t0, RegisterSchool "Oakview" "secret" 10 14);
   (t0, AddStudent 1 "A100" "Jane" "4B");
   (t0, AddBook 1 "Emma" "Austen" "BC001" false "Good");
   (t0, BorrowBook 1 1 1 None)].

(** A school with other settings: a fine of 25 a day and loans of 7 days;
    its book is borrowed on day 0. *)
Definition hillside_history : history :=
  [(0, RegisterSchool "Hillside" "pw" 25 7);
   (1, AddStudent 1 "S1" "Ann" "2A");
   (2, AddBook 1 "Dune" "Herbert" "BC9" false "New");
   (3, BorrowBook 1 1 1 None)].

(** The ledger invariant: loan rowids are distinct and a book has at most one
    active loan in a school. *)
Definition ledger_ok (db : DB) : Prop :=
  NoDup (map ln_id (loans db))
  /\ forall school_id book, (List.length (active_loans db school_id book) <= 1)%nat.

(** A store with one school and one book out on loan. *)
Definition one_loan_history : history :=
  [(0, RegisterSchool "Oakview" "secret" 10 14);
   (1, BorrowBook 1 7 9 None)].



(** An undo entry as the delete methods write it from a row with a key. *)
Definition snapshot_ok (u : undo_entry) : Prop :=
  (exists s, table_name u = "students" /\ record_data u = student_dict s
             /\ admission_no s <> "")
  \/ (exists b, table_name u = "books" /\ record_data u = book_dict b
                /\ barcode b <> "").

(** What holds of the stores that the windows produce: rowids are distinct,
    an active loan refers to a student and a book of its own school, keys
    are not empty. *)
Record refs_ok (db : DB) : Prop := mk_refs_ok {
  student_ids_unique : NoDup (map st_id (students db));
  book_ids_unique : NoDup (map bk_id (books db));
  active_loan_student :
    forall l, In l (loans db) -> returned_at l = None ->
      exists s, In s (students db) /\ st_id s = student_id l
                /\ st_school_id s = ln_school_id l;
  active_loan_book :
    forall l, In l (loans db) -> returned_at l = None ->
      exists b, In b (books db) /\ bk_id b = book_id l
                /\ bk_school_id b = ln_school_id l;
  admission_no_given : forall s, In s (students db) -> admission_no s <> "";
  barcode_given : forall b, In b (books db) -> barcode b <> "";
  snapshots_ok : forall u, In u (undo_log db) -> snapshot_ok u
}.

(** A school with student "A100", who has book "BC001", and student
    "A200", who has none; book "BC002" is on the shelf. *)
Definition guard_history : list (datetime * ui_action) :=
  let admin := mk_window 1 "Admin" in
  [(0, UiRegisterSchool "Oakview" "secret");
   (1, UiAddStudent admin "A100" "Jane" "4B");
   (2, UiAddStudent admin "A200" "Joan" "5C");
   (3, UiAddBook admin "Emma" "Austen" "BC001" false "Good");
   (4, UiAddBook admin "Ulysses" "Joyce" "BC002" false "New");
   (5, UiBorrow admin "A100" "BC001")].

(* ================================================================== *)
(** * Credentials and users

    The [users] table is a store of its own: the methods below read and
    write no other table, and take it as a list of its rows. *)

Record user : Type := mk_user {
  us_id : Z;
  us_school_id : Z;
  username : string;
  us_password : string;
  role : string
}.

Definition validate_school_credentials (db : DB) (name password : string)
    : option school :=
  find (fun s => (sc_name s =? name)%string && (sc_password s =? password)%string)
       (schools db).

(** [WHERE school_id=? AND username=?] *)
Definition user_key (school_id : Z) (name : string) (u : user) : bool :=
  (us_school_id u =? school_id) && (username u =? name)%string.

(** [UNIQUE(school_id, username)]: the [IntegrityError] of a second insert
    is caught and becomes [False]. *)
Definition add_user (us : list user) (school_id : Z) (name password role_ : string)
    : list user * bool :=
  if existsb (user_key school_id name) us
  then (us, false)
  else (us ++ [mk_user (next_rowid (map us_id us)) school_id name password role_],
        true).

(** The query has no [ORDER BY]; the rows of a school are read through the
    index of [UNIQUE(school_id, username)], that is by user name. *)
Definition list_users (us : list user) (school_id : Z) : list user :=
  order_by (fun a b => String.leb (username a) (username b))
           (filter (fun u => us_school_id u =? school_id) us).

Definition validate_user (us : list user) (school_id : Z) (name password : string)
    : option user :=
  find (fun u => (us_school_id u =? school_id) && (username u =? name)%string
                 && (us_password u =? password)%string) us.

Definition create_default_admin_for_school (us : list user) (school_id : Z)
    : list user * bool :=
  match find (fun u => us_school_id u =? school_id) us with
  | None =>
      (us ++ [mk_user (next_rowid (map us_id us)) school_id "admin" "admin" "Admin"],
       true)
  | Some _ => (us, false)
  end.

(** [UserManagerDialog.delete_user], with the answer to its question. *)
Definition UserManagerDialog_delete_user (us : list user) (school_id : Z)
    (name : string) (confirm_yes : bool) : list user :=
  if confirm_yes
  then filter (fun u => negb (user_key school_id name u)) us
  else us.

(** [LoginDialog.register_school] on both stores.  [None] is the
    [TypeError] of [school["id"]] when [get_school] finds no row. *)
Definition LoginDialog_register_school_users (now : datetime) (db : DB)
    (us : list user) (name pw : string) : option (DB * list user * string) :=
  if (name =? "")%string || (pw =? "")%string
  then Some (db, us, "Enter school name and password")
  else
    let (db', created) :=
      register_school now db name pw DEFAULT_FINE_PER_DAY DEFAULT_LOAN_DAYS in
    if negb created then Some (db', us, "School already exists")
    else
      match get_school db' name with
      | None => None
      | Some sch =>
          Some (db', fst (create_default_admin_for_school us (sc_id sch)),
                ("School '" ++ name ++ "' registered." ++ newline ++
                 "Default admin: username='admin', password='admin'")%string)
      end.

(* ================================================================== *)
(** * Pick-lists *)

(** [SELECT DISTINCT class ... AND class != '' ORDER BY class] *)
Definition get_unique_classes (db : DB) (school_id : Z) : list string :=
  order_by String.leb
    (nodup string_dec
       (filter (fun c => negb (c =? "")%string)
          (map st_class (filter (fun s => st_school_id s =? school_id) (students db))))).

Definition get_unique_authors (db : DB) (school_id : Z) : list string :=
  order_by String.leb
    (nodup string_dec
       (filter (fun a => negb (a =? "")%string)
          (map author (filter (fun b => bk_school_id b =? school_id) (books db))))).

(* ================================================================== *)
(** * Drafts

    [DraftManager] keeps one JSON object, category to field values, in the
    drafts file.  The file is absent, holds such an object, or holds text
    that [json.load] rejects; every failure is caught and printed. *)

Inductive drafts_file : Type :=
| NoFile
| Unreadable
| Drafts (d : list (string * pydict)).

(** [drafts[category] = data] *)
Fixpoint dict_set (d : list (string * pydict)) (category : string) (data : pydict)
    : list (string * pydict) :=
  match d with
  | [] => [(category, data)]
  | kv :: rest =>
      if (fst kv =? category)%string then (category, data) :: rest
      else kv :: dict_set rest category data
  end.

Definition save_draft (f : drafts_file) (category : string) (data : pydict)
    : drafts_file :=
  match f with
  | NoFile => Drafts (dict_set [] category data)
  | Unreadable => Unreadable
  | Drafts d => Drafts (dict_set d category data)
  end.

Definition load_draft (f : drafts_file) (category : string) : pydict :=
  match f with
  | Drafts d =>
      match find (fun kv => (fst kv =? category)%string) d with
      | Some kv => snd kv
      | None => []
      end
  | _ => []
  end.

Definition clear_draft (f : drafts_file) (category : string) : drafts_file :=
  match f with
  | NoFile => NoFile
  | Unreadable => Unreadable
  | Drafts d => Drafts (filter (fun kv => negb (fst kv =? category)%string) d)
  end.

(** The first of [keys] that [data] lacks. *)
Fixpoint first_missing (keys : list string) (data : pydict) : option string :=
  match keys with
  | [] => None
  | k :: rest =>
      match getitem data k with
      | inl _ => Some k
      | inr _ => first_missing rest data
      end
  end.

(** What the windows keep besides [refs_ok]: a book out on loan is a
    circulating one, the settings are within the ranges of the spin boxes,
    and a loan runs for 1 to 365 days. *)
Record window_ok (db : DB) : Prop := mk_window_ok {
  lent_books_circulate :
    forall l b, In l (loans db) -> returned_at l = None ->
                In b (books db) -> bk_id b = book_id l -> non_circulating b = 0;
  settings_in_range :
    forall s, In s (schools db) ->
              0 <= fine_per_day s <= 10000 /\ 1 <= default_loan_days s <= 365;
  loans_run_days :
    forall l, In l (loans db) ->
              exists n, 1 <= n <= 365 /\ due_date l = plus_days (borrowed_at l) n
}.

(* ================================================================== *)
(** * The login dialog

    What [LoginDialog] remembers between its buttons, and the handlers of
    the buttons.  A handler takes the fields it reads, after [.strip()],
    and returns the messages it shows, in order. *)

Record login_dialog : Type := mk_login_dialog {
  ld_school : option string;        (* self.school *)
  ld_school_row : option school;    (* self.school_row *)
  ld_user : option user;            (* self.user *)
  ld_combo : list string;           (* the entries of user_combo *)
  ld_accepted : bool                (* self.accept() was called *)
}.

(** The dialog as [__init__] leaves it. *)
Definition new_login_dialog : login_dialog := mk_login_dialog None None None [] false.

Definition LoginDialog_load_users_for_school (db : DB) (us : list user)
    (d : login_dialog) (name : string) : login_dialog * list string :=
  if (name =? "")%string then (d, ["Enter school name first"])
  else
    match get_school db name with
    | None => (d, ["School not registered yet"])
    | Some sch =>
        (mk_login_dialog (ld_school d) (Some sch) (ld_user d)
                         (map username (list_users us (sc_id sch))) (ld_accepted d),
         [])
    end.

Definition LoginDialog_school_login (db : DB) (us : list user) (d : login_dialog)
    (name pw : string) : login_dialog * list string :=
  if (name =? "")%string || (pw =? "")%string
  then (d, ["Enter school name and password"])
  else
    match validate_school_credentials db name pw with
    | None => (d, ["Wrong school credentials"])
    | Some sch =>
        let d1 := mk_login_dialog (Some (sc_name sch)) (Some sch) (ld_user d)
                                  (ld_combo d) (ld_accepted d) in
        let (d2, shown) := LoginDialog_load_users_for_school db us d1 name in
        (d2, ("Logged in as school: " ++ sc_name sch ++ ". Now login as a user.")%string
             :: shown)
    end.

(** [role_choice] is what the role dialog returns: the role picked, or
    [None] when it is cancelled.  [name] is the school name field, which
    the reload after a creation reads. *)
Definition LoginDialog_create_user (db : DB) (us : list user) (d : login_dialog)
    (name uname pw : string) (role_choice : option string)
    : list user * login_dialog * list string :=
  match ld_school_row d with
  | None => (us, d, ["Load or login a school first"])
  | Some row =>
      if (uname =? "")%string || (pw =? "")%string
      then (us, d, ["Enter username and password"])
      else
        match role_choice with
        | None => (us, d, [])
        | Some role_ =>
            let (us', created) := add_user us (sc_id row) uname pw role_ in
            if negb created then (us', d, ["User likely exists"])
            else
              let (d', shown) := LoginDialog_load_users_for_school db us' d name in
              (us', d',
               ("User " ++ uname ++ " created with role " ++ role_)%string :: shown)
        end
  end.

Definition LoginDialog_user_login (us : list user) (d : login_dialog)
    (uname pw : string) : login_dialog * list string :=
  match ld_school_row d with
  | None => (d, ["Load or login a school first"])
  | Some row =>
      if (uname =? "")%string || (pw =? "")%string
      then (d, ["Enter username and password"])
      else
        match validate_user us (sc_id row) uname pw with
        | None => (d, ["Invalid user credentials"])
        | Some u =>
            (mk_login_dialog (ld_school d) (ld_school_row d) (Some u) (ld_combo d) true,
             [])
        end
  end.

Definition ROLES : list string := ["Admin"; "Librarian"; "Assistant"].

(** The school a call is made for; a registration is made for none. *)
Definition call_school (c : db_call) : option Z :=
  match c with
  | RegisterSchool _ _ _ _ => None
  | UpdateSchoolSettings school_id _ _ => Some school_id
  | AddStudent school_id _ _ _ => Some school_id
  | DeleteStudent school_id _ => Some school_id
  | AddBook school_id _ _ _ _ _ => Some school_id
  | DeleteBook school_id _ => Some school_id
  | UndoDeletion school_id _ => Some school_id
  | BorrowBook school_id _ _ _ => Some school_id
  | ReturnBook school_id _ => Some school_id
  end.

(** The rows of a school: its students, books, loans and undo entries. *)
Definition school_rows (db : DB) (school_id : Z)
    : list student * list book * list loan * list undo_entry :=
  (filter (fun s => st_school_id s =? school_id) (students db),
   filter (fun b => bk_school_id b =? school_id) (books db),
   filter (fun l => ln_school_id l =? school_id) (loans db),
   filter (fun u => un_school_id u =? school_id) (undo_log db)).

(* ================================================================== *)
(** * Basic facts about the store *)

Lemma set_students_same (db : DB) : set_students db (students db) = db.
Proof. destruct db; reflexivity. Qed.

Lemma set_books_same (db : DB) : set_books db (books db) = db.
Proof. destruct db; reflexivity. Qed.

Lemma fold_max_upper (i : Z) (rest : list Z) (x : Z) :
  In x (i :: rest) -> x <= fold_right Z.max i rest.
Proof.
  induction rest as [|j rest IH]; simpl.
  - intros [->|[]]. lia.
  - intros [->|[->|Hin]].
    + specialize (IH (or_introl eq_refl)). lia.
    + lia.
    + specialize (IH (or_intror Hin)). lia.
Qed.

(** A new rowid is above every rowid of the table. *)
Lemma next_rowid_above (ids : list Z) (x : Z) : In x ids -> x < next_rowid ids.
Proof.
  destruct ids as [|i rest]; [intros []|].
  intros Hin. unfold next_rowid. pose proof (fold_max_upper i rest x Hin). lia.
Qed.

Lemma next_rowid_fresh (ids : list Z) : ~ In (next_rowid ids) ids.
Proof. intros Hin. apply next_rowid_above in Hin. lia. Qed.

Lemma filter_all {A : Type} (f : A -> bool) (l : list A) :
  (forall x, In x l -> f x = true) -> filter f l = l.
Proof.
  induction l as [|a l IH]; simpl; intros H; [reflexivity|].
  rewrite (H a (or_introl eq_refl)). f_equal. apply IH. intros x Hx. apply H. now right.
Qed.

Lemma filter_none {A : Type} (f : A -> bool) (l : list A) :
  (forall x, In x l -> f x = false) -> filter f l = [].
Proof.
  induction l as [|a l IH]; simpl; intros H; [reflexivity|].
  rewrite (H a (or_introl eq_refl)). apply IH. intros x Hx. apply H. now right.
Qed.

Lemma filter_nil_inv {A : Type} (f : A -> bool) (l : list A) :
  filter f l = [] -> forall x, In x l -> f x = false.
Proof.
  intros H x Hx. destruct (f x) eqn:E; [|reflexivity].
  assert (Hin : In x (filter f l)) by (apply filter_In; split; assumption).
  rewrite H in Hin. contradiction.
Qed.

Lemma find_none_existsb {A : Type} (f : A -> bool) (l : list A) :
  find f l = None <-> existsb f l = false.
Proof.
  induction l as [|a l IH]; simpl; [tauto|].
  destruct (f a); simpl; [split; discriminate|exact IH].
Qed.

Lemma find_app_miss {A : Type} (f : A -> bool) (l l' : list A) :
  find f l = None -> find f (l ++ l') = find f l'.
Proof.
  induction l as [|a l IH]; simpl; [reflexivity|].
  destruct (f a); [discriminate|exact IH].
Qed.

Lemma find_app_hit {A : Type} (f : A -> bool) (l l' : list A) (x : A) :
  find f l = Some x -> find f (l ++ l') = Some x.
Proof.
  induction l as [|a l IH]; simpl; [discriminate|].
  destruct (f a); [tauto|exact IH].
Qed.

Lemma find_filter_neg {A : Type} (f : A -> bool) (l : list A) :
  find f (filter (fun x => negb (f x)) l) = None.
Proof.
  induction l as [|a l IH]; simpl; [reflexivity|].
  destruct (f a) eqn:E; simpl; [exact IH|]. rewrite E. exact IH.
Qed.

Lemma add_days_spec now n :
  (representable now n /\ add_days now n = Returned (plus_days now n))
  \/ (~ representable now n /\ add_days now n = Raised OverflowError).
Proof.
  unfold add_days, is_datetime, representable, plus_days.
  generalize (n * US_PER_DAY) (MAX_ORDINAL * US_PER_DAY). intros d m.
  destruct (Z.leb_spec (Z.abs n) MAX_DELTA_DAYS) as [Hn|Hn]; cbn [andb];
    [|right; split; [lia|reflexivity]].
  destruct (Z.leb_spec 0 (now + d)) as [H0|H0]; cbn [andb];
    [|right; split; [lia|reflexivity]].
  destruct (Z.ltb_spec (now + d) m) as [H1|H1];
    [left|right]; (split; [lia|reflexivity]).
Qed.

Lemma add_days_representable now n :
  representable now n -> add_days now n = Returned (plus_days now n).
Proof. intros H. destruct (add_days_spec now n) as [[_ E]|[Hn _]]; tauto. Qed.

Lemma add_days_overflow now n :
  ~ representable now n -> add_days now n = Raised OverflowError.
Proof. intros H. destruct (add_days_spec now n) as [[Hn _]|[_ E]]; tauto. Qed.

Lemma active_loans_in db school_id bk l :
  In l (active_loans db school_id bk) <->
  In l (loans db) /\ ln_school_id l = school_id /\ book_id l = bk /\ returned_at l = None.
Proof.
  unfold active_loans. rewrite filter_In. unfold active_loan_of.
  rewrite !andb_true_iff, !Z.eqb_eq.
  destruct (returned_at l); simpl; intuition congruence.
Qed.

Lemma active_loans_none db school_id book :
  active_loans db school_id book = [] <->
  (forall l, ~ unreturned db school_id book l).
Proof.
  split.
  - intros H l Hl. apply active_loans_in in Hl. rewrite H in Hl. exact Hl.
  - intros H. destruct (active_loans db school_id book) as [|l rest] eqn:E;
      [reflexivity|].
    exfalso. apply (H l), active_loans_in. rewrite E. now left.
Qed.

Lemma borrow_book_free now db school_id book student days :
  active_loans db school_id book = [] ->
  representable now (loan_days db school_id days) ->
  borrow_book now db school_id book student days =
  Returned
    (set_loans db (loans db ++ [new_loan now db school_id book student days]),
     (true, BorrowRecorded)).
Proof.
  intros H Hr. unfold borrow_book. rewrite H. cbv zeta.
  fold (loan_days db school_id days). rewrite (add_days_representable _ _ Hr).
  reflexivity.
Qed.

Lemma borrow_book_overflow now db school_id book student days :
  active_loans db school_id book = [] ->
  ~ representable now (loan_days db school_id days) ->
  borrow_book now db school_id book student days = Raised OverflowError.
Proof.
  intros H Hr. unfold borrow_book. rewrite H. cbv zeta.
  fold (loan_days db school_id days). rewrite (add_days_overflow _ _ Hr).
  reflexivity.
Qed.

Lemma borrow_book_taken now db school_id book student days :
  active_loans db school_id book <> [] ->
  borrow_book now db school_id book student days =
  Returned (db, (false, BookAlreadyBorrowed)).
Proof.
  intros H. unfold borrow_book.
  destruct (active_loans db school_id book); [congruence|reflexivity].
Qed.

(** The three ways a call of [borrow_book] ends. *)
Lemma borrow_book_cases now db school_id book student days :
  (active_loans db school_id book <> []
   /\ borrow_book now db school_id book student days =
      Returned (db, (false, BookAlreadyBorrowed)))
  \/ (active_loans db school_id book = []
      /\ ~ representable now (loan_days db school_id days)
      /\ borrow_book now db school_id book student days = Raised OverflowError)
  \/ (active_loans db school_id book = []
      /\ representable now (loan_days db school_id days)
      /\ borrow_book now db school_id book student days =
         Returned
           (set_loans db (loans db ++ [new_loan now db school_id book student days]),
            (true, BorrowRecorded))).
Proof.
  destruct (active_loans db school_id book) as [|l rest] eqn:Hact.
  - right. destruct (add_days_spec now (loan_days db school_id days)) as [[Hr _]|[Hr _]].
    + right. split; [reflexivity|]. split; [exact Hr|]. now apply borrow_book_free.
    + left. split; [reflexivity|]. split; [exact Hr|]. now apply borrow_book_overflow.
  - left. split; [discriminate|]. apply borrow_book_taken. rewrite Hact. discriminate.
Qed.

Lemma return_book_none now db school_id book :
  active_loans db school_id book = [] ->
  return_book now db school_id book = (db, (false, NoActiveLoan)).
Proof. intros H. unfold return_book. rewrite H. reflexivity. Qed.

Lemma get_school_by_id_set_loans db x school_id :
  get_school_by_id (set_loans db x) school_id = get_school_by_id db school_id.
Proof. reflexivity. Qed.

(** The shape of a successful [return_book]. *)
Lemma return_book_some now db school_id book r rest :
  active_loans db school_id book = r :: rest ->
  return_book now db school_id book =
  (set_loans db (map (stamp_returned now (ln_id r)) (loans db)),
   (true,
    if 0 <? date now - date (due_date r)
    then ReturnedFine ((date now - date (due_date r)) * fine_rate db school_id)
                      (date now - date (due_date r))
    else ReturnedNoFine)).
Proof.
  intros H. unfold return_book. rewrite H. cbv zeta.
  rewrite get_school_by_id_set_loans. fold (fine_rate db school_id).
  destruct (0 <? date now - date (due_date r)); reflexivity.
Qed.

(* ================================================================== *)
(** * Borrowing checks the ledger and nothing else *)

Lemma get_school_by_id_row db school_id sch :
  school_row db school_id sch -> get_school_by_id db school_id = Some sch.
Proof.
  intros [Hin [Hid Huniq]]. unfold get_school_by_id.
  destruct (find (fun s => sc_id s =? school_id) (schools db)) as [s|] eqn:Hf.
  - apply find_some in Hf. destruct Hf as [Hs Hk]. apply Z.eqb_eq in Hk.
    now rewrite (Huniq s Hs Hk).
  - exfalso. apply (find_none _ _ Hf) in Hin. rewrite Hid, Z.eqb_refl in Hin.
    discriminate.
Qed.

Lemma get_school_by_id_missing db school_id :
  (forall s, In s (schools db) -> sc_id s <> school_id) ->
  get_school_by_id db school_id = None.
Proof.
  intros H. unfold get_school_by_id.
  destruct (find (fun s => sc_id s =? school_id) (schools db)) as [s|] eqn:Hf;
    [|reflexivity].
  apply find_some in Hf. destruct Hf as [Hs Hk]. apply Z.eqb_eq in Hk.
  now destruct (H s Hs).
Qed.

Lemma fine_rate_row db school_id sch :
  school_row db school_id sch -> fine_rate db school_id = fine_per_day sch.
Proof. intros H. unfold fine_rate. now rewrite (get_school_by_id_row _ _ _ H). Qed.

Lemma loan_days_row db school_id sch :
  school_row db school_id sch -> loan_days db school_id None = default_loan_days sch.
Proof. intros H. unfold loan_days. now rewrite (get_school_by_id_row _ _ _ H). Qed.

(** The claim of C10 as it is written fails: with no active loan for the
    book, a loan of 4000000 days made on 5 November 2026 (739924 days after
    1 January of the year 1) is due after the year 9999; [borrow_book] raises
    [OverflowError] and the loans are as before.  The same happens without
    a [days] argument in a school registered with such a loan period. *)
Lemma borrow_book_beyond_the_calendar :
  active_loans empty_db 1 101 = []
  /\ borrow_book (739924 * US_PER_DAY) empty_db 1 101 1 (Some 4000000)
     = Raised OverflowError
  /\ call (739924 * US_PER_DAY) (BorrowBook 1 101 1 (Some 4000000)) empty_db
     = (empty_db, RRaised OverflowError)
  /\ active_loans
       (run [(0, RegisterSchool "Oakview" "secret" 10 4000000)] empty_db) 1 101 = []
  /\ call (739924 * US_PER_DAY) (BorrowBook 1 101 1 None)
          (run [(0, RegisterSchool "Oakview" "secret" 10 4000000)] empty_db)
     = (run [(0, RegisterSchool "Oakview" "secret" 10 4000000)] empty_db,
        RRaised OverflowError).
Proof. repeat split. Qed.

(** C10, amended.  [borrow_book] looks at the loans of the book and at no
    other table: in every store where no loan row of [(school_id, book)] is
    unreturned, and for a loan period whose due date Python can hold, it
    succeeds and inserts the loan row, whatever the [books] and [students]
    tables hold, hence also when no row with these ids exists (the foreign
    keys of the schema are declared, not enforced).  When the due date
    cannot be held it raises [OverflowError]. *)
Theorem borrow_book_checks_no_reference :
  forall now db school_id book student days,
    (forall l, In l (loans db) -> ln_school_id l = school_id ->
               book_id l = book -> returned_at l <> None) ->
    let n := loan_days db school_id days in
    let row := mk_loan (next_rowid (map ln_id (loans db))) school_id book student
                       now (now + n * US_PER_DAY) None 0 in
    (representable now n ->
       borrow_book now db school_id book student days =
         Returned (set_loans db (loans db ++ [row]), (true, BorrowRecorded))
       /\ msg_text BorrowRecorded = "Borrow recorded"
       /\ (forall bs ss,
             borrow_book now (set_books (set_students db ss) bs)
                         school_id book student days =
             Returned
               (set_books (set_students (set_loans db (loans db ++ [row])) ss) bs,
                (true, BorrowRecorded))))
    /\ (~ representable now n ->
          forall bs ss,
            borrow_book now (set_books (set_students db ss) bs)
                        school_id book student days = Raised OverflowError)
    /\ (forall d, days = Some d -> n = d)
    /\ (forall sch,
          days = None -> In sch (schools db) -> sc_id sch = school_id ->
          (forall s, In s (schools db) -> sc_id s = school_id -> s = sch) ->
          n = default_loan_days sch)
    /\ (days = None -> (forall s, In s (schools db) -> sc_id s <> school_id) ->
        n = 14).
Proof.
  intros now db school_id book student days Hfree n row.
  assert (Hact : active_loans db school_id book = []).
  { apply active_loans_none. intros l [Hl [Hs [Hb Hr]]].
    exact (Hfree l Hl Hs Hb Hr). }
  split; [|split; [|split; [|split]]].
  - intros Hr. split; [apply borrow_book_free; assumption|].
    split; [reflexivity|].
    intros bs ss. rewrite borrow_book_free; [reflexivity|exact Hact|exact Hr].
  - intros Hr bs ss. apply borrow_book_overflow; assumption.
  - intros d ->. reflexivity.
  - intros sch -> Hin Hid Huniq.
    exact (loan_days_row db school_id sch (conj Hin (conj Hid Huniq))).
  - intros -> Hnone. unfold n, loan_days.
    now rewrite (get_school_by_id_missing _ _ Hnone).
Qed.

(** In a school whose loans run 7 days and that has neither a book nor a
    student, book 7 goes to student 9 and is due a week later. *)
Lemma borrow_book_checks_no_reference_witness :
  books (run [(0, RegisterSchool "Oakview" "secret" 10 7)] empty_db) = []
  /\ students (run [(0, RegisterSchool "Oakview" "secret" 10 7)] empty_db) = []
  /\ borrow_book (739924 * US_PER_DAY)
       (run [(0, RegisterSchool "Oakview" "secret" 10 7)] empty_db) 1 7 9 None
     = Returned
         (mk_DB [mk_school 1 "Oakview" "secret" 0 10 7] [] []
                [mk_loan 1 1 7 9 (739924 * US_PER_DAY) (739931 * US_PER_DAY) None 0]
                [],
          (true, BorrowRecorded)).
Proof.
  split; [reflexivity|]. split; [reflexivity|].
  refine (eq_trans
            (proj1 (proj1 (borrow_book_checks_no_reference
                             (739924 * US_PER_DAY)
                             (run [(0, RegisterSchool "Oakview" "secret" 10 7)] empty_db)
                             1 7 9 None _) _)) _).
  - intros l Hl. destruct Hl.
  - unfold representable. vm_compute. repeat split; discriminate.
  - reflexivity.
Defined.

(* ================================================================== *)
(** * Returning *)

Lemma stamp_returned_hit at_ l :
  stamp_returned at_ (ln_id l) l
  = mk_loan (ln_id l) (ln_school_id l) (book_id l) (student_id l)
            (borrowed_at l) (due_date l) (Some at_) (fine_paid l).
Proof. unfold stamp_returned. now rewrite Z.eqb_refl. Qed.

Lemma stamp_other at_ id l : ln_id l <> id -> stamp_returned at_ id l = l.
Proof.
  intros H. unfold stamp_returned.
  destruct (Z.eqb_spec (ln_id l) id); [contradiction|reflexivity].
Qed.

Lemma stamp_keeps_id at_ id l : ln_id (stamp_returned at_ id l) = ln_id l.
Proof. unfold stamp_returned. destruct (ln_id l =? id); reflexivity. Qed.

Lemma stamp_keeps_ids at_ id ls :
  map ln_id (map (stamp_returned at_ id) ls) = map ln_id ls.
Proof. rewrite map_map. apply map_ext. intros l. apply stamp_keeps_id. Qed.

(** C8.  The book has an active loan in the school when some loan row of
    the school and the book has no return timestamp.  [return_book]
    answers [(False, "No active loan")], the store untouched, exactly when
    there is no such row; otherwise it answers [True] and one such row,
    with every row that shares its id, now carries [returned_at = now] and
    is thus not active any more, the other rows being as they were. *)
Theorem return_book_fails_iff_no_active_loan :
  forall now db school_id book,
    let active l :=
      In l (loans db) /\ ln_school_id l = school_id /\ book_id l = book
      /\ returned_at l = None in
    let db' := fst (return_book now db school_id book) in
    (fst (snd (return_book now db school_id book)) = false
       <-> ~ exists l, active l)
    /\ ((~ exists l, active l) ->
          return_book now db school_id book = (db, (false, NoActiveLoan))
          /\ msg_text NoActiveLoan = "No active loan")
    /\ ((exists l, active l) ->
          exists l,
            active l
            /\ fst (snd (return_book now db school_id book)) = true
            /\ In (mk_loan (ln_id l) school_id book (student_id l) (borrowed_at l)
                           (due_date l) (Some now) (fine_paid l))
                  (loans db')
            /\ (forall l', In l' (loans db') -> ln_id l' = ln_id l ->
                           returned_at l' = Some now)
            /\ (forall l', In l' (loans db) -> ln_id l' <> ln_id l ->
                           In l' (loans db'))
            /\ map ln_id (loans db') = map ln_id (loans db))
    /\ (active_loans db school_id book = [] <-> ~ exists l, active l).
Proof.
  intros now db school_id book active db'.
  assert (Hlink : active_loans db school_id book = [] <-> ~ exists l, active l).
  { rewrite active_loans_none. split.
    - intros H [l Hl]. exact (H l Hl).
    - intros H l Hl. apply H. now exists l. }
  destruct (active_loans db school_id book) as [|r rest] eqn:Hact.
  - assert (Hnone : ~ exists l, active l) by now apply Hlink.
    unfold db'. rewrite (return_book_none _ _ _ _ Hact). simpl.
    split; [tauto|]. split; [split; reflexivity|]. split; [contradiction|exact Hlink].
  - assert (Hr : active r).
    { apply active_loans_in. rewrite Hact. now left. }
    assert (Hsome : exists l, active l) by now exists r.
    unfold db'. rewrite (return_book_some _ _ _ _ _ _ Hact). simpl.
    split; [split; [discriminate|contradiction]|].
    split; [contradiction|]. split; [|exact Hlink].
    intros _. exists r. split; [exact Hr|]. split; [reflexivity|].
    destruct Hr as [Hin [Hs [Hb Hnull]]].
    split.
    { rewrite <- Hs, <- Hb, <- stamp_returned_hit.
      now apply in_map. }
    split.
    { intros l' Hl' Hid. apply in_map_iff in Hl'. destruct Hl' as [l0 [<- Hl0]].
      unfold stamp_returned in *.
      destruct (Z.eqb_spec (ln_id l0) (ln_id r)); [reflexivity|contradiction]. }
    split.
    { intros l' Hl' Hid. rewrite <- (stamp_other now (ln_id r) l' Hid).
      now apply in_map. }
    apply stamp_keeps_ids.
Qed.

(** Nothing to return in a new store.  In Oakview, where book 7 is out,
    the return is accepted and stamps the loan; a second return of the
    book is refused. *)
Lemma return_book_fails_iff_no_active_loan_witness :
  return_book 5 empty_db 1 7 = (empty_db, (false, NoActiveLoan))
  /\ loans (run one_loan_history empty_db)
     = [mk_loan 1 1 7 9 1 (1 + 14 * US_PER_DAY) None 0]
  /\ fst (snd (return_book 30 (run one_loan_history empty_db) 1 7)) = true
  /\ loans (fst (return_book 30 (run one_loan_history empty_db) 1 7))
     = [mk_loan 1 1 7 9 1 (1 + 14 * US_PER_DAY) (Some 30) 0]
  /\ return_book 31 (fst (return_book 30 (run one_loan_history empty_db) 1 7)) 1 7
     = (fst (return_book 30 (run one_loan_history empty_db) 1 7),
        (false, NoActiveLoan)).
Proof.
  split.
  { apply (proj1 (proj2 (return_book_fails_iff_no_active_loan 5 empty_db 1 7))).
    intros [l [[] _]]. }
  split; [reflexivity|]. split.
  { destruct (proj1 (proj2 (proj2 (return_book_fails_iff_no_active_loan 30
                (run one_loan_history empty_db) 1 7)))) as [l [_ [H _]]].
    - exists (mk_loan 1 1 7 9 1 (1 + 14 * US_PER_DAY) None 0).
      split; [now left|]. repeat split.
    - exact H. }
  split; [reflexivity|].
  apply (proj1 (proj2 (return_book_fails_iff_no_active_loan 31
           (fst (return_book 30 (run one_loan_history empty_db) 1 7)) 1 7))).
  intros [l [[<-|[]] [_ [_ H]]]]. discriminate.
Defined.

(* ================================================================== *)
(** * Uniqueness of admission numbers *)

Lemma add_student_duplicate db school_id adm name klass :
  find_student db school_id adm <> None ->
  insert_student db school_id adm name klass = IntegrityError
  /\ add_student db school_id adm name klass = (db, false).
Proof.
  intros H. unfold add_student, insert_student.
  destruct (existsb (student_key school_id adm) (students db)) eqn:E; [tauto|].
  apply find_none_existsb in E. contradiction.
Qed.

Lemma add_student_new db school_id adm name klass :
  find_student db school_id adm = None ->
  add_student db school_id adm name klass =
  (set_students db
     (students db ++
      [mk_student (next_rowid (map st_id (students db))) school_id adm name klass]),
   true).
Proof.
  intros H. unfold add_student, insert_student.
  apply find_none_existsb in H. unfold find_student in H. rewrite H. reflexivity.
Qed.

Lemma student_key_self school_id adm id name klass :
  student_key school_id adm (mk_student id school_id adm name klass) = true.
Proof. unfold student_key; simpl. now rewrite Z.eqb_refl, String.eqb_refl. Qed.

Lemma student_key_other_school school_id school_id' adm adm' id name klass :
  school_id' <> school_id ->
  student_key school_id' adm' (mk_student id school_id adm name klass) = false.
Proof.
  intros H. unfold student_key; simpl.
  destruct (Z.eqb_spec school_id school_id'); [congruence|reflexivity].
Qed.

(** C7.  Once a student with admission number [adm] has been added to a
    school, adding [adm] to that school again hits the [UNIQUE] constraint:
    the [IntegrityError] is caught, [add_student] returns [False] and the
    store is as before.  Under another school, where [adm] is not taken,
    the same number is accepted and the student is inserted. *)
Theorem add_student_unique_within_school :
  forall db school_id adm name klass db1,
    add_student db school_id adm name klass = (db1, true) ->
    (forall name' klass',
        insert_student db1 school_id adm name' klass' = IntegrityError
        /\ add_student db1 school_id adm name' klass' = (db1, false))
    /\ (forall school_id' name' klass',
          school_id' <> school_id ->
          find_student db school_id' adm = None ->
          exists db2 s,
            add_student db1 school_id' adm name' klass' = (db2, true)
            /\ find_student db2 school_id' adm = Some s
            /\ st_name s = name' /\ st_class s = klass'
            /\ find_student db2 school_id adm = find_student db1 school_id adm).
Proof.
  intros db school_id adm name klass db1 Hadd.
  destruct (find_student db school_id adm) eqn:Hfind.
  { destruct (add_student_duplicate db school_id adm name klass) as [_ H];
      [congruence|]. rewrite H in Hadd. discriminate. }
  rewrite (add_student_new _ _ _ _ _ Hfind) in Hadd. injection Hadd as <-.
  set (row := mk_student (next_rowid (map st_id (students db))) school_id adm name klass).
  assert (Hhere : find_student (set_students db (students db ++ [row])) school_id adm
                  = Some row).
  { unfold find_student; simpl. rewrite find_app_miss by exact Hfind.
    simpl. unfold row. now rewrite student_key_self. }
  split.
  - intros name' klass'. apply add_student_duplicate. rewrite Hhere. discriminate.
  - intros school_id' name' klass' Hneq Hfree.
    set (db1 := set_students db (students db ++ [row])).
    assert (Hfree1 : find_student db1 school_id' adm = None).
    { unfold find_student, db1; simpl. rewrite find_app_miss by exact Hfree.
      simpl. unfold row. now rewrite student_key_other_school. }
    set (row' := mk_student (next_rowid (map st_id (students db1))) school_id' adm
                            name' klass').
    exists (set_students db1 (students db1 ++ [row'])), row'.
    split; [apply add_student_new; exact Hfree1|].
    split.
    { unfold find_student; simpl. rewrite find_app_miss by exact Hfree1.
      simpl. unfold row'. now rewrite student_key_self. }
    split; [reflexivity|]. split; [reflexivity|].
    fold db1 in Hhere. rewrite Hhere.
    unfold find_student; simpl. apply find_app_hit. exact Hhere.
Qed.

(** Two schools, 1 and 2, both without students: "A100" goes in once per
    school. *)
Lemma add_student_unique_within_school_witness :
  add_student (fst (add_student empty_db 1 "A100" "Jane" "4B")) 1 "A100" "Joan" "5C"
  = (fst (add_student empty_db 1 "A100" "Jane" "4B"), false)
  /\ snd (add_student (fst (add_student empty_db 1 "A100" "Jane" "4B")) 2 "A100" "Joan" "5C")
     = true.
Proof.
  pose proof (add_student_unique_within_school empty_db 1 "A100" "Jane" "4B"
                (fst (add_student empty_db 1 "A100" "Jane" "4B")) eq_refl) as [H1 H2].
  split.
  - exact (proj2 (H1 "Joan" "5C")).
  - destruct (H2 2 "Joan" "5C") as [db2 [s [H _]]]; [discriminate|reflexivity|].
    rewrite H. reflexivity.
Defined.

(* ================================================================== *)
(** * Deleting snapshots first *)

Lemma find_none_filter_neg {A : Type} (f : A -> bool) (l : list A) :
  find f l = None -> filter (fun x => negb (f x)) l = l.
Proof.
  intros H. apply filter_all. intros x Hx.
  destruct (f x) eqn:E; [|reflexivity].
  exfalso. apply find_none_existsb in H.
  assert (existsb f l = true) by (apply existsb_exists; exists x; tauto). congruence.
Qed.

Lemma student_key_true school_id adm s :
  student_key school_id adm s = true <-> st_school_id s = school_id /\ admission_no s = adm.
Proof. unfold student_key. now rewrite andb_true_iff, Z.eqb_eq, String.eqb_eq. Qed.

Lemma book_key_true school_id bc b :
  book_key school_id bc b = true <-> bk_school_id b = school_id /\ barcode b = bc.
Proof. unfold book_key. now rewrite andb_true_iff, Z.eqb_eq, String.eqb_eq. Qed.

Lemma find_student_absent db school_id adm :
  (forall s, ~ (In s (students db) /\ st_school_id s = school_id
                /\ admission_no s = adm)) ->
  find_student db school_id adm = None.
Proof.
  intros H. unfold find_student.
  destruct (find (student_key school_id adm) (students db)) as [s|] eqn:Hf;
    [|reflexivity].
  apply find_some in Hf. destruct Hf as [Hs Hk]. apply student_key_true in Hk.
  destruct (H s). tauto.
Qed.

Lemma find_book_absent db school_id bc :
  (forall b, ~ (In b (books db) /\ bk_school_id b = school_id /\ barcode b = bc)) ->
  find_book db school_id bc = None.
Proof.
  intros H. unfold find_book.
  destruct (find (book_key school_id bc) (books db)) as [b|] eqn:Hf; [|reflexivity].
  apply find_some in Hf. destruct Hf as [Hb Hk]. apply book_key_true in Hk.
  destruct (H b). tauto.
Qed.

(** C6.  [delete_student] with a row of the school that has the admission
    number: the undo log gets exactly one new entry, for table "students",
    stamped now, whose record holds every column of one such row under the
    name of the column, which is what [dict(row)] gives; the entry is
    written to the store as it was, the row in its table, and then the
    rows with the key are deleted and no other row.  The other tables are
    as before.  Without such a row the store stays as
    it is and nothing is raised.  [delete_book] does the same with the
    seven columns of a book. *)
Theorem delete_snapshots_then_deletes :
  forall now db school_id key,
    ((exists row, In row (students db) /\ st_school_id row = school_id
                  /\ admission_no row = key) ->
     exists row,
       In row (students db) /\ st_school_id row = school_id
       /\ admission_no row = key
       /\ undo_log (delete_student now db school_id key)
          = undo_log db ++
            [mk_undo (next_rowid (map un_id (undo_log db))) school_id "students"
               [("id", JInt (st_id row)); ("school_id", JInt (st_school_id row));
                ("admission_no", JStr (admission_no row));
                ("name", JStr (st_name row)); ("class", JStr (st_class row))]
               now]
       /\ students (delete_student now db school_id key)
          = filter (fun s => negb ((st_school_id s =? school_id)
                                   && (admission_no s =? key)%string))
                   (students db)
       /\ ~ In row (students (delete_student now db school_id key))
       /\ (forall s, In s (students db) ->
                     st_school_id s <> school_id \/ admission_no s <> key ->
                     In s (students (delete_student now db school_id key)))
       /\ delete_student now db school_id key
          = set_students
              (set_undo_log db
                 (undo_log db ++
                  [mk_undo (next_rowid (map un_id (undo_log db))) school_id
                     "students" (student_dict row) now]))
              (filter (fun s => negb ((st_school_id s =? school_id)
                                      && (admission_no s =? key)%string))
                      (students db)))
    /\ ((forall row, In row (students db) ->
                     ~ (st_school_id row = school_id /\ admission_no row = key)) ->
        delete_student now db school_id key = db)
    /\ ((exists row, In row (books db) /\ bk_school_id row = school_id
                     /\ barcode row = key) ->
        exists row,
          In row (books db) /\ bk_school_id row = school_id /\ barcode row = key
          /\ undo_log (delete_book now db school_id key)
             = undo_log db ++
               [mk_undo (next_rowid (map un_id (undo_log db))) school_id "books"
                  [("id", JInt (bk_id row)); ("school_id", JInt (bk_school_id row));
                   ("title", JStr (title row)); ("author", JStr (author row));
                   ("barcode", JStr (barcode row));
                   ("non_circulating", JInt (non_circulating row));
                   ("condition", JStr (condition row))]
                  now]
          /\ books (delete_book now db school_id key)
             = filter (fun b => negb ((bk_school_id b =? school_id)
                                      && (barcode b =? key)%string))
                      (books db)
          /\ ~ In row (books (delete_book now db school_id key))
          /\ (forall b, In b (books db) ->
                        bk_school_id b <> school_id \/ barcode b <> key ->
                        In b (books (delete_book now db school_id key)))
          /\ delete_book now db school_id key
             = set_books
                 (set_undo_log db
                    (undo_log db ++
                     [mk_undo (next_rowid (map un_id (undo_log db))) school_id
                        "books" (book_dict row) now]))
                 (filter (fun b => negb ((bk_school_id b =? school_id)
                                         && (barcode b =? key)%string))
                         (books db)))
    /\ ((forall row, In row (books db) ->
                     ~ (bk_school_id row = school_id /\ barcode row = key)) ->
        delete_book now db school_id key = db).
Proof.
  intros now db school_id key. split; [|split; [|split]].
  - intros [row0 [Hin0 [Hs0 Hk0]]].
    destruct (find_student db school_id key) as [row|] eqn:Hf.
    + pose proof (find_some _ _ Hf) as [Hin Hkey].
      apply student_key_true in Hkey. destruct Hkey as [Hs Hk].
      exists row. unfold delete_student. rewrite Hf. cbv zeta.
      split; [exact Hin|]. split; [exact Hs|]. split; [exact Hk|].
      split; [reflexivity|]. split; [reflexivity|]. split; [|split].
      * simpl. intros H. apply filter_In in H. destruct H as [_ H].
        assert (student_key school_id key row = true)
          by (apply student_key_true; tauto).
        rewrite H0 in H. discriminate.
      * intros s Hs' Hother. simpl. apply filter_In. split; [exact Hs'|].
        destruct (student_key school_id key s) eqn:E; [|reflexivity].
        apply student_key_true in E. tauto.
      * reflexivity.
    + exfalso. apply (find_none _ _ Hf) in Hin0.
      assert (student_key school_id key row0 = true)
        by (apply student_key_true; tauto).
      congruence.
  - intros Hnone. unfold delete_student.
    rewrite (find_student_absent db school_id key)
      by (intros s Hs; apply (Hnone s); tauto).
    cbv zeta. rewrite find_none_filter_neg; [apply set_students_same|].
    apply (find_student_absent db school_id key).
    intros s Hs. apply (Hnone s); tauto.
  - intros [row0 [Hin0 [Hs0 Hk0]]].
    destruct (find_book db school_id key) as [row|] eqn:Hf.
    + pose proof (find_some _ _ Hf) as [Hin Hkey].
      apply book_key_true in Hkey. destruct Hkey as [Hs Hk].
      exists row. unfold delete_book. rewrite Hf. cbv zeta.
      split; [exact Hin|]. split; [exact Hs|]. split; [exact Hk|].
      split; [reflexivity|]. split; [reflexivity|]. split; [|split].
      * simpl. intros H. apply filter_In in H. destruct H as [_ H].
        assert (book_key school_id key row = true)
          by (apply book_key_true; tauto).
        rewrite H0 in H. discriminate.
      * intros b Hb' Hother. simpl. apply filter_In. split; [exact Hb'|].
        destruct (book_key school_id key b) eqn:E; [|reflexivity].
        apply book_key_true in E. tauto.
      * reflexivity.
    + exfalso. apply (find_none _ _ Hf) in Hin0.
      assert (book_key school_id key row0 = true)
        by (apply book_key_true; tauto).
      congruence.
  - intros Hnone. unfold delete_book.
    rewrite (find_book_absent db school_id key)
      by (intros b Hb; apply (Hnone b); tauto).
    cbv zeta. rewrite find_none_filter_neg; [apply set_books_same|].
    apply (find_book_absent db school_id key).
    intros b Hb. apply (Hnone b); tauto.
Qed.

(** On the shelf: deleting "A100" at 7 leaves "A200" and logs the five
    columns of Jane's row; deleting the reference book "B1" at 8 logs its
    seven columns; deleting the unknown "A999" changes nothing. *)
Lemma delete_snapshots_then_deletes_witness :
  students (run shelf_history empty_db)
  = [mk_student 1 1 "A100" "Jane" "4B"; mk_student 2 1 "A200" "Joan" "5C"]
  /\ books (run shelf_history empty_db) = [mk_book 1 1 "Emma" "Austen" "B1" 1 "Good"]
  /\ undo_log (delete_student 7 (run shelf_history empty_db) 1 "A100")
     = [mk_undo 1 1 "students"
          [("id", JInt 1); ("school_id", JInt 1); ("admission_no", JStr "A100");
           ("name", JStr "Jane"); ("class", JStr "4B")] 7]
  /\ students (delete_student 7 (run shelf_history empty_db) 1 "A100")
     = [mk_student 2 1 "A200" "Joan" "5C"]
  /\ undo_log (delete_book 8 (run shelf_history empty_db) 1 "B1")
     = [mk_undo 1 1 "books"
          [("id", JInt 1); ("school_id", JInt 1); ("title", JStr "Emma");
           ("author", JStr "Austen"); ("barcode", JStr "B1");
           ("non_circulating", JInt 1); ("condition", JStr "Good")] 8]
  /\ books (delete_book 8 (run shelf_history empty_db) 1 "B1") = []
  /\ delete_student 9 (run shelf_history empty_db) 1 "A999" = run shelf_history empty_db.
Proof.
  destruct (delete_snapshots_then_deletes 7 (run shelf_history empty_db) 1 "A100")
    as [Hst _].
  destruct (delete_snapshots_then_deletes 8 (run shelf_history empty_db) 1 "B1")
    as [_ [_ [Hbk _]]].
  destruct (delete_snapshots_then_deletes 9 (run shelf_history empty_db) 1 "A999")
    as [_ [Hnone _]].
  split; [reflexivity|]. split; [reflexivity|].
  destruct Hst as [row [Hin [_ [Hkey [Hlog [Hrows _]]]]]].
  { exists (mk_student 1 1 "A100" "Jane" "4B"). split; [now left|split; reflexivity]. }
  destruct Hbk as [brow [Hbin [_ [Hbkey [Hblog [Hbrows _]]]]]].
  { exists (mk_book 1 1 "Emma" "Austen" "B1" 1 "Good").
    split; [now left|split; reflexivity]. }
  assert (row = mk_student 1 1 "A100" "Jane" "4B") as ->.
  { destruct Hin as [<-|[<-|[]]]; [reflexivity|discriminate]. }
  assert (brow = mk_book 1 1 "Emma" "Austen" "B1" 1 "Good") as ->.
  { destruct Hbin as [<-|[]]. reflexivity. }
  split; [exact Hlog|]. split; [rewrite Hrows; reflexivity|].
  split; [exact Hblog|]. split; [rewrite Hbrows; reflexivity|].
  apply Hnone. intros r [<-|[<-|[]]] [_ H]; discriminate.
Defined.

(* ================================================================== *)
(** * Undoing a deletion *)

Lemma in_place {A : Type} (leb : A -> A -> bool) (x y : A) (l : list A) :
  In y (place leb x l) <-> y = x \/ In y l.
Proof.
  induction l as [|a l IH]; simpl.
  - intuition.
  - destruct (leb x a); simpl; [intuition|]. rewrite IH. intuition.
Qed.

(** [ORDER BY] keeps the rows. *)
Lemma in_order_by {A : Type} (leb : A -> A -> bool) (y : A) (l : list A) :
  In y (order_by leb l) <-> In y l.
Proof.
  unfold order_by. induction l as [|a l IH]; simpl; [tauto|].
  rewrite in_place, IH. intuition.
Qed.

Lemma in_limit_rows {A : Type} (n : Z) (y : A) (l : list A) :
  In y (limit_rows n l) -> In y l.
Proof.
  unfold limit_rows. destruct (n <? 0); [tauto|].
  generalize (Z.to_nat n) as k. clear n.
  induction l as [|a l IH]; intros [|k]; simpl; try tauto.
  intros [->|H]; [now left|right; eauto].
Qed.

Lemma in_get_recent_deletions db school_id limit u :
  In u (get_recent_deletions db school_id limit) ->
  In u (undo_log db) /\ un_school_id u = school_id.
Proof.
  unfold get_recent_deletions. intros H.
  apply in_limit_rows, in_order_by, filter_In in H.
  destruct H as [H1 H2]. split; [exact H1|]. apply Z.eqb_eq. exact H2.
Qed.

Lemma in_list_students db school_id s :
  In s (list_students db school_id) <-> In s (students db) /\ st_school_id s = school_id.
Proof.
  unfold list_students. rewrite !in_order_by, filter_In, Z.eqb_eq. tauto.
Qed.

(** Undoing a student snapshot: [add_student] is called, its result is
    dropped, the entry is deleted and success is reported. *)
Lemma undo_deletion_student db school_id undo_id e row :
  find (undo_key school_id undo_id) (undo_log db) = Some e ->
  table_name e = "students" ->
  record_data e = student_dict row ->
  undo_deletion db school_id undo_id =
  (let db1 := fst (add_student db school_id (admission_no row) (st_name row) (st_class row)) in
   set_undo_log db1 (filter (fun u => negb (un_id u =? undo_id)) (undo_log db1)),
   (true, RecordRestored)).
Proof.
  intros Hfind Htab Hdata. unfold undo_deletion.
  change (fun u => (un_id u =? undo_id) && (un_school_id u =? school_id))
    with (undo_key school_id undo_id).
  rewrite Hfind, Htab, Hdata. reflexivity.
Qed.

Lemma undo_deletion_book db school_id undo_id e row :
  find (undo_key school_id undo_id) (undo_log db) = Some e ->
  table_name e = "books" ->
  record_data e = book_dict row ->
  undo_deletion db school_id undo_id =
  (let db1 := fst (add_book db school_id (title row) (author row) (barcode row)
                            (negb (non_circulating row =? 0)) (condition row)) in
   set_undo_log db1 (filter (fun u => negb (un_id u =? undo_id)) (undo_log db1)),
   (true, RecordRestored)).
Proof.
  intros Hfind Htab Hdata. unfold undo_deletion.
  change (fun u => (un_id u =? undo_id) && (un_school_id u =? school_id))
    with (undo_key school_id undo_id).
  rewrite Hfind, Htab, Hdata. reflexivity.
Qed.

Lemma find_undo_fresh (log : list undo_entry) school_id e :
  un_id e = next_rowid (map un_id log) ->
  un_school_id e = school_id ->
  find (undo_key school_id (un_id e)) (log ++ [e]) = Some e.
Proof.
  intros Hid Hsch. rewrite find_app_miss.
  - simpl. unfold undo_key. now rewrite Z.eqb_refl, Hsch, Z.eqb_refl.
  - apply find_none_existsb. apply not_true_is_false. intros H.
    apply existsb_exists in H. destruct H as [u [Hu Hk]].
    unfold undo_key in Hk. apply andb_prop in Hk. destruct Hk as [Hk _].
    apply Z.eqb_eq in Hk. rewrite Hid in Hk.
    apply (next_rowid_fresh (map un_id log)). rewrite <- Hk. now apply in_map.
Qed.

(** C4.  Deleting a student of a school and undoing the entry that this
    deletion wrote: [undo_deletion] reports success, the student list of
    the school holds a row with the admission number, name and class of
    the deleted one, and no list of recent deletions holds the entry. *)
Theorem undo_restores_deleted_student :
  forall now db school_id adm row,
    find_student db school_id adm = Some row ->
    let db1 := delete_student now db school_id adm in
    let undo_id := next_rowid (map un_id (undo_log db)) in
    (exists e, In e (undo_log db1) /\ un_id e = undo_id
               /\ record_data e = student_dict row)
    /\ ~ (exists s, In s (list_students db1 school_id) /\ admission_no s = adm)
    /\ exists db2 row',
        undo_deletion db1 school_id undo_id = (db2, (true, RecordRestored))
        /\ In row' (list_students db2 school_id)
        /\ admission_no row' = admission_no row
        /\ st_name row' = st_name row
        /\ st_class row' = st_class row
        /\ (forall limit u,
              In u (get_recent_deletions db2 school_id limit) -> un_id u <> undo_id).
Proof.
  intros now db school_id adm row Hfind db1 undo_id.
  set (e := mk_undo undo_id school_id "students" (student_dict row) now).
  assert (Hdb1 : db1 = set_students (insert_undo db school_id "students" (student_dict row) now)
                         (filter (fun s => negb (student_key school_id adm s)) (students db))).
  { unfold db1, delete_student. rewrite Hfind. reflexivity. }
  assert (Hlog : undo_log db1 = undo_log db ++ [e]) by (rewrite Hdb1; reflexivity).
  assert (Hgone : find_student db1 school_id adm = None).
  { rewrite Hdb1. unfold find_student; simpl. apply find_filter_neg. }
  assert (Hadm : admission_no row = adm).
  { apply find_some in Hfind. destruct Hfind as [_ Hk].
    unfold student_key in Hk. apply andb_prop in Hk. now apply String.eqb_eq. }
  split; [exists e; rewrite Hlog; split; [apply in_or_app; right; now left|tauto]|].
  split.
  { intros [s [Hs Hs']]. apply in_list_students in Hs. destruct Hs as [Hs Hsch].
    apply find_none_existsb in Hgone.
    assert (existsb (student_key school_id adm) (students db1) = true).
    { apply existsb_exists. exists s. split; [exact Hs|].
      unfold student_key. rewrite Hsch, Hs', Z.eqb_refl, String.eqb_refl. reflexivity. }
    unfold find_student in Hgone. congruence. }
  assert (Hundo := undo_deletion_student db1 school_id undo_id e row).
  rewrite Hlog in Hundo.
  specialize (Hundo (find_undo_fresh (undo_log db) school_id e eq_refl eq_refl)
                    eq_refl eq_refl).
  rewrite Hadm, (add_student_new _ _ _ _ _ Hgone) in Hundo. cbv zeta in Hundo. simpl fst in Hundo.
  eexists. eexists. split; [exact Hundo|].
  split.
  { apply in_list_students. simpl. split; [apply in_or_app; right; left; reflexivity|reflexivity]. }
  simpl. split; [now rewrite Hadm|]. split; [reflexivity|]. split; [reflexivity|].
  intros limit u Hu Hid. apply in_get_recent_deletions in Hu. destruct Hu as [Hu _].
  simpl in Hu. apply filter_In in Hu. destruct Hu as [_ Hu].
  rewrite Hid, Z.eqb_refl in Hu. discriminate.
Qed.

Lemma undo_restores_deleted_student_witness :
  find_student (fst (add_student empty_db 1 "A100" "Jane" "4B")) 1 "A100"
  = Some (mk_student 1 1 "A100" "Jane" "4B")
  /\ fst (snd (undo_deletion
                 (delete_student 7 (fst (add_student empty_db 1 "A100" "Jane" "4B")) 1 "A100")
                 1 1)) = true.
Proof.
  split; [reflexivity|].
  destruct (undo_restores_deleted_student 7
              (fst (add_student empty_db 1 "A100" "Jane" "4B")) 1 "A100"
              (mk_student 1 1 "A100" "Jane" "4B") eq_refl)
    as [_ [_ [db2 [row' [H _]]]]].
  change (next_rowid (map un_id (undo_log (fst (add_student empty_db 1 "A100" "Jane" "4B")))))
    with 1 in H.
  rewrite H. reflexivity.
Defined.

(** Whenever the key of a student snapshot is taken again, [undo_deletion]
    leaves the students as they are, deletes the entry and reports
    success. *)
Lemma undo_deletion_on_reused_key db school_id undo_id e row :
  find (undo_key school_id undo_id) (undo_log db) = Some e ->
  table_name e = "students" ->
  record_data e = student_dict row ->
  find_student db school_id (admission_no row) <> None ->
  undo_deletion db school_id undo_id =
  (set_undo_log db (filter (fun u => negb (un_id u =? undo_id)) (undo_log db)),
   (true, RecordRestored)).
Proof.
  intros Hfind Htab Hdata Htaken.
  rewrite (undo_deletion_student _ _ _ _ _ Hfind Htab Hdata).
  destruct (add_student_duplicate db school_id (admission_no row) (st_name row)
              (st_class row) Htaken) as [_ H].
  rewrite H. reflexivity.
Qed.

(** C3.  What the code does on the undo conflict.  After "B1" was deleted
    and given to a new book, the undo log holds the snapshot of the old
    book as entry 1; undoing entry 1 answers [(True, "Record restored")],
    the entry is gone, and the books are the new book alone: the snapshot
    is lost without having been restored.  The same happens with a student
    and a reused admission number. *)
Theorem undo_after_reuse_reports_success :
  let db := run conflict_history empty_db in
  let dbs := run conflict_history_student empty_db in
  undo_log db = [mk_undo 1 1 "books"
                   (book_dict (mk_book 1 1 "Emma" "Austen" "B1" 0 "Good")) 2]
  /\ undo_deletion db 1 1 = (set_undo_log db [], (true, RecordRestored))
  /\ books (fst (undo_deletion db 1 1)) = [mk_book 1 1 "Ulysses" "Joyce" "B1" 0 "New"]
  /\ undo_log dbs = [mk_undo 1 1 "students"
                      (student_dict (mk_student 1 1 "A100" "Jane" "4B")) 2]
  /\ undo_deletion dbs 1 1 = (set_undo_log dbs [], (true, RecordRestored))
  /\ students (fst (undo_deletion dbs 1 1)) = [mk_student 1 1 "A100" "Joan" "5C"].
Proof. repeat split. Qed.

(* ================================================================== *)
(** * Fines *)

Lemma date_plus_days (dt n : Z) : date (plus_days dt n) = date dt + n.
Proof. unfold date, plus_days. apply Z.div_add. unfold US_PER_DAY. lia. Qed.

(** Two instants of one day have the same date. *)
Lemma date_same_day (day a b : Z) :
  0 <= a < US_PER_DAY -> 0 <= b < US_PER_DAY ->
  date (day * US_PER_DAY + a) = date (day * US_PER_DAY + b).
Proof.
  intros Ha Hb. unfold date.
  rewrite !(Z.add_comm (day * US_PER_DAY)), !Z.div_add by (unfold US_PER_DAY; lia).
  rewrite !Z.div_small by assumption. reflexivity.
Qed.

Lemma return_book_fine_general now db school_id book db' m :
  return_book now db school_id book = (db', (true, m)) ->
  exists r rest,
    active_loans db school_id book = r :: rest
    /\ reported_fine m = Z.max 0 (date now - date (due_date r)) * fine_rate db school_id
    /\ (date now <= date (due_date r) -> m = ReturnedNoFine)
    /\ (date (due_date r) < date now ->
        m = ReturnedFine ((date now - date (due_date r)) * fine_rate db school_id)
                         (date now - date (due_date r))).
Proof.
  intros H. destruct (active_loans db school_id book) as [|r rest] eqn:Hact.
  - rewrite (return_book_none _ _ _ _ Hact) in H. discriminate.
  - rewrite (return_book_some _ _ _ _ _ _ Hact) in H. injection H as _ <-.
    exists r, rest. split; [reflexivity|].
    destruct (Z.ltb_spec 0 (date now - date (due_date r))) as [Hlate|Hnot]; simpl.
    + rewrite Z.max_r by lia. split; [reflexivity|]. split; [lia|reflexivity].
    + rewrite Z.max_l by lia. split; [reflexivity|]. split; [reflexivity|lia].
Qed.

(** A loan of 14 days taken by day 17 before the end of the calendar can be
    dated. *)
Lemma representable_before t0 t1 n k :
  is_datetime t0 = true -> is_datetime t1 = true ->
  date t1 = date t0 + k -> 0 <= n < k -> n <= MAX_DELTA_DAYS ->
  representable t0 n.
Proof.
  unfold is_datetime, representable, date. rewrite !andb_true_iff.
  rewrite !Z.leb_le, !Z.ltb_lt. intros [H0 _] [_ H1] Hd Hn Hmax.
  assert (Hus : 0 < US_PER_DAY) by (unfold US_PER_DAY; lia).
  pose proof (Z.mul_div_le t1 US_PER_DAY Hus) as Ht1.
  pose proof (Z.mul_succ_div_gt t0 US_PER_DAY Hus) as Ht0.
  rewrite Hd in Ht1. split; [lia|]. split; [nia|]. nia.
Qed.

Lemma oakview_loan t0 :
  representable t0 14 ->
  run (oakview_history t0) empty_db =
  mk_DB [mk_school 1 "Oakview" "secret" t0 10 14]
        [mk_student 1 1 "A100" "Jane" "4B"]
        [mk_book 1 1 "Emma" "Austen" "BC001" 0 "Good"]
        [mk_loan 1 1 1 1 t0 (plus_days t0 14) None 0]
        [].
Proof.
  intros Hr. unfold oakview_history, run. cbn [fold_left fst snd].
  change (call t0 (RegisterSchool "Oakview" "secret" 10 14) empty_db)
    with (mk_DB [mk_school 1 "Oakview" "secret" t0 10 14] [] [] [] [], RBool true).
  cbn [fst].
  change (call t0 (AddStudent 1 "A100" "Jane" "4B")
            (mk_DB [mk_school 1 "Oakview" "secret" t0 10 14] [] [] [] []))
    with (mk_DB [mk_school 1 "Oakview" "secret" t0 10 14]
                [mk_student 1 1 "A100" "Jane" "4B"] [] [] [], RBool true).
  cbn [fst].
  change (call t0 (AddBook 1 "Emma" "Austen" "BC001" false "Good")
            (mk_DB [mk_school 1 "Oakview" "secret" t0 10 14]
                   [mk_student 1 1 "A100" "Jane" "4B"] [] [] []))
    with (mk_DB [mk_school 1 "Oakview" "secret" t0 10 14]
                [mk_student 1 1 "A100" "Jane" "4B"]
                [mk_book 1 1 "Emma" "Austen" "BC001" 0 "Good"] [] [], RBool true).
  cbn [fst]. cbn [call].
  rewrite borrow_book_free; [reflexivity|reflexivity|exact Hr].
Qed.

(** C2.  A successful [return_book] reports the fine
    [max 0 (now.date() - due.date()) * fine_per_day], the dates being day
    numbers without time of day and [fine_per_day] the value in the row of
    the school (10 where [schools] has no row with the id): a return on a
    date not after the due date reports no fine, at whatever time of the
    day; a later one reports the days between the dates times the rate.
    The loan whose due date counts is an unreturned loan of the book.  In
    the Oakview example (fine 10 a day, loans of 14 days) a return on the
    17th day after the borrowing reports a fine of 30 for 3 days. *)
Theorem return_book_reports_fine :
  (forall now db school_id book db' m,
      return_book now db school_id book = (db', (true, m)) ->
      exists r rest,
        active_loans db school_id book = r :: rest
        /\ reported_fine m = Z.max 0 (date now - date (due_date r)) * fine_rate db school_id
        /\ (date now <= date (due_date r) -> m = ReturnedNoFine)
        /\ (date (due_date r) < date now ->
            m = ReturnedFine ((date now - date (due_date r)) * fine_rate db school_id)
                             (date now - date (due_date r)))
        /\ In r (loans db) /\ ln_school_id r = school_id /\ book_id r = book
        /\ returned_at r = None
        /\ (forall sch,
              In sch (schools db) -> sc_id sch = school_id ->
              (forall s, In s (schools db) -> sc_id s = school_id -> s = sch) ->
              reported_fine m
              = Z.max 0 (date now - date (due_date r)) * fine_per_day sch)
        /\ ((forall s, In s (schools db) -> sc_id s <> school_id) ->
            reported_fine m = Z.max 0 (date now - date (due_date r)) * 10))
  /\ (forall t0 t1,
        is_datetime t0 = true -> is_datetime t1 = true ->
        date t1 = date t0 + 17 ->
        snd (return_book t1 (run (oakview_history t0) empty_db) 1 1)
          = (true, ReturnedFine 30 3)
        /\ msg_text (ReturnedFine 30 3) = "Returned. Fine due: 30 (days late: 3)").
Proof.
  split.
  - intros now db school_id book db' m H.
    destruct (return_book_fine_general _ _ _ _ _ _ H)
      as [r [rest [Hact [Hfine [Hno Hlate]]]]].
    exists r, rest. split; [exact Hact|]. split; [exact Hfine|].
    split; [exact Hno|]. split; [exact Hlate|].
    assert (Hr : unreturned db school_id book r).
    { apply active_loans_in. rewrite Hact. now left. }
    destruct Hr as [Hin [Hs [Hb Hnull]]].
    repeat (split; [assumption|]). split.
    + intros sch Hsch Hid Huniq. rewrite Hfine.
      now rewrite (fine_rate_row db school_id sch (conj Hsch (conj Hid Huniq))).
    + intros Hnone. rewrite Hfine. unfold fine_rate.
      now rewrite (get_school_by_id_missing _ _ Hnone).
  - intros t0 t1 Ht0 Ht1 Hd. split; [|reflexivity].
    rewrite oakview_loan
      by (apply (representable_before t0 t1 14 17); [assumption..|lia|unfold MAX_DELTA_DAYS; lia]).
    erewrite return_book_some by reflexivity.
    cbn [snd due_date]. rewrite date_plus_days, Hd.
    replace (date t0 + 17 - (date t0 + 14)) with 3 by lia.
    reflexivity.
Qed.

(** Oakview: borrowed at noon of day 0, returned one microsecond before the
    end of day 14: no fine; returned at the first instant of day 17: a fine
    of 30.  Hillside, where the row of the school says 25 a day and 7 days:
    borrowed on day 0, returned on day 10, a fine of 75 for 3 days. *)
Lemma return_book_reports_fine_witness :
  snd (return_book (15 * US_PER_DAY - 1)
         (run (oakview_history (US_PER_DAY / 2)) empty_db) 1 1)
    = (true, ReturnedNoFine)
  /\ snd (return_book (17 * US_PER_DAY)
            (run (oakview_history (US_PER_DAY / 2)) empty_db) 1 1)
    = (true, ReturnedFine 30 3)
  /\ schools (run hillside_history empty_db) = [mk_school 1 "Hillside" "pw" 0 25 7]
  /\ loans (run hillside_history empty_db)
     = [mk_loan 1 1 1 1 3 (3 + 7 * US_PER_DAY) None 0]
  /\ snd (return_book (10 * US_PER_DAY) (run hillside_history empty_db) 1 1)
    = (true, ReturnedFine 75 3)
  /\ reported_fine
       (snd (snd (return_book (10 * US_PER_DAY) (run hillside_history empty_db) 1 1)))
     = Z.max 0 (date (10 * US_PER_DAY) - date (3 + 7 * US_PER_DAY)) * 25.
Proof.
  split.
  { destruct (proj1 return_book_reports_fine (15 * US_PER_DAY - 1)
                (run (oakview_history (US_PER_DAY / 2)) empty_db) 1 1
                _ _ eq_refl) as [r [rest [Hact [_ [Hno _]]]]].
    reflexivity. }
  split.
  { exact (proj1 (proj2 return_book_reports_fine (US_PER_DAY / 2) (17 * US_PER_DAY)
                    eq_refl eq_refl eq_refl)). }
  split; [reflexivity|]. split; [reflexivity|]. split; [reflexivity|].
  destruct (proj1 return_book_reports_fine (10 * US_PER_DAY)
              (run hillside_history empty_db) 1 1 _ _ eq_refl)
    as [r [rest [Hact [_ [_ [_ [_ [_ [_ [_ [Hrow _]]]]]]]]]]].
  injection Hact as <- _.
  refine (Hrow (mk_school 1 "Hillside" "pw" 0 25 7) (or_introl eq_refl) eq_refl _).
  intros s [<-|[]] _. reflexivity.
Defined.

(* ================================================================== *)
(** * Settings changed while a book is out *)

Lemma active_loans_after_borrow now db school_id book student days :
  active_loans db school_id book = [] ->
  active_loans
    (set_loans db (loans db ++ [new_loan now db school_id book student days]))
    school_id book
  = [new_loan now db school_id book student days].
Proof.
  intros H. unfold active_loans in *. simpl.
  rewrite filter_app, H. simpl. unfold active_loan_of. simpl.
  now rewrite !Z.eqb_refl.
Qed.

(** The store after a call of [borrow_book]: as it was, or with the new
    loan. *)
Lemma call_borrow_store now db school_id book student days :
  fst (call now (BorrowBook school_id book student days) db) = db
  \/ (active_loans db school_id book = []
      /\ representable now (loan_days db school_id days)
      /\ fst (call now (BorrowBook school_id book student days) db)
         = set_loans db (loans db ++ [new_loan now db school_id book student days])).
Proof.
  cbn [call].
  destruct (borrow_book_cases now db school_id book student days)
    as [[_ E]|[[_ [_ E]]|[Hact [Hr E]]]]; rewrite E; [now left|now left|].
  right. split; [exact Hact|]. split; [exact Hr|reflexivity].
Qed.

(** What a [borrow_book] that answers [True] has done. *)
Lemma borrow_book_recorded now db school_id book student days db1 m :
  borrow_book now db school_id book student days = Returned (db1, (true, m)) ->
  active_loans db school_id book = []
  /\ representable now (loan_days db school_id days)
  /\ m = BorrowRecorded
  /\ db1 = set_loans db (loans db ++ [new_loan now db school_id book student days]).
Proof.
  intros H.
  destruct (borrow_book_cases now db school_id book student days)
    as [[_ E]|[[_ [_ E]]|[Hact [Hr E]]]]; rewrite E in H; try discriminate.
  injection H as <- <-.
  split; [exact Hact|]. split; [exact Hr|]. split; reflexivity.
Qed.

Lemma get_school_after_update db school_id fine days :
  get_school_by_id (update_school_settings db school_id fine days) school_id =
  option_map (fun s => mk_school (sc_id s) (sc_name s) (sc_password s)
                                 (sc_created_at s) fine days)
             (get_school_by_id db school_id).
Proof.
  unfold get_school_by_id, update_school_settings. simpl.
  induction (schools db) as [|s l IH]; simpl; [reflexivity|].
  destruct (sc_id s =? school_id) eqn:E; simpl; rewrite E; [reflexivity|exact IH].
Qed.

Lemma fine_rate_after_update db school_id fine days :
  get_school_by_id db school_id <> None ->
  fine_rate (update_school_settings db school_id fine days) school_id = fine.
Proof.
  intros H. unfold fine_rate. rewrite get_school_after_update.
  destruct (get_school_by_id db school_id); [reflexivity|congruence].
Qed.

(** C9.  A book is borrowed at [t0], the settings of the school are then
    changed to [fine'] and [days'], and the book is returned at [t1].  The
    loan keeps the due date it got from the loan days in force at [t0]
    (those of the row of the school when the call names none): the update
    leaves the loans as they were.  The fine that the return reports is the
    days late times the rate in force at [t1], which for a registered
    school is [fine'], where a return without the update would have charged
    the rate of the row as it was; for a late return the two differ as soon
    as the rates do. *)
Theorem fine_rate_at_return_loan_days_at_borrow :
  forall t0 t1 db school_id book student days db1 fine' days',
    borrow_book t0 db school_id book student days
      = Returned (db1, (true, BorrowRecorded)) ->
    let db2 := update_school_settings db1 school_id fine' days' in
    let due := plus_days t0 (loan_days db school_id days) in
    loans db2 = loans db1
    /\ (exists l, active_loans db2 school_id book = [l] /\ due_date l = due
                  /\ In l (loans db2) /\ ln_school_id l = school_id
                  /\ book_id l = book /\ borrowed_at l = t0
                  /\ returned_at l = None)
    /\ reported_fine (snd (snd (return_book t1 db2 school_id book)))
       = Z.max 0 (date t1 - date due) * fine_rate db2 school_id
    /\ (get_school_by_id db school_id <> None -> fine_rate db2 school_id = fine')
    /\ (get_school_by_id db school_id <> None ->
        date due < date t1 ->
        fine' <> fine_rate db school_id ->
        reported_fine (snd (snd (return_book t1 db2 school_id book)))
        <> reported_fine (snd (snd (return_book t1 db1 school_id book))))
    /\ (forall sch,
          In sch (schools db) -> sc_id sch = school_id ->
          (forall s, In s (schools db) -> sc_id s = school_id -> s = sch) ->
          (days = None -> due = t0 + default_loan_days sch * US_PER_DAY)
          /\ reported_fine (snd (snd (return_book t1 db2 school_id book)))
             = Z.max 0 (date t1 - date due) * fine'
          /\ reported_fine (snd (snd (return_book t1 db1 school_id book)))
             = Z.max 0 (date t1 - date due) * fine_per_day sch).
Proof.
  intros t0 t1 db school_id book student days db1 fine' days' Hborrow db2 due.
  destruct (borrow_book_recorded _ _ _ _ _ _ _ _ Hborrow) as [Hfree [_ [_ Hdb1]]].
  pose proof (active_loans_after_borrow t0 db school_id book student days Hfree) as Hact1.
  rewrite <- Hdb1 in Hact1.
  assert (Hact2 : active_loans db2 school_id book
                  = [new_loan t0 db school_id book student days]) by exact Hact1.
  assert (Hret : forall d, active_loans d school_id book
                           = [new_loan t0 db school_id book student days] ->
                 reported_fine (snd (snd (return_book t1 d school_id book)))
                 = Z.max 0 (date t1 - date due) * fine_rate d school_id).
  { intros d Hd. rewrite (return_book_some _ _ _ _ _ _ Hd). simpl snd.
    unfold due. cbn [due_date new_loan].
    destruct (0 <? date t1 - date (plus_days t0 (loan_days db school_id days))) eqn:Hl;
      simpl.
    - apply Z.ltb_lt in Hl. rewrite Z.max_r by lia. reflexivity.
    - apply Z.ltb_ge in Hl. rewrite Z.max_l by lia. reflexivity. }
  assert (Hsch1 : get_school_by_id db1 school_id = get_school_by_id db school_id)
    by (rewrite Hdb1; reflexivity).
  assert (Hrate1 : fine_rate db1 school_id = fine_rate db school_id)
    by (unfold fine_rate; now rewrite Hsch1).
  split; [reflexivity|].
  split.
  { exists (new_loan t0 db school_id book student days).
    split; [exact Hact2|]. split; [reflexivity|].
    assert (Hin : In (new_loan t0 db school_id book student days)
                     (active_loans db2 school_id book)) by (rewrite Hact2; now left).
    apply active_loans_in in Hin. destruct Hin as [Hin _].
    split; [exact Hin|]. repeat split. }
  split; [apply Hret; exact Hact2|].
  split; [intros Hreg; apply fine_rate_after_update; now rewrite Hsch1|].
  split.
  - intros Hreg Hlate Hneq.
    rewrite (Hret db2 Hact2), (Hret db1 Hact1), Hrate1.
    unfold db2. rewrite fine_rate_after_update by now rewrite Hsch1.
    rewrite Z.max_r by lia. nia.
  - intros sch Hsch Hid Huniq.
    pose proof (conj Hsch (conj Hid Huniq) : school_row db school_id sch) as Hrow.
    split; [|split].
    + intros ->. unfold due. now rewrite (loan_days_row _ _ _ Hrow).
    + rewrite (Hret db2 Hact2). unfold db2.
      rewrite fine_rate_after_update; [reflexivity|].
      rewrite Hsch1, (get_school_by_id_row _ _ _ Hrow). discriminate.
    + rewrite (Hret db1 Hact1), Hrate1. now rewrite (fine_rate_row _ _ _ Hrow).
Qed.

(** Hillside: borrowed on day 0 with loans of 7 days and a fine of 25; the
    rate is then cut to 4 and the loan days are raised to 30; the return on
    day 10 is still 3 days late and costs 12, where it would have cost 75
    before the change. *)
Lemma fine_rate_at_return_loan_days_at_borrow_witness :
  borrow_book 3 (run [(0, RegisterSchool "Hillside" "pw" 25 7)] empty_db) 1 1 1 None
  = Returned (mk_DB [mk_school 1 "Hillside" "pw" 0 25 7] [] []
                    [mk_loan 1 1 1 1 3 (3 + 7 * US_PER_DAY) None 0] [],
              (true, BorrowRecorded))
  /\ return_book (10 * US_PER_DAY)
       (update_school_settings
          (mk_DB [mk_school 1 "Hillside" "pw" 0 25 7] [] []
                 [mk_loan 1 1 1 1 3 (3 + 7 * US_PER_DAY) None 0] [])
          1 4 30) 1 1
     = (mk_DB [mk_school 1 "Hillside" "pw" 0 4 30] [] []
              [mk_loan 1 1 1 1 3 (3 + 7 * US_PER_DAY) (Some (10 * US_PER_DAY)) 0] [],
        (true, ReturnedFine 12 3))
  /\ reported_fine
       (snd (snd (return_book (10 * US_PER_DAY)
                    (update_school_settings
                       (mk_DB [mk_school 1 "Hillside" "pw" 0 25 7] [] []
                              [mk_loan 1 1 1 1 3 (3 + 7 * US_PER_DAY) None 0] [])
                       1 4 30) 1 1)))
     = Z.max 0 (date (10 * US_PER_DAY) - date (plus_days 3 7)) * 4
  /\ reported_fine
       (snd (snd (return_book (10 * US_PER_DAY)
                    (mk_DB [mk_school 1 "Hillside" "pw" 0 25 7] [] []
                           [mk_loan 1 1 1 1 3 (3 + 7 * US_PER_DAY) None 0] [])
                    1 1)))
     = Z.max 0 (date (10 * US_PER_DAY) - date (plus_days 3 7)) * 25.
Proof.
  split; [reflexivity|]. split; [reflexivity|].
  pose proof (fine_rate_at_return_loan_days_at_borrow 3 (10 * US_PER_DAY)
                (run [(0, RegisterSchool "Hillside" "pw" 25 7)] empty_db)
                1 1 1 None _ 4 30 eq_refl) as H.
  destruct H as [_ [_ [_ [_ [_ Hrow]]]]].
  destruct (Hrow (mk_school 1 "Hillside" "pw" 0 25 7) (or_introl eq_refl) eq_refl)
    as [_ [H2 H1]].
  { intros s [<-|[]] _. reflexivity. }
  split; [exact H2|exact H1].
Defined.

(* ================================================================== *)
(** * One active loan for a book *)

Lemma run_snoc h now c db :
  run (h ++ [(now, c)]) db = fst (call now c (run h db)).
Proof. unfold run. rewrite fold_left_app. reflexivity. Qed.

(** Induction over the stores that calls reach. *)
Lemma reachable_ind (P : DB -> Prop) :
  P empty_db ->
  (forall now c db, reachable db -> P db -> P (fst (call now c db))) ->
  forall db, reachable db -> P db.
Proof.
  intros Hinit Hstep db [h ->].
  induction h as [|[now c] h IH] using rev_ind; [exact Hinit|].
  rewrite run_snoc. apply Hstep; [exists h; reflexivity|exact IH].
Qed.

Lemma loans_add_student db school_id adm name klass :
  loans (fst (add_student db school_id adm name klass)) = loans db.
Proof.
  unfold add_student, insert_student.
  destruct (existsb _ _); reflexivity.
Qed.

Lemma loans_add_book db school_id t a bc nc cond :
  loans (fst (add_book db school_id t a bc nc cond)) = loans db.
Proof.
  unfold add_book, insert_book.
  destruct (existsb _ _); reflexivity.
Qed.

Lemma loans_delete_student now db school_id adm :
  loans (delete_student now db school_id adm) = loans db.
Proof. unfold delete_student. destruct (find_student _ _ _); reflexivity. Qed.

Lemma loans_delete_book now db school_id bc :
  loans (delete_book now db school_id bc) = loans db.
Proof. unfold delete_book. destruct (find_book _ _ _); reflexivity. Qed.

Lemma loans_undo_deletion db school_id undo_id :
  loans (fst (undo_deletion db school_id undo_id)) = loans db.
Proof.
  unfold undo_deletion.
  destruct (find _ (undo_log db)) as [e|]; [|reflexivity].
  destruct (table_name e =? "students")%string.
  { repeat (match goal with
            | |- context [getitem ?d ?k] => destruct (getitem d k) as [[?]|?]
            end; simpl; try reflexivity).
    apply loans_add_student. }
  destruct (table_name e =? "books")%string; [|reflexivity].
  repeat (match goal with
          | |- context [getitem ?d ?k] => destruct (getitem d k) as [[?]|?]
          end; simpl; try reflexivity).
  apply loans_add_book.
Qed.

(** Calls other than [borrow_book] and [return_book] leave the loans. *)
Lemma loans_other_calls now c db :
  (forall s b st d, c <> BorrowBook s b st d) ->
  (forall s b, c <> ReturnBook s b) ->
  loans (fst (call now c db)) = loans db.
Proof.
  intros Hb Hr. destruct c; simpl.
  - unfold register_school, insert_school. destruct (existsb _ _); reflexivity.
  - reflexivity.
  - apply loans_add_student.
  - apply loans_delete_student.
  - apply loans_add_book.
  - apply loans_delete_book.
  - apply loans_undo_deletion.
  - exfalso. eapply Hb. reflexivity.
  - exfalso. eapply Hr. reflexivity.
Qed.

(** Stamping a return never makes a loan active. *)
Lemma stamp_active at_ id s b l :
  active_loan_of s b (stamp_returned at_ id l) = true -> active_loan_of s b l = true.
Proof.
  unfold stamp_returned. destruct (ln_id l =? id); [|tauto].
  unfold active_loan_of; simpl. rewrite andb_false_r. discriminate.
Qed.

Lemma stamp_active_count at_ id s b ls :
  (List.length (filter (active_loan_of s b) (map (stamp_returned at_ id) ls))
   <= List.length (filter (active_loan_of s b) ls))%nat.
Proof.
  induction ls as [|l ls IH]; simpl; [lia|].
  destruct (active_loan_of s b (stamp_returned at_ id l)) eqn:E.
  - rewrite (stamp_active _ _ _ _ _ E). simpl. lia.
  - destruct (active_loan_of s b l); simpl; lia.
Qed.

Lemma NoDup_map_eq {A B : Type} (f : A -> B) (l : list A) (x y : A) :
  NoDup (map f l) -> In x l -> In y l -> f x = f y -> x = y.
Proof.
  induction l as [|a l IH]; simpl; [tauto|].
  intros Hnd Hx Hy Hf. inversion Hnd as [|? ? Hnotin Hnd']; subst.
  destruct Hx as [->|Hx], Hy as [->|Hy].
  - reflexivity.
  - exfalso. apply Hnotin. rewrite Hf. now apply in_map.
  - exfalso. apply Hnotin. rewrite <- Hf. now apply in_map.
  - now apply IH.
Qed.

Lemma NoDup_snoc_fresh (ids : list Z) : NoDup ids -> NoDup (ids ++ [next_rowid ids]).
Proof.
  intros H. apply NoDup_app; [exact H|repeat constructor; simpl; tauto|].
  intros x Hx [<-|[]]. exact (next_rowid_fresh ids Hx).
Qed.

Lemma ledger_ok_step now c db : ledger_ok db -> ledger_ok (fst (call now c db)).
Proof.
  intros [Hnd Hone].
  assert (Hsame : loans (fst (call now c db)) = loans db -> ledger_ok (fst (call now c db))).
  { intros E. unfold ledger_ok, active_loans. rewrite E. split; [exact Hnd|exact Hone]. }
  destruct c as [| | | | | | |school_id bk st days|school_id bk];
    try (apply Hsame; apply loans_other_calls; intros; discriminate).
  - (* borrow_book *)
    simpl.
    destruct (borrow_book_cases now db school_id bk st days)
      as [[_ E]|[[_ [_ E]]|[Hact [_ E]]]]; rewrite E;
      [exact (conj Hnd Hone)|exact (conj Hnd Hone)|].
    simpl. split.
    + simpl. rewrite map_app. simpl. now apply NoDup_snoc_fresh.
    + intros s b. unfold active_loans. simpl. rewrite filter_app, length_app. simpl.
      unfold active_loan_of at 2. simpl.
      destruct (Z.eqb_spec school_id s) as [->|Hs]; simpl;
        [|specialize (Hone s b); unfold active_loans in Hone; lia].
      destruct (Z.eqb_spec bk b) as [->|Hb]; simpl;
        [|specialize (Hone s b); unfold active_loans in Hone; lia].
      unfold active_loans in Hact. rewrite Hact. simpl. lia.
  - (* return_book *)
    simpl. destruct (active_loans db school_id bk) as [|r rest] eqn:Hact.
    + rewrite (return_book_none _ _ _ _ Hact). exact (conj Hnd Hone).
    + rewrite (return_book_some _ _ _ _ _ _ Hact). simpl. split.
      * simpl. now rewrite stamp_keeps_ids.
      * intros s b. unfold active_loans. simpl.
        pose proof (stamp_active_count now (ln_id r) s b (loans db)).
        specialize (Hone s b). unfold active_loans in Hone. lia.
Qed.

Lemma reachable_ledger_ok db : reachable db -> ledger_ok db.
Proof.
  apply reachable_ind.
  - split; [constructor|]. intros s b. simpl. lia.
  - intros now c d _ H. now apply ledger_ok_step.
Qed.

(** With at most one active loan, a return leaves the book free. *)
Lemma return_book_frees now db school_id bk :
  (List.length (active_loans db school_id bk) <= 1)%nat ->
  active_loans (fst (return_book now db school_id bk)) school_id bk = [].
Proof.
  intros Hone. destruct (active_loans db school_id bk) as [|r rest] eqn:Hact.
  - rewrite (return_book_none _ _ _ _ Hact). exact Hact.
  - rewrite (return_book_some _ _ _ _ _ _ Hact). simpl.
    destruct rest as [|r' rest]; [|simpl in Hone; lia].
    unfold active_loans. simpl. apply filter_none. intros l' Hl'.
    apply in_map_iff in Hl'. destruct Hl' as [l [<- Hl]].
    destruct (active_loan_of school_id bk (stamp_returned now (ln_id r) l)) eqn:E;
      [|reflexivity].
    pose proof (stamp_active _ _ _ _ _ E) as El.
    assert (Hin : In l (active_loans db school_id bk))
      by (apply filter_In; split; assumption).
    rewrite Hact in Hin. destruct Hin as [<-|[]].
    unfold stamp_returned, active_loan_of in E. rewrite Z.eqb_refl in E. simpl in E.
    rewrite andb_false_r in E. discriminate.
Qed.

(** A return of another book leaves the active loans of this one. *)
Lemma return_other_keeps now db s b s' b' :
  NoDup (map ln_id (loans db)) ->
  (s', b') <> (s, b) ->
  active_loans db s b <> [] ->
  active_loans (fst (return_book now db s' b')) s b <> [].
Proof.
  intros Hnd Hneq Hact.
  destruct (active_loans db s' b') as [|r rest] eqn:Hact'.
  - rewrite (return_book_none _ _ _ _ Hact'). exact Hact.
  - rewrite (return_book_some _ _ _ _ _ _ Hact'). simpl.
    destruct (active_loans db s b) as [|l ls] eqn:Hl; [congruence|].
    assert (Hlin : In l (active_loans db s b)) by (rewrite Hl; now left).
    assert (Hrin : In r (active_loans db s' b')) by (rewrite Hact'; now left).
    apply active_loans_in in Hlin. destruct Hlin as [Hl1 [Hl2 [Hl3 Hl4]]].
    apply active_loans_in in Hrin. destruct Hrin as [Hr1 [Hr2 [Hr3 Hr4]]].
    assert (Hid : ln_id l <> ln_id r).
    { intros E. apply (NoDup_map_eq ln_id _ _ _ Hnd Hl1 Hr1) in E. subst l.
      apply Hneq. congruence. }
    intros Hnone.
    assert (Hin : In l (active_loans
                          (set_loans db (map (stamp_returned now (ln_id r)) (loans db))) s b)).
    { apply active_loans_in. simpl. split; [|tauto].
      rewrite <- (stamp_other now (ln_id r) l Hid). now apply in_map. }
    rewrite Hnone in Hin. contradiction.
Qed.

Lemma schools_return_book now db school_id bk :
  schools (fst (return_book now db school_id bk)) = schools db.
Proof.
  destruct (active_loans db school_id bk) as [|r rest] eqn:Hact.
  - now rewrite (return_book_none _ _ _ _ Hact).
  - now rewrite (return_book_some _ _ _ _ _ _ Hact).
Qed.

(** C1.  In every store that calls of the [DB] methods reach from a new
    file, a book of a school has at most one active loan, that is at most
    one loan row of its own without a return timestamp.  While it has
    one, [borrow_book] answers [(False, "Book already borrowed")] and
    leaves the store; the only call after which the book is without an
    active loan is a [return_book] of this book in this school that
    answers [True], and after that call the book is indeed free: a
    [borrow_book] whose due date can be held then answers [True]. *)
Theorem single_active_loan_per_book :
  forall db,
    reachable db ->
    (forall school_id bk, (List.length (active_loans db school_id bk) <= 1)%nat)
    /\ (forall now school_id bk st days,
          active_loans db school_id bk <> [] ->
          borrow_book now db school_id bk st days
          = Returned (db, (false, BookAlreadyBorrowed)))
    /\ (forall now c school_id bk,
          active_loans db school_id bk <> [] ->
          active_loans (fst (call now c db)) school_id bk = [] ->
          c = ReturnBook school_id bk
          /\ exists m, snd (call now c db) = RPair true m)
    /\ (forall now school_id bk st days,
          active_loans db school_id bk <> [] ->
          representable now (loan_days db school_id days) ->
          exists db',
            borrow_book now (fst (return_book now db school_id bk))
                        school_id bk st days
            = Returned (db', (true, BorrowRecorded)))
    /\ (forall school_id bk l,
          In l (active_loans db school_id bk) <->
          In l (loans db) /\ ln_school_id l = school_id /\ book_id l = bk
          /\ returned_at l = None)
    /\ (forall l1 l2,
          In l1 (loans db) -> In l2 (loans db) ->
          ln_school_id l1 = ln_school_id l2 -> book_id l1 = book_id l2 ->
          returned_at l1 = None -> returned_at l2 = None -> l1 = l2).
Proof.
  intros db Hreach. destruct (reachable_ledger_ok db Hreach) as [Hnd Hone].
  split; [exact Hone|]. split; [intros; now apply borrow_book_taken|]. split.
  { intros now c s b Hact Hfree.
    assert (Hsame : loans (fst (call now c db)) = loans db -> False).
    { intros E. unfold active_loans in Hfree, Hact. rewrite E in Hfree. contradiction. }
    destruct c as [| | | | | | |s' b' st days|s' b'];
      try (exfalso; apply Hsame; apply loans_other_calls; intros; discriminate).
    + exfalso. simpl in Hfree.
      destruct (borrow_book_cases now db s' b' st days)
        as [[_ E]|[[_ [_ E]]|[_ [_ E]]]]; rewrite E in Hfree;
        [contradiction|contradiction|].
      unfold active_loans in Hfree, Hact. simpl in Hfree.
      rewrite filter_app in Hfree. apply app_eq_nil in Hfree. tauto.
    + simpl in Hfree.
      destruct (Z.eq_dec s' s) as [->|Hs].
      * destruct (Z.eq_dec b' b) as [->|Hb].
        -- split; [reflexivity|]. simpl.
           destruct (active_loans db s b) as [|r rest] eqn:Hact'; [congruence|].
           rewrite (return_book_some _ _ _ _ _ _ Hact'). simpl. eexists. reflexivity.
        -- exfalso. eapply (return_other_keeps now db s b s b'); eauto. congruence.
      * exfalso. eapply (return_other_keeps now db s b s' b'); eauto. congruence. }
  split.
  { intros now s b st days Hact Hr. eexists.
    apply borrow_book_free; [apply return_book_frees; apply Hone|].
    unfold loan_days, get_school_by_id in *. now rewrite schools_return_book. }
  split; [intros; apply active_loans_in|].
  intros l1 l2 H1 H2 Hs Hb Hr1 Hr2.
  assert (Hin1 : In l1 (active_loans db (ln_school_id l2) (book_id l2)))
    by (apply active_loans_in; tauto).
  assert (Hin2 : In l2 (active_loans db (ln_school_id l2) (book_id l2)))
    by (apply active_loans_in; tauto).
  specialize (Hone (ln_school_id l2) (book_id l2)).
  destruct (active_loans db (ln_school_id l2) (book_id l2)) as [|x [|y rest]];
    simpl in *; [contradiction| |lia].
  destruct Hin1 as [<-|[]], Hin2 as [<-|[]]. reflexivity.
Qed.

(** Book 7 of Oakview is out: a second borrower is refused; after its
    return the next one gets it. *)
Lemma single_active_loan_per_book_witness :
  reachable (run one_loan_history empty_db)
  /\ loans (run one_loan_history empty_db)
     = [mk_loan 1 1 7 9 1 (1 + 14 * US_PER_DAY) None 0]
  /\ borrow_book 2 (run one_loan_history empty_db) 1 7 4 None
     = Returned (run one_loan_history empty_db, (false, BookAlreadyBorrowed))
  /\ (exists db',
        borrow_book 3 (fst (return_book 3 (run one_loan_history empty_db) 1 7))
                    1 7 4 None
        = Returned (db', (true, BorrowRecorded))).
Proof.
  assert (Hreach : reachable (run one_loan_history empty_db))
    by (exists one_loan_history; reflexivity).
  split; [exact Hreach|]. split; [reflexivity|].
  destruct (single_active_loan_per_book _ Hreach) as [_ [Htaken [_ [Hfree _]]]].
  split.
  - apply Htaken. discriminate.
  - apply Hfree; [discriminate|].
    unfold representable. vm_compute. repeat split; discriminate.
Defined.

(* ================================================================== *)
(** * The deletion guard *)

Lemma count_positive {A : Type} (l : list A) :
  (0 <? Z.of_nat (List.length l)) = true <-> exists x, In x l.
Proof.
  destruct l as [|a l]; simpl.
  - split; [discriminate|intros [x []]].
  - split; [intros _; exists a; now left|intros _; apply Z.ltb_lt; lia].
Qed.

Lemma in_loans_join_students db l s :
  In (l, s) (loans_join_students db) <->
  In l (loans db) /\ In s (students db) /\ st_id s = student_id l.
Proof.
  unfold loans_join_students. rewrite in_flat_map. split.
  - intros [l0 [Hl0 H]]. apply in_map_iff in H. destruct H as [s0 [E Hs0]].
    injection E as <- <-. apply filter_In in Hs0. rewrite Z.eqb_eq in Hs0. tauto.
  - intros [Hl [Hs Hid]]. exists l. split; [exact Hl|].
    apply in_map. apply filter_In. rewrite Z.eqb_eq. tauto.
Qed.

Lemma in_loans_join_books db l b :
  In (l, b) (loans_join_books db) <->
  In l (loans db) /\ In b (books db) /\ bk_id b = book_id l.
Proof.
  unfold loans_join_books. rewrite in_flat_map. split.
  - intros [l0 [Hl0 H]]. apply in_map_iff in H. destruct H as [b0 [E Hb0]].
    injection E as <- <-. apply filter_In in Hb0. rewrite Z.eqb_eq in Hb0. tauto.
  - intros [Hl [Hb Hid]]. exists l. split; [exact Hl|].
    apply in_map. apply filter_In. rewrite Z.eqb_eq. tauto.
Qed.

Lemma is_null_true {A : Type} (o : option A) : is_null o = true <-> o = None.
Proof. destruct o; simpl; split; congruence. Qed.

(** What the count of [has_active_loans_student] sees. *)
Lemma has_active_loans_student_true db school_id adm :
  has_active_loans_student db school_id adm = true <->
  exists l s, In l (loans db) /\ In s (students db) /\ st_id s = student_id l
              /\ ln_school_id l = school_id /\ admission_no s = adm
              /\ returned_at l = None.
Proof.
  unfold has_active_loans_student. rewrite count_positive. split.
  - intros [[l s] H]. apply filter_In in H. destruct H as [Hin Hc]. simpl in Hc.
    rewrite !andb_true_iff, Z.eqb_eq, String.eqb_eq, is_null_true in Hc.
    apply in_loans_join_students in Hin. exists l, s. tauto.
  - intros [l [s H]]. exists (l, s). apply filter_In. simpl.
    rewrite !andb_true_iff, Z.eqb_eq, String.eqb_eq, is_null_true.
    rewrite in_loans_join_students. tauto.
Qed.

Lemma has_active_loans_book_true db school_id bc :
  has_active_loans_book db school_id bc = true <->
  exists l b, In l (loans db) /\ In b (books db) /\ bk_id b = book_id l
              /\ ln_school_id l = school_id /\ barcode b = bc
              /\ returned_at l = None.
Proof.
  unfold has_active_loans_book. rewrite count_positive. split.
  - intros [[l b] H]. apply filter_In in H. destruct H as [Hin Hc]. simpl in Hc.
    rewrite !andb_true_iff, Z.eqb_eq, String.eqb_eq, is_null_true in Hc.
    apply in_loans_join_books in Hin. exists l, b. tauto.
  - intros [l [b H]]. exists (l, b). apply filter_In. simpl.
    rewrite !andb_true_iff, Z.eqb_eq, String.eqb_eq, is_null_true.
    rewrite in_loans_join_books. tauto.
Qed.





Section DistinctKeys.
Context {Row Key : Type} (key : Row -> Key) (keep : Row -> bool).

(** A [DELETE ... WHERE] keeps the remaining keys distinct. *)
Lemma NoDup_map_filter (rows : list Row) :
  NoDup (map key rows) -> NoDup (map key (filter keep rows)).
Proof.
  induction rows as [|r rows IH]; simpl; intros H; [constructor|].
  inversion H as [|? ? Hnotin Hnd]; subst.
  destruct (keep r); simpl; [|now apply IH].
  constructor; [|now apply IH].
  intros Hin. apply Hnotin. apply in_map_iff in Hin. destruct Hin as [x [E Hx]].
  apply filter_In in Hx. rewrite <- E. apply in_map. tauto.
Qed.

End DistinctKeys.

Lemma refs_ok_empty : refs_ok empty_db.
Proof. constructor; simpl; try constructor; intros; contradiction. Qed.

Lemma refs_ok_set_schools db x : refs_ok db -> refs_ok (set_schools db x).
Proof. intros [H1 H2 H3 H4 H5 H6 H7]. constructor; assumption. Qed.

Lemma refs_ok_filter_undo db f :
  refs_ok db -> refs_ok (set_undo_log db (filter f (undo_log db))).
Proof.
  intros [H1 H2 H3 H4 H5 H6 H7]. constructor; try assumption.
  simpl. intros u Hu. apply filter_In in Hu. apply H7. tauto.
Qed.

Lemma refs_ok_add_student db school_id adm name klass :
  refs_ok db -> adm <> "" -> refs_ok (fst (add_student db school_id adm name klass)).
Proof.
  intros Hok Hadm. unfold add_student, insert_student.
  destruct (existsb _ _); simpl; [exact Hok|].
  destruct Hok as [H1 H2 H3 H4 H5 H6 H7]. constructor; simpl; try assumption.
  - rewrite map_app. simpl. now apply NoDup_snoc_fresh.
  - intros l Hl Hr. destruct (H3 l Hl Hr) as [s [Hs Hs']].
    exists s. split; [apply in_or_app; now left|exact Hs'].
  - intros s Hs. apply in_app_or in Hs. destruct Hs as [Hs|[<-|[]]]; [now apply H5|exact Hadm].
Qed.

Lemma refs_ok_add_book db school_id t a bc nc cond :
  refs_ok db -> bc <> "" -> refs_ok (fst (add_book db school_id t a bc nc cond)).
Proof.
  intros Hok Hbc. unfold add_book, insert_book.
  destruct (existsb _ _); simpl; [exact Hok|].
  destruct Hok as [H1 H2 H3 H4 H5 H6 H7]. constructor; simpl; try assumption.
  - rewrite map_app. simpl. now apply NoDup_snoc_fresh.
  - intros l Hl Hr. destruct (H4 l Hl Hr) as [b [Hb Hb']].
    exists b. split; [apply in_or_app; now left|exact Hb'].
  - intros b Hb. apply in_app_or in Hb. destruct Hb as [Hb|[<-|[]]]; [now apply H6|exact Hbc].
Qed.

Lemma refs_ok_insert_undo db school_id table data now :
  refs_ok db ->
  snapshot_ok (mk_undo (next_rowid (map un_id (undo_log db))) school_id table data now) ->
  refs_ok (insert_undo db school_id table data now).
Proof.
  intros [H1 H2 H3 H4 H5 H6 H7] Hsnap. constructor; try assumption.
  simpl. intros u Hu. apply in_app_or in Hu. destruct Hu as [Hu|[<-|[]]]; auto.
Qed.

Lemma refs_ok_delete_student now db school_id adm :
  refs_ok db ->
  has_active_loans_student db school_id adm = false ->
  refs_ok (delete_student now db school_id adm).
Proof.
  intros Hok Hguard. unfold delete_student.
  set (db1 := match find_student db school_id adm with
              | Some student => insert_undo db school_id "students" (student_dict student) now
              | None => db
              end).
  assert (Hok1 : refs_ok db1).
  { unfold db1. destruct (find_student db school_id adm) as [row|] eqn:Hf; [|exact Hok].
    apply refs_ok_insert_undo; [exact Hok|]. left. exists row.
    apply find_some in Hf. repeat split. apply (admission_no_given db Hok). tauto. }
  assert (Hst : students db1 = students db /\ loans db1 = loans db).
  { unfold db1. destruct (find_student db school_id adm); split; reflexivity. }
  destruct Hst as [Hst Hln].
  destruct Hok1 as [H1 H2 H3 H4 H5 H6 H7]. constructor; simpl; try assumption.
  - now apply NoDup_map_filter.
  - intros l Hl Hr. destruct (H3 l Hl Hr) as [s [Hs [Hid Hsch]]].
    exists s. split; [|tauto]. apply filter_In. split; [exact Hs|].
    destruct (student_key school_id adm s) eqn:Hk; [|reflexivity].
    exfalso. apply student_key_true in Hk.
    assert (has_active_loans_student db school_id adm = true); [|congruence].
    apply has_active_loans_student_true. exists l, s.
    rewrite <- Hst, <- Hln. intuition congruence.
  - intros s Hs. apply filter_In in Hs. apply H5. tauto.
Qed.

Lemma refs_ok_delete_book now db school_id bc :
  refs_ok db ->
  has_active_loans_book db school_id bc = false ->
  refs_ok (delete_book now db school_id bc).
Proof.
  intros Hok Hguard. unfold delete_book.
  set (db1 := match find_book db school_id bc with
              | Some bk => insert_undo db school_id "books" (book_dict bk) now
              | None => db
              end).
  assert (Hok1 : refs_ok db1).
  { unfold db1. destruct (find_book db school_id bc) as [row|] eqn:Hf; [|exact Hok].
    apply refs_ok_insert_undo; [exact Hok|]. right. exists row.
    apply find_some in Hf. repeat split. apply (barcode_given db Hok). tauto. }
  assert (Hbk : books db1 = books db /\ loans db1 = loans db).
  { unfold db1. destruct (find_book db school_id bc); split; reflexivity. }
  destruct Hbk as [Hbk Hln].
  destruct Hok1 as [H1 H2 H3 H4 H5 H6 H7]. constructor; simpl; try assumption.
  - now apply NoDup_map_filter.
  - intros l Hl Hr. destruct (H4 l Hl Hr) as [b [Hb [Hid Hsch]]].
    exists b. split; [|tauto]. apply filter_In. split; [exact Hb|].
    destruct (book_key school_id bc b) eqn:Hk; [|reflexivity].
    exfalso. apply book_key_true in Hk.
    assert (has_active_loans_book db school_id bc = true); [|congruence].
    apply has_active_loans_book_true. exists l, b.
    rewrite <- Hbk, <- Hln. intuition congruence.
  - intros b Hb. apply filter_In in Hb. apply H6. tauto.
Qed.

Lemma refs_ok_borrow now db school_id s b days :
  refs_ok db ->
  In s (students db) -> st_school_id s = school_id ->
  In b (books db) -> bk_school_id b = school_id ->
  refs_ok (set_loans db
             (loans db ++ [new_loan now db school_id (bk_id b) (st_id s) days])).
Proof.
  intros Hok Hs Hss Hb Hbs.
  destruct Hok as [H1 H2 H3 H4 H5 H6 H7]. constructor; simpl; try assumption.
  - intros l Hl Hr. apply in_app_or in Hl. destruct Hl as [Hl|[<-|[]]]; [now apply H3|].
    exists s. simpl. tauto.
  - intros l Hl Hr. apply in_app_or in Hl. destruct Hl as [Hl|[<-|[]]]; [now apply H4|].
    exists b. simpl. tauto.
Qed.

(** The store after the borrow button: as it was, or with the loan of a
    circulating book of the school to a student of the school. *)
Lemma borrow_action_store w now db adm bc :
  fst (fst (MainWindow_borrow_action w now db adm bc)) = db
  \/ exists s b,
       find_student db (w_school_id w) adm = Some s
       /\ find_book db (w_school_id w) bc = Some b
       /\ non_circulating b = 0
       /\ active_loans db (w_school_id w) (bk_id b) = []
       /\ representable now (loan_days db (w_school_id w) None)
       /\ fst (fst (MainWindow_borrow_action w now db adm bc))
          = set_loans db
              (loans db ++ [new_loan now db (w_school_id w) (bk_id b) (st_id s) None]).
Proof.
  unfold MainWindow_borrow_action.
  destruct ((adm =? "")%string || (bc =? "")%string); [now left|].
  destruct (find_student db (w_school_id w) adm) as [s|] eqn:Hs; [|now left].
  destruct (find_book db (w_school_id w) bc) as [b|] eqn:Hb; [|now left].
  destruct (Z.eqb_spec (non_circulating b) 0) as [Hnon|Hnon]; [|now left].
  cbn [negb].
  destruct (borrow_book_cases now db (w_school_id w) (bk_id b) (st_id s) None)
    as [[_ E]|[[_ [_ E]]|[Hact [Hr E]]]]; rewrite E; [now left|now left|].
  right. exists s, b. repeat (split; [assumption || reflexivity|]). reflexivity.
Qed.

(** The store after the return button. *)
Lemma return_action_store w now db bc :
  fst (fst (MainWindow_return_action w now db bc)) = db
  \/ exists b,
       find_book db (w_school_id w) bc = Some b
       /\ fst (fst (MainWindow_return_action w now db bc))
          = fst (return_book now db (w_school_id w) (bk_id b)).
Proof.
  unfold MainWindow_return_action.
  destruct (bc =? "")%string; [now left|].
  destruct (find_book db (w_school_id w) bc) as [b|] eqn:Hb; [|now left].
  right. exists b. split; [reflexivity|].
  destruct (return_book now db (w_school_id w) (bk_id b)) as [db' r].
  destruct (negb (fst r)); reflexivity.
Qed.

Lemma stamp_still_active at_ id l :
  returned_at (stamp_returned at_ id l) = None -> stamp_returned at_ id l = l.
Proof. unfold stamp_returned. destruct (ln_id l =? id); [discriminate|reflexivity]. Qed.

Lemma refs_ok_return now db school_id bk :
  refs_ok db -> refs_ok (fst (return_book now db school_id bk)).
Proof.
  intros Hok. destruct (active_loans db school_id bk) as [|r rest] eqn:Hact.
  - rewrite (return_book_none _ _ _ _ Hact). exact Hok.
  - rewrite (return_book_some _ _ _ _ _ _ Hact). simpl.
    destruct Hok as [H1 H2 H3 H4 H5 H6 H7]. constructor; simpl; try assumption.
    + intros l Hl Hr. apply in_map_iff in Hl. destruct Hl as [l0 [<- Hl0]].
      pose proof (stamp_still_active _ _ _ Hr) as E. rewrite E in Hr |- *. now apply H3.
    + intros l Hl Hr. apply in_map_iff in Hl. destruct Hl as [l0 [<- Hl0]].
      pose proof (stamp_still_active _ _ _ Hr) as E. rewrite E in Hr |- *. now apply H4.
Qed.

Lemma undo_deletion_missing db school_id undo_id :
  find (undo_key school_id undo_id) (undo_log db) = None ->
  undo_deletion db school_id undo_id = (db, (false, UndoRecordNotFound)).
Proof.
  intros H. unfold undo_deletion.
  change (fun u => (un_id u =? undo_id) && (un_school_id u =? school_id))
    with (undo_key school_id undo_id).
  rewrite H. reflexivity.
Qed.

Lemma refs_ok_undo db school_id undo_id :
  refs_ok db -> refs_ok (fst (undo_deletion db school_id undo_id)).
Proof.
  intros Hok.
  destruct (find (undo_key school_id undo_id) (undo_log db)) as [e|] eqn:Hf.
  - pose proof (find_some _ _ Hf) as [He _].
    destruct (snapshots_ok db Hok e He) as [[s [Htab [Hdata Hkey]]]|[b [Htab [Hdata Hkey]]]].
    + rewrite (undo_deletion_student _ _ _ _ _ Hf Htab Hdata). cbv zeta. simpl fst.
      apply refs_ok_filter_undo. now apply refs_ok_add_student.
    + rewrite (undo_deletion_book _ _ _ _ _ Hf Htab Hdata). cbv zeta. simpl fst.
      apply refs_ok_filter_undo. now apply refs_ok_add_book.
  - rewrite (undo_deletion_missing _ _ _ Hf). exact Hok.
Qed.

Lemma refs_ok_ui_step now a db : refs_ok db -> refs_ok (fst (ui_step now a db)).
Proof.
  intros Hok. destruct a as [name pw|w adm name klass|w adm yes|w t au bc non cond
                             |w bc yes|w adm bc|w bc|w fine days|w undo_id]; simpl.
  - unfold LoginDialog_register_school.
    destruct ((name =? "")%string || (pw =? "")%string); [exact Hok|].
    unfold register_school, insert_school. destruct (existsb _ _); simpl; [exact Hok|].
    now apply refs_ok_set_schools.
  - unfold MainWindow_add_student.
    destruct (String.eqb_spec adm ""); simpl; [exact Hok|].
    destruct (name =? "")%string; [exact Hok|].
    pose proof (refs_ok_add_student db (w_school_id w) adm name klass Hok n) as H.
    destruct (add_student db (w_school_id w) adm name klass) as [db' ok].
    destruct ok; exact H.
  - unfold MainWindow_delete_student.
    destruct (negb _); [exact Hok|]. destruct (adm =? "")%string; [exact Hok|].
    destruct (has_active_loans_student db (w_school_id w) adm) eqn:Hg; [exact Hok|].
    destruct yes; [|exact Hok]. now apply refs_ok_delete_student.
  - unfold MainWindow_add_book.
    destruct (w_role w =? "Assistant")%string; [exact Hok|].
    destruct (t =? "")%string; [exact Hok|]. simpl.
    destruct (String.eqb_spec bc ""); [exact Hok|].
    pose proof (refs_ok_add_book db (w_school_id w) t au bc non cond Hok n) as H.
    destruct (add_book db (w_school_id w) t au bc non cond) as [db' ok].
    destruct ok; exact H.
  - unfold MainWindow_delete_book.
    destruct (negb _); [exact Hok|]. destruct (bc =? "")%string; [exact Hok|].
    destruct (has_active_loans_book db (w_school_id w) bc) eqn:Hg; [exact Hok|].
    destruct yes; [|exact Hok]. now apply refs_ok_delete_book.
  - destruct (borrow_action_store w now db adm bc)
      as [E|[s [b [Hs [Hb [_ [_ [_ E]]]]]]]]; rewrite E; [exact Hok|].
    apply find_some in Hs. apply find_some in Hb.
    destruct Hs as [Hs Hsk]. destruct Hb as [Hb Hbk].
    apply student_key_true in Hsk. apply book_key_true in Hbk.
    exact (refs_ok_borrow now db (w_school_id w) s b None Hok Hs (proj1 Hsk)
             Hb (proj1 Hbk)).
  - destruct (return_action_store w now db bc) as [E|[b [_ E]]]; rewrite E;
      [exact Hok|].
    now apply refs_ok_return.
  - unfold MainWindow_save_settings.
    destruct (negb _); [exact Hok|]. now apply refs_ok_set_schools.
  - unfold UndoDialog_undo_deletion.
    pose proof (refs_ok_undo db (w_school_id w) undo_id Hok) as H.
    destruct (undo_deletion db (w_school_id w) undo_id) as [db' r]. exact H.
Qed.

Lemma ui_run_snoc h now a db :
  ui_run (h ++ [(now, a)]) db = fst (ui_step now a (ui_run h db)).
Proof. unfold ui_run. rewrite fold_left_app. reflexivity. Qed.


Lemma find_student_after_delete now db school_id adm :
  find_student (delete_student now db school_id adm) school_id adm = None.
Proof.
  unfold delete_student, find_student.
  destruct (find (student_key school_id adm) (students db)); simpl; apply find_filter_neg.
Qed.

Lemma find_book_after_delete now db school_id bc :
  find_book (delete_book now db school_id bc) school_id bc = None.
Proof.
  unfold delete_book, find_book.
  destruct (find (book_key school_id bc) (books db)); simpl; apply find_filter_neg.
Qed.







(* ================================================================== *)
(** * Registration and school login *)

Lemma find_id_fresh {A : Type} (id : A -> Z) (rows : list A) :
  find (fun r => id r =? next_rowid (map id rows)) rows = None.
Proof.
  apply find_none_existsb. apply not_true_is_false. intros H.
  apply existsb_exists in H. destruct H as [r [Hr E]]. apply Z.eqb_eq in E.
  apply (next_rowid_fresh (map id rows)). rewrite <- E. now apply in_map.
Qed.

Lemma register_school_new now db name pw fine days :
  get_school db name = None ->
  register_school now db name pw fine days =
  (set_schools db
     (schools db ++
      [mk_school (next_rowid (map sc_id (schools db))) name pw now fine days]),
   true).
Proof.
  intros H. unfold register_school, insert_school.
  apply find_none_existsb in H. unfold get_school in H. rewrite H. reflexivity.
Qed.

Lemma register_school_taken now db name pw fine days :
  get_school db name <> None ->
  register_school now db name pw fine days = (db, false).
Proof.
  intros H. unfold register_school, insert_school.
  destruct (existsb (fun s => (sc_name s =? name)%string) (schools db)) eqn:E;
    [reflexivity|].
  apply find_none_existsb in E. contradiction.
Qed.

(** X1.  A successful [register_school] can be logged into: the school is
    found by its name and by its new id, with the settings given, and
    [validate_school_credentials] accepts the name with this password and
    with no other.  The name is then taken: registering it again returns
    [False] and changes nothing.  Schools that existed keep their rows. *)
Theorem register_school_then_login :
  forall now db name pw fine days db1,
    register_school now db name pw fine days = (db1, true) ->
    (exists sch,
        get_school db1 name = Some sch
        /\ get_school_by_id db1 (sc_id sch) = Some sch
        /\ validate_school_credentials db1 name pw = Some sch
        /\ sc_password sch = pw /\ fine_per_day sch = fine
        /\ default_loan_days sch = days)
    /\ (forall pw', pw' <> pw -> validate_school_credentials db1 name pw' = None)
    /\ (forall now' pw' fine' days',
          register_school now' db1 name pw' fine' days' = (db1, false))
    /\ (forall id sch, get_school_by_id db id = Some sch ->
                       get_school_by_id db1 id = Some sch).
Proof.
  intros now db name pw fine days db1 Hreg.
  destruct (get_school db name) as [old|] eqn:Hfree.
  { rewrite register_school_taken in Hreg by congruence. discriminate. }
  rewrite (register_school_new _ _ _ _ _ _ Hfree) in Hreg. injection Hreg as <-.
  set (sch := mk_school (next_rowid (map sc_id (schools db))) name pw now fine days).
  assert (Hname : get_school (set_schools db (schools db ++ [sch])) name = Some sch).
  { unfold get_school; simpl. rewrite find_app_miss by exact Hfree.
    simpl. now rewrite String.eqb_refl. }
  assert (Hnone : forall pw', find (fun s => (sc_name s =? name)%string
                                             && (sc_password s =? pw')%string)
                                   (schools db) = None).
  { intros pw'. apply find_none_existsb. apply not_true_is_false. intros H.
    apply existsb_exists in H. destruct H as [s [Hs E]]. apply andb_prop in E.
    apply find_none_existsb in Hfree.
    assert (existsb (fun s => (sc_name s =? name)%string) (schools db) = true)
      by (apply existsb_exists; exists s; tauto).
    unfold get_school in Hfree. congruence. }
  split; [|split; [|split]].
  - exists sch. split; [exact Hname|]. split.
    { unfold get_school_by_id; simpl. rewrite find_app_miss by apply find_id_fresh.
      simpl. now rewrite Z.eqb_refl. }
    split; [|repeat split].
    unfold validate_school_credentials; simpl. rewrite find_app_miss by apply Hnone.
    simpl. now rewrite !String.eqb_refl.
  - intros pw' Hpw. unfold validate_school_credentials; simpl.
    rewrite find_app_miss by apply Hnone. simpl. rewrite String.eqb_refl. simpl.
    destruct (String.eqb_spec pw pw'); [congruence|reflexivity].
  - intros. apply register_school_taken. rewrite Hname. discriminate.
  - intros id s Hs. unfold get_school_by_id; simpl. now apply find_app_hit.
Qed.

Lemma register_school_then_login_witness :
  validate_school_credentials
    (fst (register_school 0 empty_db "Oakview" "secret" 10 14)) "Oakview" "secret"
  = Some (mk_school 1 "Oakview" "secret" 0 10 14)
  /\ validate_school_credentials
       (fst (register_school 0 empty_db "Oakview" "secret" 10 14)) "Oakview" "guess"
     = None.
Proof.
  destruct (register_school_then_login 0 empty_db "Oakview" "secret" 10 14 _ eq_refl)
    as [_ [Hwrong _]].
  split; [reflexivity|]. apply Hwrong. discriminate.
Defined.

(* ================================================================== *)
(** * Barcodes *)

Lemma add_book_duplicate db school_id t a bc nc cond :
  find_book db school_id bc <> None ->
  add_book db school_id t a bc nc cond = (db, false).
Proof.
  intros H. unfold add_book, insert_book.
  destruct (existsb (book_key school_id bc) (books db)) eqn:E; [reflexivity|].
  apply find_none_existsb in E. contradiction.
Qed.

Lemma add_book_new db school_id t a bc nc cond :
  find_book db school_id bc = None ->
  add_book db school_id t a bc nc cond =
  (set_books db
     (books db ++
      [mk_book (next_rowid (map bk_id (books db))) school_id t a bc
               (if nc then 1 else 0) cond]),
   true).
Proof.
  intros H. unfold add_book, insert_book.
  apply find_none_existsb in H. unfold find_book in H. rewrite H. reflexivity.
Qed.

Lemma book_key_self school_id bc id t a nc cond :
  book_key school_id bc (mk_book id school_id t a bc nc cond) = true.
Proof. unfold book_key; simpl. now rewrite Z.eqb_refl, String.eqb_refl. Qed.

(** X2.  A barcode is unique within a school: after a successful
    [add_book] the book is found by its barcode with the fields given (the
    flag stored as 0 or 1), a second [add_book] of the barcode in the same
    school returns [False] and leaves the store, while any other school
    where the barcode is free takes it. *)
Theorem add_book_unique_within_school :
  forall db school_id t a bc nc cond db1,
    add_book db school_id t a bc nc cond = (db1, true) ->
    (exists b,
        find_book db1 school_id bc = Some b
        /\ title b = t /\ author b = a /\ condition b = cond
        /\ non_circulating b = (if nc then 1 else 0))
    /\ (forall t' a' nc' cond',
          add_book db1 school_id t' a' bc nc' cond' = (db1, false))
    /\ (forall school_id' t' a' nc' cond',
          school_id' <> school_id ->
          find_book db school_id' bc = None ->
          snd (add_book db1 school_id' t' a' bc nc' cond') = true).
Proof.
  intros db school_id t a bc nc cond db1 Hadd.
  destruct (find_book db school_id bc) eqn:Hfree.
  { rewrite add_book_duplicate in Hadd by congruence. discriminate. }
  rewrite (add_book_new _ _ _ _ _ _ _ Hfree) in Hadd. injection Hadd as <-.
  set (row := mk_book (next_rowid (map bk_id (books db))) school_id t a bc
                      (if nc then 1 else 0) cond).
  assert (Hhere : find_book (set_books db (books db ++ [row])) school_id bc = Some row).
  { unfold find_book; simpl. rewrite find_app_miss by exact Hfree.
    simpl. unfold row. now rewrite book_key_self. }
  split; [exists row; repeat split; exact Hhere|]. split.
  - intros. apply add_book_duplicate. rewrite Hhere. discriminate.
  - intros school_id' t' a' nc' cond' Hneq Hfree'.
    rewrite add_book_new; [reflexivity|].
    unfold find_book; simpl. rewrite find_app_miss by exact Hfree'. simpl.
    unfold book_key; simpl.
    destruct (Z.eqb_spec school_id school_id'); [congruence|reflexivity].
Qed.

Lemma add_book_unique_within_school_witness :
  add_book (fst (add_book empty_db 1 "Emma" "Austen" "B1" false "Good"))
           1 "Ulysses" "Joyce" "B1" true "New"
  = (fst (add_book empty_db 1 "Emma" "Austen" "B1" false "Good"), false)
  /\ snd (add_book (fst (add_book empty_db 1 "Emma" "Austen" "B1" false "Good"))
                   2 "Ulysses" "Joyce" "B1" true "New") = true.
Proof.
  destruct (add_book_unique_within_school empty_db 1 "Emma" "Austen" "B1" false "Good"
              _ eq_refl) as [_ [Hdup Hother]].
  split; [apply Hdup|]. apply Hother; [discriminate|reflexivity].
Defined.

(* ================================================================== *)
(** * More on undoing *)

Lemma in_list_books db school_id b :
  In b (list_books db school_id) <-> In b (books db) /\ bk_school_id b = school_id.
Proof. unfold list_books. rewrite !in_order_by, filter_In, Z.eqb_eq. tauto. Qed.

(** X3.  Deleting a book of a school and undoing the entry this wrote puts
    a book with the same title, author, barcode and condition back into
    the book list, its flag stored as 0 or 1 by the truth of the old flag;
    [undo_deletion] reports success and the entry is in no list of recent
    deletions any more. *)
Theorem undo_restores_deleted_book :
  forall now db school_id bc row,
    find_book db school_id bc = Some row ->
    let db1 := delete_book now db school_id bc in
    let undo_id := next_rowid (map un_id (undo_log db)) in
    exists db2 row',
      undo_deletion db1 school_id undo_id = (db2, (true, RecordRestored))
      /\ In row' (list_books db2 school_id)
      /\ title row' = title row /\ author row' = author row
      /\ barcode row' = barcode row /\ condition row' = condition row
      /\ non_circulating row' = (if non_circulating row =? 0 then 0 else 1)
      /\ (forall limit u,
            In u (get_recent_deletions db2 school_id limit) -> un_id u <> undo_id).
Proof.
  intros now db school_id bc row Hfind db1 undo_id.
  set (e := mk_undo undo_id school_id "books" (book_dict row) now).
  assert (Hdb1 : db1 = set_books (insert_undo db school_id "books" (book_dict row) now)
                         (filter (fun b => negb (book_key school_id bc b)) (books db))).
  { unfold db1, delete_book. rewrite Hfind. reflexivity. }
  assert (Hlog : undo_log db1 = undo_log db ++ [e]) by (rewrite Hdb1; reflexivity).
  assert (Hgone : find_book db1 school_id bc = None) by apply find_book_after_delete.
  assert (Hbc : barcode row = bc).
  { apply find_some in Hfind. destruct Hfind as [_ Hk]. now apply book_key_true in Hk. }
  assert (Hundo := undo_deletion_book db1 school_id undo_id e row).
  rewrite Hlog in Hundo.
  specialize (Hundo (find_undo_fresh (undo_log db) school_id e eq_refl eq_refl)
                    eq_refl eq_refl).
  rewrite Hbc, (add_book_new _ _ _ _ _ _ _ Hgone) in Hundo.
  cbv zeta in Hundo. simpl fst in Hundo.
  eexists. eexists. split; [exact Hundo|].
  split.
  { apply in_list_books. simpl.
    split; [apply in_or_app; right; left; reflexivity|reflexivity]. }
  simpl. repeat (split; [reflexivity || (now rewrite Hbc)|]).
  split; [destruct (non_circulating row =? 0); reflexivity|].
  intros limit u Hu Hid. apply in_get_recent_deletions in Hu. destruct Hu as [Hu _].
  simpl in Hu. apply filter_In in Hu. destruct Hu as [_ Hu].
  rewrite Hid, Z.eqb_refl in Hu. discriminate.
Qed.

Lemma undo_restores_deleted_book_witness :
  find_book (fst (add_book empty_db 1 "Emma" "Austen" "B1" true "Fair")) 1 "B1"
  = Some (mk_book 1 1 "Emma" "Austen" "B1" 1 "Fair")
  /\ list_books
       (fst (undo_deletion
               (delete_book 7 (fst (add_book empty_db 1 "Emma" "Austen" "B1" true "Fair"))
                            1 "B1") 1 1)) 1
     = [mk_book 1 1 "Emma" "Austen" "B1" 1 "Fair"].
Proof.
  split; [reflexivity|].
  destruct (undo_restores_deleted_book 7
              (fst (add_book empty_db 1 "Emma" "Austen" "B1" true "Fair")) 1 "B1"
              (mk_book 1 1 "Emma" "Austen" "B1" 1 "Fair") eq_refl)
    as [db2 [row' [H _]]].
  reflexivity.
Defined.

(** X4.  [undo_deletion] selects by id and school together: when no entry
    with this id belongs to the school, be the id unknown or the entry
    another school's, the answer is [(False, "Undo record not found")] and
    the store is untouched. *)
Theorem undo_deletion_other_school :
  forall db school_id undo_id,
    (forall u, In u (undo_log db) -> un_id u = undo_id -> un_school_id u <> school_id) ->
    undo_deletion db school_id undo_id = (db, (false, UndoRecordNotFound)).
Proof.
  intros db school_id undo_id H. apply undo_deletion_missing.
  apply find_none_existsb. apply not_true_is_false. intros E.
  apply existsb_exists in E. destruct E as [u [Hu Hk]].
  unfold undo_key in Hk. apply andb_prop in Hk. destruct Hk as [H1 H2].
  apply Z.eqb_eq in H1. apply Z.eqb_eq in H2. exact (H u Hu H1 H2).
Qed.

(** School 1 deleted a student; school 2 cannot undo that. *)
Lemma undo_deletion_other_school_witness :
  let db := delete_student 7 (fst (add_student empty_db 1 "A100" "Jane" "4B")) 1 "A100" in
  undo_deletion db 2 1 = (db, (false, UndoRecordNotFound))
  /\ fst (snd (undo_deletion db 1 1)) = true.
Proof.
  intros db. split; [|reflexivity].
  apply undo_deletion_other_school.
  intros u [<-|[]] _. discriminate.
Defined.

Lemma getitem_raises data key e : getitem data key = inl e -> e = KeyError key.
Proof.
  unfold getitem. destruct (find _ data); [discriminate|]. now intros [= <-].
Qed.

(** X5.  A snapshot that lacks a column which [undo_deletion] reads with
    [data[...]] makes the restore raise [KeyError]; this is caught: the
    answer is [(False, "Failed to restore: '<column>'")] for the first such
    column in the order the arguments are read, nothing is inserted and the
    entry stays in the log. *)
Theorem undo_deletion_missing_column :
  forall db school_id undo_id e key,
    find (undo_key school_id undo_id) (undo_log db) = Some e ->
    (table_name e = "students"
     /\ first_missing ["admission_no"; "name"; "class"] (record_data e) = Some key)
    \/ (table_name e = "books"
        /\ first_missing ["title"; "author"; "barcode"; "non_circulating"]
                         (record_data e) = Some key) ->
    undo_deletion db school_id undo_id = (db, (false, FailedToRestore key))
    /\ msg_text (FailedToRestore key) = ("Failed to restore: '" ++ key ++ "'")%string.
Proof.
  intros db school_id undo_id e key Hfind Hmiss. split; [|reflexivity].
  unfold undo_deletion.
  change (fun u => (un_id u =? undo_id) && (un_school_id u =? school_id))
    with (undo_key school_id undo_id).
  rewrite Hfind. cbv zeta.
  destruct Hmiss as [[Htab Hmiss]|[Htab Hmiss]]; rewrite Htab; simpl in Hmiss |- *;
    repeat match goal with
           | |- context [getitem ?d ?k] =>
               let E := fresh "E" in
               let x := fresh "x" in
               let v := fresh "v" in
               destruct (getitem d k) as [x|v] eqn:E;
               [apply getitem_raises in E; subst x|clear E];
               simpl in Hmiss |- *
           end;
    congruence.
Qed.

Lemma undo_deletion_missing_column_witness :
  let db := mk_DB [] [] [] []
              [mk_undo 1 1 "students" [("admission_no", JStr "A100"); ("name", JStr "Jane")] 0] in
  undo_deletion db 1 1 = (db, (false, FailedToRestore "class")).
Proof.
  intros db.
  apply (undo_deletion_missing_column db 1 1
           (mk_undo 1 1 "students" [("admission_no", JStr "A100"); ("name", JStr "Jane")] 0)
           "class" eq_refl).
  left. split; reflexivity.
Defined.

(** X6.  An undo entry whose table is neither "students" nor "books" is
    consumed without effect: [undo_deletion] inserts nothing, deletes the
    entry and answers [(True, "Record restored")]. *)
Theorem undo_deletion_unknown_table :
  forall db school_id undo_id e,
    find (undo_key school_id undo_id) (undo_log db) = Some e ->
    table_name e <> "students" ->
    table_name e <> "books" ->
    undo_deletion db school_id undo_id =
    (set_undo_log db (filter (fun u => negb (un_id u =? undo_id)) (undo_log db)),
     (true, RecordRestored)).
Proof.
  intros db school_id undo_id e Hfind Hs Hb. unfold undo_deletion.
  change (fun u => (un_id u =? undo_id) && (un_school_id u =? school_id))
    with (undo_key school_id undo_id).
  rewrite Hfind. cbv zeta.
  destruct (String.eqb_spec (table_name e) "students"); [contradiction|].
  destruct (String.eqb_spec (table_name e) "books"); [contradiction|].
  reflexivity.
Qed.

Lemma undo_deletion_unknown_table_witness :
  undo_deletion (mk_DB [] [] [] [] [mk_undo 1 1 "users" [] 0]) 1 1
  = (empty_db, (true, RecordRestored)).
Proof.
  apply (undo_deletion_unknown_table (mk_DB [] [] [] [] [mk_undo 1 1 "users" [] 0])
           1 1 (mk_undo 1 1 "users" [] 0) eq_refl);
    discriminate.
Defined.

(* ================================================================== *)
(** * The loans as a record of the past *)

Lemma stamp_fields at_ id l :
  ln_id (stamp_returned at_ id l) = ln_id l
  /\ ln_school_id (stamp_returned at_ id l) = ln_school_id l
  /\ book_id (stamp_returned at_ id l) = book_id l
  /\ student_id (stamp_returned at_ id l) = student_id l
  /\ borrowed_at (stamp_returned at_ id l) = borrowed_at l
  /\ due_date (stamp_returned at_ id l) = due_date l
  /\ fine_paid (stamp_returned at_ id l) = fine_paid l.
Proof. unfold stamp_returned. destruct (ln_id l =? id); simpl; tauto. Qed.

(** X7.  No call on a reachable store removes or rewrites a loan: after
    any call every loan row is still there under its id, with its school,
    book, student, borrowing time and due date; a return time, once
    written, stays the same, and a loan that was active is active still or
    has got the instant of this call as its return time. *)
Theorem loans_are_permanent :
  forall db,
    reachable db ->
    forall now c l,
      In l (loans db) ->
      exists l',
        In l' (loans (fst (call now c db)))
        /\ ln_id l' = ln_id l /\ ln_school_id l' = ln_school_id l
        /\ book_id l' = book_id l /\ student_id l' = student_id l
        /\ borrowed_at l' = borrowed_at l /\ due_date l' = due_date l
        /\ (forall t, returned_at l = Some t -> returned_at l' = Some t)
        /\ (returned_at l = None ->
            returned_at l' = None \/ returned_at l' = Some now).
Proof.
  intros db Hreach now c l Hl.
  destruct (reachable_ledger_ok db Hreach) as [Hnd _].
  assert (Hsame : loans (fst (call now c db)) = loans db ->
                  exists l', In l' (loans (fst (call now c db)))
        /\ ln_id l' = ln_id l /\ ln_school_id l' = ln_school_id l
        /\ book_id l' = book_id l /\ student_id l' = student_id l
        /\ borrowed_at l' = borrowed_at l /\ due_date l' = due_date l
        /\ (forall t, returned_at l = Some t -> returned_at l' = Some t)
        /\ (returned_at l = None ->
            returned_at l' = None \/ returned_at l' = Some now)).
  { intros E. exists l. rewrite E. intuition. }
  destruct c as [| | | | | | |s b st days|s b];
    try (apply Hsame; apply loans_other_calls; intros; discriminate).
  - destruct (call_borrow_store now db s b st days) as [E|[_ [_ E]]].
    + apply Hsame. now rewrite E.
    + rewrite E. simpl. exists l.
      split; [apply in_or_app; now left|]. intuition.
  - simpl. destruct (active_loans db s b) as [|r rest] eqn:Hact.
    + apply Hsame. simpl. now rewrite (return_book_none _ _ _ _ Hact).
    + rewrite (return_book_some _ _ _ _ _ _ Hact). simpl.
      exists (stamp_returned now (ln_id r) l). split; [now apply in_map|].
      pose proof (stamp_fields now (ln_id r) l) as F.
      repeat (split; [tauto|]).
      assert (Hr : In r (active_loans db s b)) by (rewrite Hact; now left).
      apply active_loans_in in Hr.
      unfold stamp_returned. destruct (Z.eqb_spec (ln_id l) (ln_id r)) as [E|E]; simpl.
      * apply (NoDup_map_eq ln_id _ _ _ Hnd Hl (proj1 Hr)) in E. subst l.
        split; [intros t Ht; destruct Hr as [_ [_ [_ Hr]]]; congruence|tauto].
      * split; [tauto|]. intros ->. now left.
Qed.

Lemma loans_are_permanent_witness :
  reachable (run one_loan_history empty_db)
  /\ loans (fst (call 30 (ReturnBook 1 7) (run one_loan_history empty_db)))
     = [mk_loan 1 1 7 9 1 (plus_days 1 14) (Some 30) 0].
Proof.
  assert (Hreach : reachable (run one_loan_history empty_db))
    by (exists one_loan_history; reflexivity).
  split; [exact Hreach|].
  destruct (loans_are_permanent _ Hreach 30 (ReturnBook 1 7)
              (mk_loan 1 1 7 9 1 (plus_days 1 14) None 0) (or_introl eq_refl))
    as [l' _].
  reflexivity.
Defined.

(** X8.  The [fine_paid] column is never written: in every reachable
    store it is 0 in every loan, late or not. *)
Theorem fine_paid_never_set :
  forall db, reachable db -> forall l, In l (loans db) -> fine_paid l = 0.
Proof.
  apply (reachable_ind (fun db => forall l, In l (loans db) -> fine_paid l = 0)).
  - intros l [].
  - intros now c db _ IH l.
    destruct c as [| | | | | | |s b st days|s b];
      try (rewrite loans_other_calls by (intros; discriminate); apply IH).
    + destruct (call_borrow_store now db s b st days) as [E|[_ [_ E]]]; rewrite E;
        [apply IH|].
      simpl. intros Hl.
      apply in_app_or in Hl. destruct Hl as [Hl|[<-|[]]]; [now apply IH|reflexivity].
    + simpl. destruct (active_loans db s b) as [|r rest] eqn:Hact.
      * rewrite (return_book_none _ _ _ _ Hact). apply IH.
      * rewrite (return_book_some _ _ _ _ _ _ Hact). simpl. intros Hl.
        apply in_map_iff in Hl. destruct Hl as [l0 [<- Hl0]].
        pose proof (stamp_fields now (ln_id r) l0) as F.
        rewrite (proj2 (proj2 (proj2 (proj2 (proj2 (proj2 F)))))). now apply IH.
Qed.

Lemma fine_paid_never_set_witness :
  reachable (fst (call (40 * US_PER_DAY) (ReturnBook 1 7) (run one_loan_history empty_db)))
  /\ map fine_paid
         (loans (fst (call (40 * US_PER_DAY) (ReturnBook 1 7)
                           (run one_loan_history empty_db)))) = [0]
  /\ snd (call (40 * US_PER_DAY) (ReturnBook 1 7) (run one_loan_history empty_db))
     = RPair true (ReturnedFine 260 26).
Proof.
  assert (Hreach : reachable (fst (call (40 * US_PER_DAY) (ReturnBook 1 7)
                                        (run one_loan_history empty_db))))
    by (exists (one_loan_history ++ [(40 * US_PER_DAY, ReturnBook 1 7)]); reflexivity).
  split; [exact Hreach|]. split; [|reflexivity].
  pose proof (fine_paid_never_set _ Hreach
                (mk_loan 1 1 7 9 1 (plus_days 1 14) (Some (40 * US_PER_DAY)) 0)
                (or_introl eq_refl)) as H.
  reflexivity.
Defined.

(* ================================================================== *)
(** * What the windows keep *)

Lemma frame_add_student db school_id adm name klass :
  let db' := fst (add_student db school_id adm name klass) in
  schools db' = schools db /\ books db' = books db
  /\ loans db' = loans db /\ undo_log db' = undo_log db.
Proof. unfold add_student, insert_student. destruct (existsb _ _); simpl; tauto. Qed.

Lemma frame_add_book db school_id t a bc nc cond :
  let db' := fst (add_book db school_id t a bc nc cond) in
  schools db' = schools db /\ students db' = students db
  /\ loans db' = loans db /\ undo_log db' = undo_log db.
Proof. unfold add_book, insert_book. destruct (existsb _ _); simpl; tauto. Qed.

Lemma frame_delete_student now db school_id adm :
  let db' := delete_student now db school_id adm in
  schools db' = schools db /\ books db' = books db /\ loans db' = loans db.
Proof. unfold delete_student. destruct (find_student _ _ _); simpl; tauto. Qed.

Lemma frame_delete_book now db school_id bc :
  let db' := delete_book now db school_id bc in
  schools db' = schools db /\ students db' = students db /\ loans db' = loans db.
Proof. unfold delete_book. destruct (find_book _ _ _); simpl; tauto. Qed.

Lemma frame_borrow_book now db school_id bk st days :
  let db' := fst (call now (BorrowBook school_id bk st days) db) in
  schools db' = schools db /\ students db' = students db
  /\ books db' = books db /\ undo_log db' = undo_log db.
Proof.
  destruct (call_borrow_store now db school_id bk st days) as [E|[_ [_ E]]];
    rewrite E; simpl; tauto.
Qed.

Lemma frame_return_book now db school_id bk :
  let db' := fst (return_book now db school_id bk) in
  schools db' = schools db /\ students db' = students db
  /\ books db' = books db /\ undo_log db' = undo_log db.
Proof.
  destruct (active_loans db school_id bk) as [|r rest] eqn:Hact.
  - rewrite (return_book_none _ _ _ _ Hact). simpl. tauto.
  - rewrite (return_book_some _ _ _ _ _ _ Hact). simpl. tauto.
Qed.

Lemma schools_undo_deletion db school_id undo_id :
  schools (fst (undo_deletion db school_id undo_id)) = schools db.
Proof.
  unfold undo_deletion.
  destruct (find _ (undo_log db)) as [e|]; [|reflexivity].
  destruct (table_name e =? "students")%string.
  { repeat (match goal with
            | |- context [getitem ?d ?k] => destruct (getitem d k) as [[?]|?]
            end; simpl; try reflexivity).
    apply frame_add_student. }
  destruct (table_name e =? "books")%string; [|reflexivity].
  repeat (match goal with
          | |- context [getitem ?d ?k] => destruct (getitem d k) as [[?]|?]
          end; simpl; try reflexivity).
  apply frame_add_book.
Qed.

Lemma books_add_book db school_id t a bc nc cond b :
  In b (books (fst (add_book db school_id t a bc nc cond))) ->
  In b (books db)
  \/ (bk_id b = next_rowid (map bk_id (books db)) /\ bk_school_id b = school_id
      /\ barcode b = bc).
Proof.
  unfold add_book, insert_book. destruct (existsb _ _); simpl; [tauto|].
  intros H. apply in_app_or in H. destruct H as [H|[<-|[]]]; simpl; tauto.
Qed.

Lemma books_undo_deletion db school_id undo_id b :
  In b (books (fst (undo_deletion db school_id undo_id))) ->
  In b (books db) \/ bk_id b = next_rowid (map bk_id (books db)).
Proof.
  unfold undo_deletion.
  destruct (find _ (undo_log db)) as [e|]; [|simpl; tauto].
  destruct (table_name e =? "students")%string.
  { repeat (match goal with
            | |- context [getitem ?d ?k] => destruct (getitem d k) as [[?]|?]
            end; simpl; try tauto).
    rewrite (proj1 (proj2 (frame_add_student _ _ _ _ _))). tauto. }
  destruct (table_name e =? "books")%string; [|simpl; tauto].
  repeat (match goal with
          | |- context [getitem ?d ?k] => destruct (getitem d k) as [[?]|?]
          end; simpl; try tauto).
  intros H. apply books_add_book in H. tauto.
Qed.

Lemma spin_value_range lo hi v : lo <= hi -> lo <= spin_value lo hi v <= hi.
Proof. unfold spin_value. lia. Qed.

Lemma window_ok_empty : window_ok empty_db.
Proof. constructor; simpl; intros; contradiction. Qed.

(** The three facts depend on schools, books and loans only. *)
Lemma window_ok_frame db db' :
  schools db' = schools db -> books db' = books db -> loans db' = loans db ->
  window_ok db -> window_ok db'.
Proof.
  intros Es Eb El [H1 H2 H3]. constructor; rewrite ?Es, ?Eb, ?El; assumption.
Qed.

Lemma window_ok_new_book db db' :
  refs_ok db -> window_ok db ->
  schools db' = schools db -> loans db' = loans db ->
  (forall b, In b (books db') ->
             In b (books db) \/ bk_id b = next_rowid (map bk_id (books db))) ->
  window_ok db'.
Proof.
  intros Hrefs [H1 H2 H3] Es El Hb. constructor; rewrite ?Es, ?El; try assumption.
  intros l b Hl Hr Hin Hid. destruct (Hb b Hin) as [Hold|Hnew]; [eauto|].
  exfalso. destruct (active_loan_book db Hrefs l Hl Hr) as [b0 [Hb0 [Hid0 _]]].
  apply (next_rowid_fresh (map bk_id (books db))).
  rewrite <- Hnew, Hid, <- Hid0. now apply in_map.
Qed.

Lemma window_ok_fewer_books db db' :
  window_ok db ->
  schools db' = schools db -> loans db' = loans db ->
  (forall b, In b (books db') -> In b (books db)) ->
  window_ok db'.
Proof.
  intros [H1 H2 H3] Es El Hb. constructor; rewrite ?Es, ?El; try assumption.
  intros l b Hl Hr Hin Hid. eauto.
Qed.

Lemma loan_days_in_range db school_id :
  window_ok db -> 1 <= loan_days db school_id None <= 365.
Proof.
  intros Hok. unfold loan_days, get_school_by_id.
  destruct (find _ (schools db)) as [s|] eqn:Hf.
  - apply find_some in Hf. apply (settings_in_range db Hok s). tauto.
  - unfold DEFAULT_LOAN_DAYS. lia.
Qed.

Lemma window_ok_ui_step now a db :
  refs_ok db -> window_ok db -> window_ok (fst (ui_step now a db)).
Proof.
  intros Hrefs Hok.
  destruct a as [name pw|w adm name klass|w adm yes|w t au bc non cond
                 |w bc yes|w adm bc|w bc|w fine days|w undo_id]; simpl.
  - unfold LoginDialog_register_school.
    destruct ((name =? "")%string || (pw =? "")%string); [exact Hok|].
    unfold register_school, insert_school. destruct (existsb _ _); simpl; [exact Hok|].
    destruct Hok as [H1 H2 H3]. constructor; simpl; try assumption.
    intros s Hs. apply in_app_or in Hs. destruct Hs as [Hs|[<-|[]]]; [now apply H2|].
    simpl. unfold DEFAULT_FINE_PER_DAY, DEFAULT_LOAN_DAYS. lia.
  - unfold MainWindow_add_student.
    destruct ((adm =? "")%string || (name =? "")%string); [exact Hok|].
    pose proof (frame_add_student db (w_school_id w) adm name klass) as F.
    destruct (add_student db (w_school_id w) adm name klass) as [db' ok].
    simpl in F. assert (window_ok db') by (apply (window_ok_frame db); tauto).
    destruct ok; assumption.
  - unfold MainWindow_delete_student.
    destruct (negb _); [exact Hok|]. destruct (adm =? "")%string; [exact Hok|].
    destruct (has_active_loans_student _ _ _); [exact Hok|].
    destruct yes; [|exact Hok]. simpl.
    pose proof (frame_delete_student now db (w_school_id w) adm) as F. simpl in F.
    apply (window_ok_frame db); tauto.
  - unfold MainWindow_add_book.
    destruct (w_role w =? "Assistant")%string; [exact Hok|].
    destruct ((t =? "")%string || (bc =? "")%string); [exact Hok|].
    pose proof (frame_add_book db (w_school_id w) t au bc non cond) as F.
    pose proof (fun b => books_add_book db (w_school_id w) t au bc non cond b) as B.
    destruct (add_book db (w_school_id w) t au bc non cond) as [db' ok].
    simpl in F, B.
    assert (window_ok db').
    { apply (window_ok_new_book db); try tauto. intros b Hb. specialize (B b Hb). tauto. }
    destruct ok; assumption.
  - unfold MainWindow_delete_book.
    destruct (negb _); [exact Hok|]. destruct (bc =? "")%string; [exact Hok|].
    destruct (has_active_loans_book _ _ _); [exact Hok|].
    destruct yes; [|exact Hok]. simpl.
    pose proof (frame_delete_book now db (w_school_id w) bc) as F. simpl in F.
    apply (window_ok_fewer_books db); try tauto.
    unfold delete_book. destruct (find_book db (w_school_id w) bc) as [found|]; simpl;
      intros b' Hb'; apply filter_In in Hb'; tauto.
  - destruct (borrow_action_store w now db adm bc)
      as [E|[s [b [Hs [Hb [Hcirc [Hact [_ E]]]]]]]]; rewrite E; [exact Hok|].
    pose proof (loan_days_in_range db (w_school_id w) Hok) as Hdays.
    destruct Hok as [H1 H2 H3]. constructor; simpl; try assumption.
    + intros l b' Hl Hr Hb' Hid. apply in_app_or in Hl.
      destruct Hl as [Hl|[<-|[]]]; [eauto|]. simpl in Hid.
      apply find_some in Hb.
      assert (b' = b); [|congruence].
      apply (NoDup_map_eq bk_id (books db)); try tauto.
      apply (book_ids_unique db Hrefs).
    + intros l Hl. apply in_app_or in Hl. destruct Hl as [Hl|[<-|[]]]; [eauto|].
      simpl. eexists. split; [exact Hdays|reflexivity].
  - destruct (return_action_store w now db bc) as [E|[b [_ E]]]; rewrite E;
      [exact Hok|].
    destruct (active_loans db (w_school_id w) (bk_id b)) as [|r rest] eqn:Hact.
    + rewrite (return_book_none _ _ _ _ Hact). exact Hok.
    + rewrite (return_book_some _ _ _ _ _ _ Hact). simpl.
      destruct Hok as [H1 H2 H3]. constructor; simpl; try assumption.
      * intros l b' Hl Hr Hb' Hid. apply in_map_iff in Hl.
        destruct Hl as [l0 [<- Hl0]].
        pose proof (stamp_still_active _ _ _ Hr) as E'. rewrite E' in Hr, Hid. eauto.
      * intros l Hl. apply in_map_iff in Hl. destruct Hl as [l0 [<- Hl0]].
        pose proof (stamp_fields now (ln_id r) l0) as F.
        destruct (H3 l0 Hl0) as [n [Hn Hd]]. exists n. split; [exact Hn|].
        destruct F as [_ [_ [_ [_ [-> [-> _]]]]]]. exact Hd.
  - unfold MainWindow_save_settings.
    destruct (negb _); [exact Hok|]. simpl.
    destruct Hok as [H1 H2 H3]. constructor; simpl; try assumption.
    intros s Hs. apply in_map_iff in Hs. destruct Hs as [s0 [<- Hs0]].
    destruct (sc_id s0 =? w_school_id w); simpl; [|now apply H2].
    pose proof (spin_value_range 0 10000 fine). pose proof (spin_value_range 1 365 days).
    lia.
  - unfold UndoDialog_undo_deletion.
    assert (window_ok (fst (undo_deletion db (w_school_id w) undo_id))) as H.
    { apply (window_ok_new_book db); try assumption.
      - apply schools_undo_deletion.
      - apply loans_undo_deletion.
      - intros b. apply books_undo_deletion. }
    destruct (undo_deletion db (w_school_id w) undo_id) as [db' r]. exact H.
Qed.

Lemma ui_reachable_window_ok db : ui_reachable db -> refs_ok db /\ window_ok db.
Proof.
  intros [h ->]. induction h as [|[now a] h IH] using rev_ind.
  - split; [exact refs_ok_empty|exact window_ok_empty].
  - rewrite ui_run_snoc. destruct IH as [H1 H2].
    split; [now apply refs_ok_ui_step|now apply window_ok_ui_step].
Qed.

(** A handler either leaves the store or makes one call of a [DB] method
    that writes. *)
Lemma ui_step_is_call now a db :
  fst (ui_step now a db) = db \/ exists c, fst (ui_step now a db) = fst (call now c db).
Proof.
  destruct a as [name pw|w adm name klass|w adm yes|w t au bc non cond
                 |w bc yes|w adm bc|w bc|w fine days|w undo_id]; simpl.
  - unfold LoginDialog_register_school.
    destruct ((name =? "")%string || (pw =? "")%string); [now left|].
    right. exists (RegisterSchool name pw DEFAULT_FINE_PER_DAY DEFAULT_LOAN_DAYS). simpl.
    destruct (register_school now db name pw DEFAULT_FINE_PER_DAY DEFAULT_LOAN_DAYS)
      as [db' ok].
    destruct ok; reflexivity.
  - unfold MainWindow_add_student.
    destruct ((adm =? "")%string || (name =? "")%string); [now left|].
    right. exists (AddStudent (w_school_id w) adm name klass). simpl.
    destruct (add_student db (w_school_id w) adm name klass) as [db' ok].
    destruct ok; reflexivity.
  - unfold MainWindow_delete_student.
    destruct (negb _); [now left|]. destruct (adm =? "")%string; [now left|].
    destruct (has_active_loans_student _ _ _); [now left|].
    destruct yes; [|now left]. right. now exists (DeleteStudent (w_school_id w) adm).
  - unfold MainWindow_add_book.
    destruct (w_role w =? "Assistant")%string; [now left|].
    destruct ((t =? "")%string || (bc =? "")%string); [now left|].
    right. exists (AddBook (w_school_id w) t au bc non cond). simpl.
    destruct (add_book db (w_school_id w) t au bc non cond) as [db' ok].
    destruct ok; reflexivity.
  - unfold MainWindow_delete_book.
    destruct (negb _); [now left|]. destruct (bc =? "")%string; [now left|].
    destruct (has_active_loans_book _ _ _); [now left|].
    destruct yes; [|now left]. right. now exists (DeleteBook (w_school_id w) bc).
  - destruct (borrow_action_store w now db adm bc)
      as [E|[s [b [_ [_ [_ [Hact [Hr E]]]]]]]]; [now left|].
    right. exists (BorrowBook (w_school_id w) (bk_id b) (st_id s) None).
    rewrite E. cbn [call]. now rewrite (borrow_book_free _ _ _ _ _ _ Hact Hr).
  - destruct (return_action_store w now db bc) as [E|[b [_ E]]]; [now left|].
    right. now exists (ReturnBook (w_school_id w) (bk_id b)).
  - unfold MainWindow_save_settings.
    destruct (negb _); [now left|]. right.
    now exists (UpdateSchoolSettings (w_school_id w) (spin_value 0 10000 fine)
                                     (spin_value 1 365 days)).
  - unfold UndoDialog_undo_deletion. right. exists (UndoDeletion (w_school_id w) undo_id).
    simpl. destruct (undo_deletion db (w_school_id w) undo_id) as [db' r]. reflexivity.
Qed.

Lemma ui_reachable_reachable db : ui_reachable db -> reachable db.
Proof.
  intros [h ->]. induction h as [|[now a] h IH] using rev_ind.
  - exists []. reflexivity.
  - rewrite ui_run_snoc. destruct IH as [h' E].
    destruct (ui_step_is_call now a (ui_run h empty_db)) as [->|[c ->]].
    + exists h'. exact E.
    + exists (h' ++ [(now, c)]). rewrite run_snoc, E. reflexivity.
Qed.

(** X9.  What goes through the windows, unlike a bare [borrow_book], is a
    sound loan: in a store the windows produced, every active loan is the
    only active loan of its book, the book exists in the school of the
    loan and is a circulating one, and the borrower is a student of that
    school. *)
Theorem window_loans_are_sound :
  forall db,
    ui_reachable db ->
    forall l,
      In l (loans db) -> returned_at l = None ->
      active_loans db (ln_school_id l) (book_id l) = [l]
      /\ (exists b, In b (books db) /\ bk_id b = book_id l
                    /\ bk_school_id b = ln_school_id l /\ non_circulating b = 0)
      /\ (exists s, In s (students db) /\ st_id s = student_id l
                    /\ st_school_id s = ln_school_id l).
Proof.
  intros db Hreach l Hl Hr.
  destruct (ui_reachable_window_ok db Hreach) as [Hrefs Hok].
  destruct (reachable_ledger_ok db (ui_reachable_reachable db Hreach)) as [_ Hone].
  split; [|split].
  - assert (Hin : In l (active_loans db (ln_school_id l) (book_id l)))
      by (apply active_loans_in; tauto).
    specialize (Hone (ln_school_id l) (book_id l)).
    destruct (active_loans db (ln_school_id l) (book_id l)) as [|x [|y rest]];
      simpl in *; [contradiction| |lia].
    destruct Hin as [->|[]]. reflexivity.
  - destruct (active_loan_book db Hrefs l Hl Hr) as [b [Hb [Hid Hsch]]].
    exists b. repeat split; try assumption.
    exact (lent_books_circulate db Hok l b Hl Hr Hb Hid).
  - exact (active_loan_student db Hrefs l Hl Hr).
Qed.

Lemma window_loans_are_sound_witness :
  ui_reachable (ui_run guard_history empty_db)
  /\ active_loans (ui_run guard_history empty_db) 1 1
     = [mk_loan 1 1 1 1 5 (plus_days 5 14) None 0].
Proof.
  assert (Hreach : ui_reachable (ui_run guard_history empty_db))
    by (exists guard_history; reflexivity).
  split; [exact Hreach|].
  exact (proj1 (window_loans_are_sound _ Hreach
                  (mk_loan 1 1 1 1 5 (plus_days 5 14) None 0)
                  (or_introl eq_refl) eq_refl)).
Defined.

(** X10.  The settings of a school that is run through the windows stay
    in the ranges of the spin boxes, a fine of 0 to 10000 a day and loans
    of 1 to 365 days; hence every loan is due 1 to 365 days after it was
    made, counted in dates, and a return never reports a negative fine nor
    more than 10000 for a day late. *)
Theorem window_settings_in_range :
  forall db,
    ui_reachable db ->
    (forall s, In s (schools db) ->
               0 <= fine_per_day s <= 10000 /\ 1 <= default_loan_days s <= 365)
    /\ (forall l, In l (loans db) ->
                  1 <= date (due_date l) - date (borrowed_at l) <= 365)
    /\ (forall now school_id bk,
          let m := snd (snd (return_book now db school_id bk)) in
          0 <= reported_fine m
          /\ forall fine late, m = ReturnedFine fine late ->
                               1 <= late /\ fine <= 10000 * late).
Proof.
  intros db Hreach. destruct (ui_reachable_window_ok db Hreach) as [_ Hok].
  split; [exact (settings_in_range db Hok)|]. split.
  - intros l Hl. destruct (loans_run_days db Hok l Hl) as [n [Hn ->]].
    rewrite date_plus_days. lia.
  - intros now school_id bk m.
    assert (Hrate : 0 <= fine_rate db school_id <= 10000).
    { unfold fine_rate, get_school_by_id.
      destruct (find _ (schools db)) as [s|] eqn:Hf.
      - apply find_some in Hf. apply (settings_in_range db Hok s). tauto.
      - unfold DEFAULT_FINE_PER_DAY. lia. }
    unfold m. destruct (active_loans db school_id bk) as [|r rest] eqn:Hact.
    + rewrite (return_book_none _ _ _ _ Hact). cbn [snd reported_fine].
      split; [lia|discriminate].
    + rewrite (return_book_some _ _ _ _ _ _ Hact). cbn [snd].
      destruct (Z.ltb_spec 0 (date now - date (due_date r))); cbn [reported_fine].
      * split; [nia|]. intros fine late [= <- <-]. split; nia.
      * split; [lia|discriminate].
Qed.

Lemma window_settings_in_range_witness :
  ui_reachable (ui_run [(0, UiRegisterSchool "Oakview" "secret");
                        (1, UiSaveSettings (mk_window 1 "Admin") 99999 0)] empty_db)
  /\ schools (ui_run [(0, UiRegisterSchool "Oakview" "secret");
                      (1, UiSaveSettings (mk_window 1 "Admin") 99999 0)] empty_db)
     = [mk_school 1 "Oakview" "secret" 0 10000 1].
Proof.
  assert (Hreach : ui_reachable
                     (ui_run [(0, UiRegisterSchool "Oakview" "secret");
                              (1, UiSaveSettings (mk_window 1 "Admin") 99999 0)] empty_db))
    by (eexists; reflexivity).
  split; [exact Hreach|].
  pose proof (proj1 (window_settings_in_range _ Hreach)) as H.
  reflexivity.
Defined.

(* ================================================================== *)
(** * Loan listings *)

Lemma in_loans_books_students db l b s :
  In (l, b, s) (loans_books_students db) <->
  In l (loans db) /\ In b (books db) /\ bk_id b = book_id l
  /\ In s (students db) /\ st_id s = student_id l.
Proof.
  unfold loans_books_students. rewrite in_flat_map. split.
  - intros [l0 [Hl0 H]]. apply in_flat_map in H. destruct H as [b0 [Hb0 H]].
    apply in_map_iff in H. destruct H as [s0 [E Hs0]]. injection E as <- <- <-.
    apply filter_In in Hb0. apply filter_In in Hs0.
    rewrite Z.eqb_eq in Hb0, Hs0. tauto.
  - intros [Hl [Hb [Hbid [Hs Hsid]]]]. exists l. split; [exact Hl|].
    apply in_flat_map. exists b. split; [apply filter_In; rewrite Z.eqb_eq; tauto|].
    apply in_map. apply filter_In. rewrite Z.eqb_eq. tauto.
Qed.

Section OneRowPerId.
Context {Row : Type} (id : Row -> Z).

(** A lookup by rowid finds the row and nothing else. *)
Lemma filter_by_id (rows : list Row) (r : Row) :
  NoDup (map id rows) -> In r rows ->
  filter (fun x => id x =? id r) rows = [r].
Proof.
  induction rows as [|a rows IH]; simpl; [tauto|].
  intros Hnd Hin. inversion Hnd as [|? ? Hnotin Hnd']; subst.
  destruct Hin as [->|Hin].
  - rewrite Z.eqb_refl. f_equal. apply filter_none. intros x Hx.
    apply Z.eqb_neq. intros E. apply Hnotin. rewrite <- E. now apply in_map.
  - destruct (Z.eqb_spec (id a) (id r)) as [E|E]; [|now apply IH].
    exfalso. apply Hnotin. rewrite E. now apply in_map.
Qed.

End OneRowPerId.

Lemma joined_rows_of_loan db l r :
  In r (flat_map
          (fun b => map (fun s => (l, b, s))
                        (filter (fun s => st_id s =? student_id l) (students db)))
          (filter (fun b => bk_id b =? book_id l) (books db))) ->
  fst (fst r) = l.
Proof.
  intros H. apply in_flat_map in H. destruct H as [b [_ H]].
  apply in_map_iff in H. destruct H as [s [<- _]]. reflexivity.
Qed.

(** X11.  In a store the windows produced, [current_loans] shows the
    active loans of the school, each once and in rowid order: the join
    with books and students loses none of them and doubles none. *)
Theorem current_loans_complete :
  forall db,
    ui_reachable db ->
    forall school_id,
      map lv_loan (current_loans db school_id)
      = filter (fun l => (ln_school_id l =? school_id) && is_null (returned_at l))
               (loans db).
Proof.
  intros db Hreach school_id.
  destruct (ui_reachable_window_ok db Hreach) as [Hrefs _].
  unfold current_loans, loans_books_students.
  assert (Hall : forall l, In l (loans db) -> In l (loans db)) by tauto.
  revert Hall. generalize (loans db) at 1 3 4 as ls.
  induction ls as [|l ls IH]; intros Hall; [reflexivity|].
  simpl. rewrite filter_app, !map_app, IH by (intros; apply Hall; now right).
  clear IH. f_equal.
  destruct ((ln_school_id l =? school_id) && is_null (returned_at l)) eqn:Hq.
  - apply andb_prop in Hq. destruct Hq as [Hs Hr]. apply is_null_true in Hr.
    assert (Hl : In l (loans db)) by (apply Hall; now left).
    destruct (active_loan_book db Hrefs l Hl Hr) as [b [Hb [Hbid _]]].
    destruct (active_loan_student db Hrefs l Hl Hr) as [s [Hst [Hsid _]]].
    rewrite <- Hbid, <- Hsid.
    rewrite (filter_by_id bk_id _ b (book_ids_unique db Hrefs) Hb).
    simpl. rewrite (filter_by_id st_id _ s (student_ids_unique db Hrefs) Hst).
    simpl. rewrite Hs, Hr. reflexivity.
  - rewrite filter_none; [reflexivity|].
    intros r Hin. apply joined_rows_of_loan in Hin. rewrite Hin. exact Hq.
Qed.

Lemma current_loans_complete_witness :
  ui_reachable (ui_run guard_history empty_db)
  /\ current_loans (ui_run guard_history empty_db) 1
     = [mk_loan_view (mk_loan 1 1 1 1 5 (plus_days 5 14) None 0)
                     "Emma" "BC001" "Good" "A100" "Jane"].
Proof.
  assert (Hreach : ui_reachable (ui_run guard_history empty_db))
    by (exists guard_history; reflexivity).
  split; [exact Hreach|].
  pose proof (current_loans_complete _ Hreach 1) as H.
  reflexivity.
Defined.

(** X12.  A loan that [borrow_book] records for a book id without a book
    row is in no listing: after a [borrow_book] that answered [True],
    neither [current_loans] nor [loan_history] of any school shows a loan
    of that book.  The loan is in the ledger all the same, and a further
    [borrow_book] of the id is refused. *)
Theorem loan_of_missing_book_is_hidden :
  forall now db school_id bk st days db1,
    (forall b, In b (books db) -> bk_id b <> bk) ->
    borrow_book now db school_id bk st days
      = Returned (db1, (true, BorrowRecorded)) ->
    In (new_loan now db school_id bk st days) (loans db1)
    /\ (forall s v, In v (current_loans db1 s) -> book_id (lv_loan v) <> bk)
    /\ (forall s v, In v (loan_history db1 s) -> book_id (ll_loan v) <> bk)
    /\ (forall now' st' days',
          borrow_book now' db1 school_id bk st' days'
          = Returned (db1, (false, BookAlreadyBorrowed))).
Proof.
  intros now db school_id bk st days db1 Hnone Hborrow.
  destruct (borrow_book_recorded _ _ _ _ _ _ _ _ Hborrow) as [Hfree [_ [_ Hdb1]]].
  assert (Hjoin : forall l b s, In (l, b, s) (loans_books_students db1) -> book_id l <> bk).
  { intros l b s H. apply in_loans_books_students in H.
    destruct H as [_ [Hb [Hid _]]]. rewrite Hdb1 in Hb. simpl in Hb.
    rewrite <- Hid. now apply Hnone. }
  split; [rewrite Hdb1; simpl; apply in_or_app; right; now left|].
  split; [|split].
  - intros s v Hv. unfold current_loans in Hv. apply in_map_iff in Hv.
    destruct Hv as [[[l b] s0] [<- Hin]]. apply filter_In in Hin. simpl.
    apply (Hjoin l b s0). tauto.
  - intros s v Hv. unfold loan_history in Hv. apply in_map_iff in Hv.
    destruct Hv as [[[l b] s0] [<- Hin]]. apply in_order_by, filter_In in Hin. simpl.
    apply (Hjoin l b s0). tauto.
  - intros. apply borrow_book_taken. rewrite Hdb1.
    rewrite active_loans_after_borrow by exact Hfree. discriminate.
Qed.

(** Book 7 does not exist; its loan to student 9 is recorded, shown
    nowhere, and blocks the next borrower. *)
Lemma loan_of_missing_book_is_hidden_witness :
  borrow_book 0 empty_db 1 7 9 None
  = Returned (mk_DB [] [] [] [mk_loan 1 1 7 9 0 (14 * US_PER_DAY) None 0] [],
              (true, BorrowRecorded))
  /\ current_loans (mk_DB [] [] [] [mk_loan 1 1 7 9 0 (14 * US_PER_DAY) None 0] []) 1
     = []
  /\ borrow_book 1 (mk_DB [] [] [] [mk_loan 1 1 7 9 0 (14 * US_PER_DAY) None 0] [])
                 1 7 4 None
     = Returned (mk_DB [] [] [] [mk_loan 1 1 7 9 0 (14 * US_PER_DAY) None 0] [],
                 (false, BookAlreadyBorrowed)).
Proof.
  split; [reflexivity|]. split; [reflexivity|].
  refine (proj2 (proj2 (proj2 (loan_of_missing_book_is_hidden 0 empty_db 1 7 9 None
                                 _ _ eq_refl))) 1 4 None).
  intros b [].
Defined.

(* ================================================================== *)
(** * Order and limits of the listings *)

Section OrderByFacts.
Context {A : Type} (leb : A -> A -> bool).
Hypothesis leb_total : forall x y, leb x y = true \/ leb y x = true.

Let le (x y : A) : Prop := leb x y = true.

Lemma place_perm (x : A) (l : list A) : Permutation (place leb x l) (x :: l).
Proof.
  induction l as [|y l IH]; simpl; [reflexivity|].
  destruct (leb x y); [reflexivity|].
  rewrite IH. apply perm_swap.
Qed.

Lemma order_by_perm (l : list A) : Permutation (order_by leb l) l.
Proof.
  unfold order_by. induction l as [|x l IH]; simpl; [reflexivity|].
  rewrite place_perm. now constructor.
Qed.

Lemma place_hdrel (x y : A) (l : list A) :
  le y x -> HdRel le y l -> HdRel le y (place leb x l).
Proof.
  intros Hyx H. destruct l as [|z l]; simpl; [now constructor|].
  destruct (leb x z); constructor; [exact Hyx|]. now inversion H.
Qed.

Lemma place_sorted (x : A) (l : list A) : Sorted le l -> Sorted le (place leb x l).
Proof.
  induction l as [|y l IH]; simpl; intros Hs.
  - repeat constructor.
  - destruct (leb x y) eqn:E.
    + constructor; [exact Hs|]. constructor. exact E.
    + inversion Hs as [|? ? Hs' Hhd]; subst. constructor; [now apply IH|].
      apply place_hdrel; [|exact Hhd].
      destruct (leb_total x y) as [H|H]; [congruence|exact H].
Qed.

(** [ORDER BY] gives the rows in order. *)
Lemma order_by_sorted (l : list A) : Sorted le (order_by leb l).
Proof.
  unfold order_by. induction l as [|x l IH]; simpl; [constructor|].
  now apply place_sorted.
Qed.

End OrderByFacts.

Lemma sorted_map {A B : Type} (f : A -> B) (R : B -> B -> Prop) (l : list A) :
  Sorted (fun x y => R (f x) (f y)) l -> Sorted R (map f l).
Proof.
  induction 1 as [|x l Hs IH Hhd]; simpl; constructor; [exact IH|].
  destruct Hhd; simpl; constructor. assumption.
Qed.




(* ================================================================== *)
(** * Lists and pick-lists *)

(** X14.  [list_students] and [list_books] give the students and the books
    of the school, each row once per row of the table, ordered by name and
    by title. *)
Theorem lists_are_ordered :
  forall db school_id,
    Permutation (list_students db school_id)
                (filter (fun s => st_school_id s =? school_id) (students db))
    /\ Sorted (fun a b => String.leb (st_name a) (st_name b) = true)
              (list_students db school_id)
    /\ Permutation (list_books db school_id)
                   (filter (fun b => bk_school_id b =? school_id) (books db))
    /\ Sorted (fun a b => String.leb (title a) (title b) = true)
              (list_books db school_id).
Proof.
  intros db school_id. unfold list_students, list_books.
  split; [etransitivity; apply order_by_perm|]. split.
  - apply (order_by_sorted (fun a b => String.leb (st_name a) (st_name b))).
    intros x y. apply String.leb_total.
  - split; [etransitivity; apply order_by_perm|].
    apply (order_by_sorted (fun a b => String.leb (title a) (title b))).
    intros x y. apply String.leb_total.
Qed.

(** X15.  [get_unique_classes] is the set of the classes of the students of
    the school, the empty class left out: every such class once, in
    ascending order.  [get_unique_authors] is the same for the authors of
    the books. *)
Theorem pick_lists_are_sets :
  forall db school_id,
    (NoDup (get_unique_classes db school_id)
     /\ Sorted (fun a b => String.leb a b = true) (get_unique_classes db school_id)
     /\ forall c, In c (get_unique_classes db school_id) <->
                  c <> "" /\ exists s, In s (students db)
                                       /\ st_school_id s = school_id /\ st_class s = c)
    /\ (NoDup (get_unique_authors db school_id)
        /\ Sorted (fun a b => String.leb a b = true) (get_unique_authors db school_id)
        /\ forall a, In a (get_unique_authors db school_id) <->
                     a <> "" /\ exists b, In b (books db)
                                          /\ bk_school_id b = school_id /\ author b = a).
Proof.
  intros db school_id. unfold get_unique_classes, get_unique_authors. split.
  - split; [|split].
    + eapply Permutation_NoDup; [symmetry; apply order_by_perm|apply NoDup_nodup].
    + apply (order_by_sorted String.leb). apply String.leb_total.
    + intros c. rewrite in_order_by, nodup_In, filter_In, in_map_iff.
      rewrite negb_true_iff, String.eqb_neq. split.
      * intros [[s [<- Hs]] Hne]. apply filter_In in Hs. rewrite Z.eqb_eq in Hs.
        split; [exact Hne|]. exists s. tauto.
      * intros [Hne [s [Hs [Hsch <-]]]]. split; [|exact Hne].
        exists s. split; [reflexivity|]. apply filter_In. rewrite Z.eqb_eq. tauto.
  - split; [|split].
    + eapply Permutation_NoDup; [symmetry; apply order_by_perm|apply NoDup_nodup].
    + apply (order_by_sorted String.leb). apply String.leb_total.
    + intros a. rewrite in_order_by, nodup_In, filter_In, in_map_iff.
      rewrite negb_true_iff, String.eqb_neq. split.
      * intros [[b [<- Hb]] Hne]. apply filter_In in Hb. rewrite Z.eqb_eq in Hb.
        split; [exact Hne|]. exists b. tauto.
      * intros [Hne [b [Hb [Hsch <-]]]]. split; [|exact Hne].
        exists b. split; [reflexivity|]. apply filter_In. rewrite Z.eqb_eq. tauto.
Qed.

(** In a store with sound references, joining the loans with their books
    and students keeps every active loan, once. *)
Lemma join_keeps_active db (q : loan -> bool) :
  refs_ok db ->
  (forall l, q l = true -> returned_at l = None) ->
  map (fun r => fst (fst r))
      (filter (fun r => q (fst (fst r))) (loans_books_students db))
  = filter q (loans db).
Proof.
  intros Hrefs Hq. unfold loans_books_students.
  assert (Hall : forall l, In l (loans db) -> In l (loans db)) by tauto.
  revert Hall. generalize (loans db) at 1 3 4 as ls.
  induction ls as [|l ls IH]; intros Hall; [reflexivity|].
  simpl. rewrite filter_app, !map_app, IH by (intros; apply Hall; now right).
  clear IH. f_equal.
  destruct (q l) eqn:Hql.
  - pose proof (Hq l Hql) as Hr.
    assert (Hl : In l (loans db)) by (apply Hall; now left).
    destruct (active_loan_book db Hrefs l Hl Hr) as [b [Hb [Hbid _]]].
    destruct (active_loan_student db Hrefs l Hl Hr) as [s [Hst [Hsid _]]].
    rewrite <- Hbid, <- Hsid.
    rewrite (filter_by_id bk_id _ b (book_ids_unique db Hrefs) Hb).
    simpl. rewrite (filter_by_id st_id _ s (student_ids_unique db Hrefs) Hst).
    simpl. rewrite Hql. reflexivity.
  - rewrite filter_none; [reflexivity|].
    intros r Hin. apply joined_rows_of_loan in Hin. rewrite Hin. exact Hql.
Qed.

Lemma sorted_weaken {A : Type} (R R' : A -> A -> Prop) (l : list A) :
  (forall x y, R x y -> R' x y) -> Sorted R l -> Sorted R' l.
Proof.
  intros HR. induction 1 as [|x l Hs IH Hhd]; constructor; [exact IH|].
  destruct Hhd; constructor. now apply HR.
Qed.

(** X16.  In a store the windows produced, [get_student_active_loans]
    lists the active loans of the student in the school, each once, the
    one due soonest first. *)
Theorem student_active_loans_by_due_date :
  forall db,
    ui_reachable db ->
    forall school_id sid,
      Sorted (fun a b => due_date (ll_loan a) <= due_date (ll_loan b))
             (get_student_active_loans db school_id sid)
      /\ Permutation
           (map ll_loan (get_student_active_loans db school_id sid))
           (filter (fun l => (ln_school_id l =? school_id) && (student_id l =? sid)
                             && is_null (returned_at l))
                   (loans db)).
Proof.
  intros db Hreach school_id sid.
  destruct (ui_reachable_window_ok db Hreach) as [Hrefs _].
  unfold get_student_active_loans.
  match goal with
  | |- context [order_by ?f ?l] => set (leb := f); set (rows := l)
  end.
  split.
  - apply sorted_map.
    assert (Htotal : forall x y, leb x y = true \/ leb y x = true).
    { intros x y. unfold leb. rewrite !Z.leb_le. lia. }
    eapply sorted_weaken; [|exact (order_by_sorted leb Htotal rows)].
    intros [[lx bx] sx] [[ly by_] sy] H. unfold leb in H. simpl in *.
    now apply Z.leb_le.
  - rewrite map_map.
    rewrite (map_ext _ (fun r => fst (fst r))) by (intros [[l b] s]; reflexivity).
    rewrite (Permutation_map _ (order_by_perm leb rows)).
    unfold rows.
    rewrite (join_keeps_active db
               (fun l => (ln_school_id l =? school_id) && (student_id l =? sid)
                         && is_null (returned_at l)) Hrefs); [reflexivity|].
    intros l Hl. apply andb_prop in Hl. now apply is_null_true.
Qed.

Lemma student_active_loans_by_due_date_witness :
  ui_reachable (ui_run guard_history empty_db)
  /\ get_student_active_loans (ui_run guard_history empty_db) 1 1
     = [mk_loan_line (mk_loan 1 1 1 1 5 (plus_days 5 14) None 0)
                     "Emma" "BC001" "A100" "Jane"].
Proof.
  assert (Hreach : ui_reachable (ui_run guard_history empty_db))
    by (exists guard_history; reflexivity).
  split; [exact Hreach|].
  pose proof (student_active_loans_by_due_date _ Hreach 1 1) as H.
  reflexivity.
Defined.

(* ================================================================== *)
(** * Rowids across deletions *)

Lemma students_after_delete now db school_id adm :
  students (delete_student now db school_id adm)
  = filter (fun s => negb (student_key school_id adm s)) (students db).
Proof. unfold delete_student. destruct (find_student db school_id adm); reflexivity. Qed.

Lemma books_after_delete_student now db school_id adm :
  books (delete_student now db school_id adm) = books db.
Proof. apply frame_delete_student. Qed.

(** X17.  An undo does not give a student its old rowid back.  When a
    student is deleted while another student has a larger rowid, the undo
    of that deletion inserts the student under a rowid larger still; no
    student has the old rowid then, and the loans made under it, which
    stay in the ledger, are in no [loan_history] any more. *)
Theorem undo_gives_new_rowid :
  forall now db school_id adm row other,
    NoDup (map st_id (students db)) ->
    find_student db school_id adm = Some row ->
    In other (students db) ->
    student_key school_id adm other = false ->
    st_id row < st_id other ->
    let db1 := delete_student now db school_id adm in
    let db2 := fst (undo_deletion db1 school_id (next_rowid (map un_id (undo_log db)))) in
    (exists row', find_student db2 school_id adm = Some row'
                  /\ st_name row' = st_name row /\ st_id row < st_id row')
    /\ (forall s, In s (students db2) -> st_id s <> st_id row)
    /\ loans db2 = loans db
    /\ (forall l s v, In l (loans db) -> student_id l = st_id row ->
                      In v (loan_history db2 s) -> ll_loan v <> l).
Proof.
  intros now db school_id adm row other Hnd Hfind Hother Hkey Hlt db1 db2.
  set (undo_id := next_rowid (map un_id (undo_log db))).
  set (e := mk_undo undo_id school_id "students" (student_dict row) now).
  set (rest := filter (fun s => negb (student_key school_id adm s)) (students db)).
  assert (Hrow : In row (students db) /\ student_key school_id adm row = true)
    by (now apply find_some in Hfind).
  assert (Hst1 : students db1 = rest) by apply students_after_delete.
  assert (Hlog : undo_log db1 = undo_log db ++ [e]).
  { unfold db1, delete_student. rewrite Hfind. reflexivity. }
  assert (Hgone : find_student db1 school_id adm = None)
    by apply find_student_after_delete.
  assert (Hadm : admission_no row = adm) by (apply (student_key_true school_id adm row); tauto).
  assert (Hln1 : loans db1 = loans db) by apply loans_delete_student.
  clearbody db1.
  assert (Hundo := undo_deletion_student db1 school_id undo_id e row).
  rewrite Hlog in Hundo.
  specialize (Hundo (find_undo_fresh (undo_log db) school_id e eq_refl eq_refl)
                    eq_refl eq_refl).
  rewrite Hadm, (add_student_new _ _ _ _ _ Hgone) in Hundo.
  cbv zeta in Hundo. simpl fst in Hundo.
  set (row' := mk_student (next_rowid (map st_id (students db1))) school_id adm
                          (st_name row) (st_class row)) in *.
  assert (Hdb2 : students db2 = rest ++ [row'] /\ loans db2 = loans db).
  { unfold db2. fold undo_id. rewrite Hundo. simpl. rewrite Hst1. split; [reflexivity|].
    exact Hln1. }
  assert (Hnew : st_id other < st_id row').
  { simpl. apply next_rowid_above. apply in_map. rewrite Hst1. apply filter_In.
    rewrite Hkey. tauto. }
  destruct Hdb2 as [Hst2 Hln2].
  assert (Hnoid : forall s, In s (students db2) -> st_id s <> st_id row).
  { intros s Hs. rewrite Hst2 in Hs. apply in_app_or in Hs.
    destruct Hs as [Hs|[<-|[]]]; [|lia].
    apply filter_In in Hs. destruct Hs as [Hs Hk]. intros E.
    apply (NoDup_map_eq st_id _ _ _ Hnd Hs (proj1 Hrow)) in E. subst s.
    rewrite (proj2 Hrow) in Hk. discriminate. }
  split; [|split; [exact Hnoid|split; [exact Hln2|]]].
  - exists row'. split; [|split; [reflexivity|lia]].
    unfold find_student. rewrite Hst2.
    rewrite find_app_miss by (unfold rest; apply find_filter_neg).
    simpl. unfold row'. now rewrite student_key_self.
  - intros l s v Hl Hid Hv E. unfold loan_history in Hv. apply in_map_iff in Hv.
    destruct Hv as [[[l0 b0] s0] [<- Hin]]. apply in_order_by, filter_In in Hin.
    destruct Hin as [Hin _]. apply in_loans_books_students in Hin. simpl in E. subst l0.
    apply (Hnoid s0); [tauto|]. destruct Hin as [_ [_ [_ [_ ->]]]]. exact Hid.
Qed.

(** "A100" is rowid 1 and "A200" rowid 2; "A100" comes back as rowid 3. *)
Lemma undo_gives_new_rowid_witness :
  let db := fst (add_student (fst (add_student empty_db 1 "A100" "Jane" "4B"))
                             1 "A200" "Joan" "5C") in
  find_student db 1 "A100" = Some (mk_student 1 1 "A100" "Jane" "4B")
  /\ find_student (fst (undo_deletion (delete_student 7 db 1 "A100") 1 1)) 1 "A100"
     = Some (mk_student 3 1 "A100" "Jane" "4B").
Proof.
  intros db. split; [reflexivity|].
  pose proof (undo_gives_new_rowid 7 db 1 "A100"
                (mk_student 1 1 "A100" "Jane" "4B")
                (mk_student 2 1 "A200" "Joan" "5C")) as H.
  destruct H as [[row' [H _]] _].
  - repeat constructor; simpl; intuition discriminate.
  - reflexivity.
  - right. now left.
  - reflexivity.
  - simpl. lia.
  - reflexivity.
Defined.

(** X18.  Rowids are reused.  When the student that holds the rowid which
    an insert would take next is deleted and another student is added, the
    new student gets that rowid, and [get_student_loan_history] shows for
    the new student the loans of the deleted one. *)
Theorem rowid_is_reused :
  forall now db school_id adm row school_id' adm' name' klass',
    find_student db school_id adm = Some row ->
    st_id row = next_rowid (map st_id (filter (fun s => negb (student_key school_id adm s))
                                              (students db))) ->
    let db1 := delete_student now db school_id adm in
    find_student db1 school_id' adm' = None ->
    let db2 := fst (add_student db1 school_id' adm' name' klass') in
    find_student db2 school_id' adm'
      = Some (mk_student (st_id row) school_id' adm' name' klass')
    /\ forall s, get_student_loan_history db2 s (st_id row)
                 = get_student_loan_history db s (st_id row).
Proof.
  intros now db school_id adm row school_id' adm' name' klass' Hfind Hid db1 Hfree db2.
  assert (Hs1 : students db1
                = filter (fun s => negb (student_key school_id adm s)) (students db))
    by apply students_after_delete.
  assert (Hl1 : loans db1 = loans db) by apply loans_delete_student.
  assert (Hb1 : books db1 = books db) by apply books_after_delete_student.
  clearbody db1.
  assert (Hdb2 : db2 = set_students db1
                         (students db1 ++
                          [mk_student (st_id row) school_id' adm' name' klass'])).
  { unfold db2. rewrite (add_student_new _ _ _ _ _ Hfree), Hs1, <- Hid. reflexivity. }
  split.
  - rewrite Hdb2. unfold find_student; simpl. rewrite find_app_miss by exact Hfree.
    simpl. now rewrite student_key_self.
  - intros s. unfold get_student_loan_history, loans_join_books.
    rewrite Hdb2. simpl. rewrite Hl1, Hb1. reflexivity.
Qed.

Lemma rowid_is_reused_witness :
  let db := fst (return_book 9
                   (fst (call 5 (BorrowBook 1 1 1 None)
                           (fst (add_book (fst (add_student empty_db 1 "A100" "Jane" "4B"))
                                          1 "Emma" "Austen" "BC001" false "Good"))))
                   1 1) in
  let db2 := fst (add_student (delete_student 11 db 1 "A100") 1 "A200" "Joan" "5C") in
  find_student db2 1 "A200" = Some (mk_student 1 1 "A200" "Joan" "5C")
  /\ get_student_loan_history db2 1 1
     = [mk_book_line (mk_loan 1 1 1 1 5 (plus_days 5 14) (Some 9) 0) "Emma" "BC001"].
Proof.
  intros db db2.
  destruct (rowid_is_reused 11 db 1 "A100" (mk_student 1 1 "A100" "Jane" "4B")
              1 "A200" "Joan" "5C" eq_refl eq_refl eq_refl) as [H1 H2].
  split; [exact H1|]. unfold db2. rewrite H2. reflexivity.
Defined.

(* ================================================================== *)
(** * Users and the login dialog *)

Lemma add_user_new us school_id name pw role_ :
  existsb (user_key school_id name) us = false ->
  add_user us school_id name pw role_
  = (us ++ [mk_user (next_rowid (map us_id us)) school_id name pw role_], true).
Proof. intros H. unfold add_user. rewrite H. reflexivity. Qed.

Lemma validate_user_none_of_key us school_id name pw :
  existsb (user_key school_id name) us = false ->
  validate_user us school_id name pw = None.
Proof.
  intros H. apply find_none_existsb. apply not_true_is_false. intros E.
  apply existsb_exists in E. destruct E as [u [Hu E]].
  assert (existsb (user_key school_id name) us = true); [|congruence].
  apply existsb_exists. exists u. split; [exact Hu|].
  unfold user_key. rewrite !andb_true_iff in E. rewrite andb_true_iff. tauto.
Qed.

(** X19.  A user added with [add_user] can log in with the password given
    and with no other, and has the role given; the user name is then taken
    in that school, so that adding it again returns [False] and changes
    nothing; the logins of every other school are as before. *)
Theorem add_user_then_login :
  forall us school_id name pw role_ us1,
    add_user us school_id name pw role_ = (us1, true) ->
    (exists u, validate_user us1 school_id name pw = Some u
               /\ role u = role_ /\ In u (list_users us1 school_id))
    /\ (forall pw', pw' <> pw -> validate_user us1 school_id name pw' = None)
    /\ (forall pw' role', add_user us1 school_id name pw' role' = (us1, false))
    /\ (forall school_id' name' pw',
          school_id' <> school_id ->
          validate_user us1 school_id' name' pw' = validate_user us school_id' name' pw').
Proof.
  intros us school_id name pw role_ us1 Hadd.
  destruct (existsb (user_key school_id name) us) eqn:Hfree.
  { unfold add_user in Hadd. rewrite Hfree in Hadd. discriminate. }
  rewrite (add_user_new _ _ _ _ _ Hfree) in Hadd. injection Hadd as <-.
  set (u := mk_user (next_rowid (map us_id us)) school_id name pw role_).
  split; [|split; [|split]].
  - exists u. split; [|split; [reflexivity|]].
    + unfold validate_user. rewrite find_app_miss
        by (apply (validate_user_none_of_key us school_id name pw Hfree)).
      simpl. now rewrite Z.eqb_refl, !String.eqb_refl.
    + unfold list_users. apply in_order_by, filter_In.
      split; [apply in_or_app; right; now left|].
      simpl. apply Z.eqb_refl.
  - intros pw' Hpw. unfold validate_user. rewrite find_app_miss
      by (apply (validate_user_none_of_key us school_id name pw' Hfree)).
    simpl. rewrite Z.eqb_refl, String.eqb_refl. simpl.
    destruct (String.eqb_spec pw pw'); [congruence|reflexivity].
  - intros pw' role'. unfold add_user. rewrite existsb_app. simpl.
    unfold user_key at 2. simpl. rewrite Z.eqb_refl, String.eqb_refl. simpl.
    rewrite orb_true_r. reflexivity.
  - intros school_id' name' pw' Hneq. unfold validate_user.
    destruct (find _ us) as [x|] eqn:Hf.
    + now apply find_app_hit.
    + rewrite find_app_miss by exact Hf. simpl.
      destruct (Z.eqb_spec school_id school_id'); [congruence|reflexivity].
Qed.

Lemma add_user_then_login_witness :
  validate_user (fst (add_user [] 1 "mary" "pw1" "Librarian")) 1 "mary" "pw1"
  = Some (mk_user 1 1 "mary" "pw1" "Librarian")
  /\ validate_user (fst (add_user [] 1 "mary" "pw1" "Librarian")) 1 "mary" "guess" = None.
Proof.
  destruct (add_user_then_login [] 1 "mary" "pw1" "Librarian" _ eq_refl)
    as [_ [Hwrong _]].
  split; [reflexivity|]. apply Hwrong. discriminate.
Defined.

(** X20.  Registering a school in the login dialog never fails on
    [school["id"]]: after a successful [register_school] the school is
    found by name.  It changes the schools as the store-only reading of
    the handler says, and where the new school has no user yet it creates
    exactly one, "admin" with password "admin" and role "Admin", who can
    log in. *)
Theorem registration_creates_default_admin :
  (forall now db us name pw,
      exists db1 us1 shown,
        LoginDialog_register_school_users now db us name pw = Some (db1, us1, shown)
        /\ LoginDialog_register_school now db name pw = (db1, Some shown))
  /\ (forall now db us name pw,
        name <> "" -> pw <> "" ->
        get_school db name = None ->
        (forall u, In u us -> us_school_id u <> next_rowid (map sc_id (schools db))) ->
        exists db1 us1 shown sch u,
          LoginDialog_register_school_users now db us name pw = Some (db1, us1, shown)
          /\ get_school db1 name = Some sch
          /\ list_users us1 (sc_id sch) = [u]
          /\ validate_user us1 (sc_id sch) "admin" "admin" = Some u
          /\ role u = "Admin").
Proof.
  split.
  - intros now db us name pw.
    unfold LoginDialog_register_school_users, LoginDialog_register_school.
    destruct ((name =? "")%string || (pw =? "")%string); [eauto|].
    destruct (get_school db name) as [old|] eqn:Hfree.
    + rewrite register_school_taken by congruence. simpl. eauto.
    + rewrite (register_school_new _ _ _ _ _ _ Hfree). simpl.
      unfold get_school. simpl. rewrite find_app_miss by exact Hfree. simpl.
      rewrite String.eqb_refl. eauto.
  - intros now db us name pw Hname Hpw Hfree Hnone.
    unfold LoginDialog_register_school_users.
    destruct (String.eqb_spec name ""); [contradiction|].
    destruct (String.eqb_spec pw ""); [contradiction|]. simpl.
    rewrite (register_school_new _ _ _ _ _ _ Hfree). simpl.
    unfold get_school at 1. simpl. rewrite find_app_miss by exact Hfree. simpl.
    rewrite String.eqb_refl.
    set (id := next_rowid (map sc_id (schools db))).
    assert (Hnouser : filter (fun u => us_school_id u =? id) us = []).
    { apply filter_none. intros u Hu. apply Z.eqb_neq. now apply Hnone. }
    assert (Hfind : find (fun u => us_school_id u =? id) us = None).
    { apply find_none_existsb. apply not_true_is_false. intros E.
      apply existsb_exists in E. destruct E as [u [Hu E]].
      apply Z.eqb_eq in E. exact (Hnone u Hu E). }
    unfold create_default_admin_for_school. simpl. fold id. rewrite Hfind. simpl.
    do 5 eexists. split; [reflexivity|].
    split.
    { unfold get_school. simpl. rewrite find_app_miss by exact Hfree. simpl.
      now rewrite String.eqb_refl. }
    simpl. split.
    { unfold list_users. rewrite filter_app, Hnouser. simpl.
      rewrite Z.eqb_refl. reflexivity. }
    split; [|reflexivity].
    unfold validate_user. rewrite find_app_miss.
    + simpl. now rewrite Z.eqb_refl.
    + apply find_none_existsb. apply not_true_is_false. intros E.
      apply existsb_exists in E. destruct E as [u [Hu E]].
      rewrite !andb_true_iff, Z.eqb_eq in E. apply (Hnone u Hu). tauto.
Qed.

Lemma registration_creates_default_admin_witness :
  LoginDialog_register_school_users 0 empty_db [] "Oakview" "secret"
  = Some (fst (register_school 0 empty_db "Oakview" "secret" 10 14),
          [mk_user 1 1 "admin" "admin" "Admin"],
          ("School 'Oakview' registered." ++ newline ++
           "Default admin: username='admin', password='admin'")%string).
Proof.
  destruct (proj2 registration_creates_default_admin 0 empty_db [] "Oakview" "secret")
    as [db1 [us1 [shown [sch [u [H _]]]]]]; try discriminate; try reflexivity.
  intros u [].
Defined.

(** X21.  The login dialog asks for no school password before it creates
    a user.  For a registered school and a user name that is free in it: a
    new dialog that loads the users of the school by the school's name,
    creates a user of any role on offer and logs that user in is accepted,
    with that user and that school as the session. *)
Theorem user_created_without_school_password :
  forall db us name sch uname pw role_,
    get_school db name = Some sch ->
    name <> "" -> uname <> "" -> pw <> "" ->
    In role_ ROLES ->
    existsb (user_key (sc_id sch) uname) us = false ->
    let (d1, _) := LoginDialog_load_users_for_school db us new_login_dialog name in
    let '(us2, d2, _) := LoginDialog_create_user db us d1 name uname pw (Some role_) in
    let (d3, _) := LoginDialog_user_login us2 d2 uname pw in
    ld_accepted d3 = true
    /\ ld_school_row d3 = Some sch
    /\ exists u, ld_user d3 = Some u /\ us_school_id u = sc_id sch
                 /\ username u = uname /\ role u = role_.
Proof.
  intros db us name sch uname pw role_ Hsch Hname Huname Hpw Hrole Hfree.
  unfold LoginDialog_load_users_for_school.
  destruct (String.eqb_spec name ""); [contradiction|]. rewrite Hsch.
  unfold LoginDialog_create_user. cbn [ld_school_row].
  destruct (String.eqb_spec uname ""); [contradiction|].
  destruct (String.eqb_spec pw ""); [contradiction|]. cbn [orb].
  rewrite (add_user_new _ _ _ _ _ Hfree). cbn [negb].
  unfold LoginDialog_load_users_for_school.
  destruct (String.eqb_spec name ""); [contradiction|]. rewrite Hsch.
  unfold LoginDialog_user_login. cbn [ld_school_row].
  destruct (String.eqb_spec uname ""); [contradiction|].
  destruct (String.eqb_spec pw ""); [contradiction|]. cbn [orb].
  unfold validate_user.
  rewrite find_app_miss by (apply (validate_user_none_of_key us (sc_id sch) uname pw Hfree)).
  simpl. rewrite Z.eqb_refl, !String.eqb_refl. simpl.
  split; [reflexivity|]. split; [reflexivity|]. eexists. split; [reflexivity|].
  simpl. tauto.
Qed.

(** Oakview is registered with the password "secret"; "eve" becomes an
    administrator of it without it. *)
Lemma user_created_without_school_password_witness :
  let db := fst (register_school 0 empty_db "Oakview" "secret" 10 14) in
  let us := [mk_user 1 1 "admin" "admin" "Admin"] in
  let d1 := fst (LoginDialog_load_users_for_school db us new_login_dialog "Oakview") in
  let r := LoginDialog_create_user db us d1 "Oakview" "eve" "x" (Some "Admin") in
  ld_user (fst (LoginDialog_user_login (fst (fst r)) (snd (fst r)) "eve" "x"))
  = Some (mk_user 2 1 "eve" "x" "Admin").
Proof.
  intros db us d1 r.
  assert (Hname : "Oakview" <> "") by discriminate.
  assert (Huser : "eve" <> "") by discriminate.
  assert (Hpw : "x" <> "") by discriminate.
  pose proof (user_created_without_school_password db us "Oakview"
                (mk_school 1 "Oakview" "secret" 0 10 14) "eve" "x" "Admin"
                eq_refl Hname Huser Hpw (or_introl eq_refl) eq_refl) as H.
  reflexivity.
Defined.

(* ================================================================== *)
(** * One school does not touch another *)

Section FilterFacts.
Context {A : Type} (p : A -> bool).

Lemma filter_snoc_out (l : list A) (x : A) : p x = false -> filter p (l ++ [x]) = filter p l.
Proof. intros H. rewrite filter_app. simpl. rewrite H. apply app_nil_r. Qed.

Lemma filter_filter_in (q : A -> bool) (l : list A) :
  (forall x, In x l -> p x = true -> q x = true) -> filter p (filter q l) = filter p l.
Proof.
  induction l as [|a l IH]; simpl; intros H; [reflexivity|].
  assert (IH' : filter p (filter q l) = filter p l)
    by (apply IH; intros x Hx; apply H; now right).
  destruct (q a) eqn:Hq; simpl; rewrite IH'; [reflexivity|].
  destruct (p a) eqn:Hp; [|reflexivity].
  rewrite (H a (or_introl eq_refl) Hp) in Hq. discriminate.
Qed.

Lemma filter_map_fixed (f : A -> A) (l : list A) :
  (forall x, In x l -> p (f x) = p x /\ (p x = true -> f x = x)) ->
  filter p (map f l) = filter p l.
Proof.
  induction l as [|a l IH]; simpl; intros H; [reflexivity|].
  destruct (H a (or_introl eq_refl)) as [H1 H2]. rewrite H1.
  rewrite IH by (intros x Hx; apply H; now right).
  destruct (p a); [now rewrite H2|reflexivity].
Qed.

End FilterFacts.

(** What [undo_deletion] for a school can do to the tables. *)
Lemma undo_deletion_shape db school_id undo_id :
  let db' := fst (undo_deletion db school_id undo_id) in
  (students db' = students db
   \/ exists r, students db' = students db ++ [r] /\ st_school_id r = school_id)
  /\ (books db' = books db
      \/ exists r, books db' = books db ++ [r] /\ bk_school_id r = school_id)
  /\ (undo_log db' = undo_log db
      \/ (undo_log db' = filter (fun u => negb (un_id u =? undo_id)) (undo_log db)
          /\ exists e, In e (undo_log db) /\ un_id e = undo_id
                       /\ un_school_id e = school_id)).
Proof.
  unfold undo_deletion.
  destruct (find _ (undo_log db)) as [e|] eqn:Hf; [|simpl; tauto].
  assert (He : exists e, In e (undo_log db) /\ un_id e = undo_id
                         /\ un_school_id e = school_id).
  { apply find_some in Hf. exists e. rewrite andb_true_iff, !Z.eqb_eq in Hf. tauto. }
  destruct (table_name e =? "students")%string.
  { repeat (match goal with
            | |- context [getitem ?d ?k] => destruct (getitem d k) as [[?]|?]
            end; simpl; try tauto).
    unfold add_student, insert_student. destruct (existsb _ _); simpl.
    - tauto.
    - split; [right; eexists; split; reflexivity|tauto]. }
  destruct (table_name e =? "books")%string; [|simpl; tauto].
  repeat (match goal with
          | |- context [getitem ?d ?k] => destruct (getitem d k) as [[?]|?]
          end; simpl; try tauto).
  unfold add_book, insert_book. destruct (existsb _ _); simpl.
  - tauto.
  - split; [tauto|]. split; [right; eexists; split; reflexivity|tauto].
Qed.

Lemma NoDup_map_filter_ids (log : list undo_entry) (keep : undo_entry -> bool) :
  NoDup (map un_id log) -> NoDup (map un_id (filter keep log)).
Proof. apply NoDup_map_filter. Qed.

Lemma reachable_undo_ids db : reachable db -> NoDup (map un_id (undo_log db)).
Proof.
  revert db. apply (reachable_ind (fun db => NoDup (map un_id (undo_log db)))).
  - constructor.
  - intros now c db _ IH.
    destruct c as [name pw f d|s f d|s adm n k|s adm|s t a bc nc cond|s bc|s id
                   |s b st days|s b]; simpl.
    + unfold register_school, insert_school. destruct (existsb _ _); exact IH.
    + exact IH.
    + now rewrite (proj2 (proj2 (proj2 (frame_add_student db s adm n k)))).
    + unfold delete_student. destruct (find_student db s adm); simpl; [|exact IH].
      rewrite map_app. simpl. now apply NoDup_snoc_fresh.
    + now rewrite (proj2 (proj2 (proj2 (frame_add_book db s t a bc nc cond)))).
    + unfold delete_book. destruct (find_book db s bc); simpl; [|exact IH].
      rewrite map_app. simpl. now apply NoDup_snoc_fresh.
    + destruct (undo_deletion_shape db s id) as [_ [_ [E|[E _]]]]; rewrite E.
      * exact IH.
      * now apply NoDup_map_filter_ids.
    + destruct (borrow_book_cases now db s b st days)
        as [[_ E]|[[_ [_ E]]|[_ [_ E]]]]; rewrite E; exact IH.
    + now rewrite (proj2 (proj2 (proj2 (frame_return_book now db s b)))).
Qed.

Lemma get_school_other_after_update db school_id fine days id :
  id <> school_id ->
  get_school_by_id (update_school_settings db school_id fine days) id
  = get_school_by_id db id.
Proof.
  intros Hneq. unfold get_school_by_id, update_school_settings. simpl.
  induction (schools db) as [|s l IH]; simpl; [reflexivity|].
  destruct (Z.eqb_spec (sc_id s) school_id) as [E|E]; simpl.
  - destruct (Z.eqb_spec (sc_id s) id); [congruence|exact IH].
  - destruct (sc_id s =? id); [reflexivity|exact IH].
Qed.

(** X22.  A call made for one school leaves the rows of every other school
    alone: in a reachable store, after any call, the students, books,
    loans and undo entries of a school the call was not made for are the
    same rows in the same order, and the school's own row with its
    settings is the same. *)
Theorem schools_are_isolated :
  forall db,
    reachable db ->
    forall now c other,
      call_school c <> Some other ->
      school_rows (fst (call now c db)) other = school_rows db other
      /\ (forall sch, get_school_by_id db other = Some sch ->
                      get_school_by_id (fst (call now c db)) other = Some sch).
Proof.
  intros db Hreach now c other Hc.
  destruct (reachable_ledger_ok db Hreach) as [Hloans _].
  pose proof (reachable_undo_ids db Hreach) as Hundo.
  unfold school_rows.
  destruct c as [name pw f d|s f d|s adm n k|s adm|s t a bc nc cond|s bc|s id
                 |s b st days|s b]; simpl in Hc |- *;
    try (assert (Hs : s <> other) by congruence).
  - unfold register_school, insert_school. destruct (existsb _ _); simpl; [tauto|].
    split; [reflexivity|]. intros sch H. now apply find_app_hit.
  - split; [reflexivity|]. intros sch H.
    rewrite get_school_other_after_update by congruence. exact H.
  - unfold add_student, insert_student. destruct (existsb _ _); simpl; [tauto|].
    split; [|tauto]. rewrite filter_snoc_out; [reflexivity|]. simpl. now apply Z.eqb_neq.
  - unfold delete_student.
    assert (Hkeep : forall l, filter (fun x => st_school_id x =? other)
                                (filter (fun x => negb (student_key s adm x)) l)
                              = filter (fun x => st_school_id x =? other) l).
    { intros l. apply filter_filter_in. intros x _ Hx. apply Z.eqb_eq in Hx.
      unfold student_key. destruct (Z.eqb_spec (st_school_id x) s); [congruence|reflexivity]. }
    destruct (find_student db s adm); simpl; rewrite Hkeep; [|tauto].
    split; [|tauto]. rewrite filter_snoc_out; [reflexivity|]. simpl. now apply Z.eqb_neq.
  - unfold add_book, insert_book. destruct (existsb _ _); simpl; [tauto|].
    split; [|tauto]. rewrite filter_snoc_out; [reflexivity|]. simpl. now apply Z.eqb_neq.
  - unfold delete_book.
    assert (Hkeep : forall l, filter (fun x => bk_school_id x =? other)
                                (filter (fun x => negb (book_key s bc x)) l)
                              = filter (fun x => bk_school_id x =? other) l).
    { intros l. apply filter_filter_in. intros x _ Hx. apply Z.eqb_eq in Hx.
      unfold book_key. destruct (Z.eqb_spec (bk_school_id x) s); [congruence|reflexivity]. }
    destruct (find_book db s bc); simpl; rewrite Hkeep; [|tauto].
    split; [|tauto]. rewrite filter_snoc_out; [reflexivity|]. simpl. now apply Z.eqb_neq.
  - pose proof (undo_deletion_shape db s id) as [Hst [Hbk Hlog]]. cbv zeta in *.
    rewrite loans_undo_deletion.
    unfold get_school_by_id. rewrite schools_undo_deletion. split; [|tauto].
    assert (E1 : filter (fun x => st_school_id x =? other)
                        (students (fst (undo_deletion db s id)))
                 = filter (fun x => st_school_id x =? other) (students db)).
    { destruct Hst as [->|[r [-> Hr]]]; [reflexivity|].
      apply filter_snoc_out. apply Z.eqb_neq. congruence. }
    assert (E2 : filter (fun x => bk_school_id x =? other)
                        (books (fst (undo_deletion db s id)))
                 = filter (fun x => bk_school_id x =? other) (books db)).
    { destruct Hbk as [->|[r [-> Hr]]]; [reflexivity|].
      apply filter_snoc_out. apply Z.eqb_neq. congruence. }
    assert (E3 : filter (fun x => un_school_id x =? other)
                        (undo_log (fst (undo_deletion db s id)))
                 = filter (fun x => un_school_id x =? other) (undo_log db)).
    { destruct Hlog as [->|[-> [e [He [Hid Hsch]]]]]; [reflexivity|].
      apply filter_filter_in. intros x Hx Hxs. apply Z.eqb_eq in Hxs.
      apply negb_true_iff. apply Z.eqb_neq. intros E.
      assert (x = e) by (apply (NoDup_map_eq un_id _ _ _ Hundo Hx He); congruence).
      subst x. congruence. }
    rewrite E1, E2, E3. reflexivity.
  - destruct (borrow_book_cases now db s b st days)
      as [[_ E]|[[_ [_ E]]|[_ [_ E]]]]; rewrite E; [tauto|tauto|].
    simpl. split; [|tauto].
    rewrite filter_snoc_out; [reflexivity|]. simpl. now apply Z.eqb_neq.
  - destruct (active_loans db s b) as [|r rest] eqn:Hact.
    + rewrite (return_book_none _ _ _ _ Hact). tauto.
    + rewrite (return_book_some _ _ _ _ _ _ Hact). simpl. split; [|tauto].
      rewrite filter_map_fixed; [reflexivity|]. intros x Hx.
      pose proof (stamp_fields now (ln_id r) x) as F.
      split; [now rewrite (proj1 (proj2 F))|].
      intros Hxs. apply Z.eqb_eq in Hxs. apply stamp_other. intros E.
      assert (Hr : In r (active_loans db s b)) by (rewrite Hact; now left).
      apply active_loans_in in Hr.
      assert (x = r) by (apply (NoDup_map_eq ln_id _ _ _ Hloans Hx); tauto).
      subst x. destruct Hr as [_ [Hr _]]. congruence.
Qed.

(** Two schools with a student each; school 1 deleting its student leaves
    school 2 as it was. *)
Lemma schools_are_isolated_witness :
  let h := [(0, AddStudent 1 "A100" "Jane" "4B"); (1, AddStudent 2 "A100" "Joan" "5C")] in
  reachable (run h empty_db)
  /\ school_rows (fst (call 2 (DeleteStudent 1 "A100") (run h empty_db))) 2
     = ([mk_student 2 2 "A100" "Joan" "5C"], [], [], []).
Proof.
  intros h.
  assert (Hreach : reachable (run h empty_db)) by (exists h; reflexivity).
  split; [exact Hreach|].
  rewrite (proj1 (schools_are_isolated _ Hreach 2 (DeleteStudent 1 "A100") 2
                    ltac:(discriminate))).
  reflexivity.
Defined.

(* ================================================================== *)
(** * Borrowing at the counter *)

Lemma NoDup_snoc {A : Type} (l : list A) (x : A) :
  NoDup l -> ~ In x l -> NoDup (l ++ [x]).
Proof.
  intros Hnd Hx. apply NoDup_app; [exact Hnd|repeat constructor; simpl; tauto|].
  intros y Hy [<-|[]]. exact (Hx Hy).
Qed.

Lemma add_student_keys db school_id adm name klass :
  NoDup (student_keys db) ->
  NoDup (student_keys (fst (add_student db school_id adm name klass))).
Proof.
  intros Hnd. unfold add_student, insert_student.
  destruct (existsb (student_key school_id adm) (students db)) eqn:E; [exact Hnd|].
  unfold student_keys. simpl. rewrite map_app. apply NoDup_snoc; [exact Hnd|].
  intros Hin. apply in_map_iff in Hin. destruct Hin as [s [Hk Hs]].
  injection Hk as Hsch Hadm.
  assert (existsb (student_key school_id adm) (students db) = true); [|congruence].
  apply existsb_exists. exists s. split; [exact Hs|]. now apply student_key_true.
Qed.

Lemma add_book_keys db school_id t a bc nc cond :
  NoDup (book_keys db) ->
  NoDup (book_keys (fst (add_book db school_id t a bc nc cond))).
Proof.
  intros Hnd. unfold add_book, insert_book.
  destruct (existsb (book_key school_id bc) (books db)) eqn:E; [exact Hnd|].
  unfold book_keys. simpl. rewrite map_app. apply NoDup_snoc; [exact Hnd|].
  intros Hin. apply in_map_iff in Hin. destruct Hin as [b [Hk Hb]].
  injection Hk as Hsch Hbc.
  assert (existsb (book_key school_id bc) (books db) = true); [|congruence].
  apply existsb_exists. exists b. split; [exact Hb|]. now apply book_key_true.
Qed.

(** The rows that [undo_deletion] writes are written by [add_student] or
    by [add_book]. *)
Lemma undo_deletion_adds db school_id undo_id :
  let db' := fst (undo_deletion db school_id undo_id) in
  (students db' = students db
   \/ exists adm name klass,
        students db' = students (fst (add_student db school_id adm name klass)))
  /\ (books db' = books db
      \/ exists t a bc nc cond,
           books db' = books (fst (add_book db school_id t a bc nc cond))).
Proof.
  unfold undo_deletion.
  destruct (find _ (undo_log db)) as [e|]; [|simpl; tauto].
  destruct (table_name e =? "students")%string.
  { repeat (match goal with
            | |- context [getitem ?d ?k] => destruct (getitem d k) as [[?]|?]
            end; simpl; try tauto).
    split; [right; do 3 eexists; reflexivity|].
    left. unfold add_student, insert_student. destruct (existsb _ _); reflexivity. }
  destruct (table_name e =? "books")%string; [|simpl; tauto].
  repeat (match goal with
          | |- context [getitem ?d ?k] => destruct (getitem d k) as [[?]|?]
          end; simpl; try tauto).
  split; [|right; do 5 eexists; reflexivity].
  left. unfold add_book, insert_book. destruct (existsb _ _); reflexivity.
Qed.

(** The keys are unique in every store that calls reach. *)
Lemma reachable_school_ids db :
  reachable db -> NoDup (map sc_id (schools db)).
Proof.
  revert db. apply (reachable_ind (fun db => NoDup (map sc_id (schools db)))).
  - constructor.
  - intros now c db _ IH.
    destruct c as [name pw f d|s f d|s adm n k|s adm|s t a bc nc cond|s bc|s id
                   |s b st days|s b].
    + cbn [call]. unfold register_school, insert_school.
      destruct (existsb _ _); [exact IH|]. simpl. rewrite map_app. simpl.
      now apply NoDup_snoc_fresh.
    + simpl. rewrite map_map.
      erewrite map_ext; [exact IH|]. intros x. simpl.
      destruct (sc_id x =? s); reflexivity.
    + cbn [call bool_result fst]. now rewrite (proj1 (frame_add_student db s adm n k)).
    + cbn [call fst]. now rewrite (proj1 (frame_delete_student now db s adm)).
    + cbn [call bool_result fst].
      now rewrite (proj1 (frame_add_book db s t a bc nc cond)).
    + cbn [call fst]. now rewrite (proj1 (frame_delete_book now db s bc)).
    + cbn [call pair_result fst]. now rewrite schools_undo_deletion.
    + now rewrite (proj1 (frame_borrow_book now db s b st days)).
    + cbn [call pair_result fst]. now rewrite (proj1 (frame_return_book now db s b)).
Qed.

Lemma reachable_keys db :
  reachable db -> NoDup (student_keys db) /\ NoDup (book_keys db).
Proof.
  revert db.
  apply (reachable_ind (fun db => NoDup (student_keys db) /\ NoDup (book_keys db))).
  - split; constructor.
  - intros now c db _ [IHs IHb].
    destruct c as [name pw f d|s f d|s adm n k|s adm|s t a bc nc cond|s bc|s id
                   |s b st days|s b].
    + cbn [call]. unfold register_school, insert_school.
      destruct (existsb _ _); split; assumption.
    + split; assumption.
    + cbn [call bool_result fst]. split; [now apply add_student_keys|].
      unfold book_keys.
      now rewrite (proj1 (proj2 (frame_add_student db s adm n k))).
    + cbn [call fst]. split.
      * unfold student_keys. rewrite students_after_delete.
        now apply NoDup_map_filter.
      * unfold book_keys. now rewrite books_after_delete_student.
    + cbn [call bool_result fst]. split; [|now apply add_book_keys].
      unfold student_keys.
      now rewrite (proj1 (proj2 (frame_add_book db s t a bc nc cond))).
    + cbn [call fst]. split.
      * unfold student_keys.
        now rewrite (proj1 (proj2 (frame_delete_book now db s bc))).
      * unfold book_keys, delete_book. destruct (find_book db s bc); simpl;
          now apply NoDup_map_filter.
    + cbn [call pair_result fst].
      destruct (undo_deletion_adds db s id) as [Hst Hbk]. cbv zeta in Hst, Hbk.
      split.
      * unfold student_keys. destruct Hst as [->|[adm [n [k ->]]]]; [exact IHs|].
        now apply add_student_keys.
      * unfold book_keys. destruct Hbk as [->|[t [a [bc [nc [cond ->]]]]]]; [exact IHb|].
        now apply add_book_keys.
    + destruct (frame_borrow_book now db s b st days) as [_ [E1 [E2 _]]].
      unfold student_keys, book_keys. rewrite E1, E2. split; assumption.
    + destruct (frame_return_book now db s b) as [_ [E1 [E2 _]]].
      cbn [call pair_result fst].
      unfold student_keys, book_keys. rewrite E1, E2. split; assumption.
Qed.

Lemma find_student_row db school_id adm s :
  NoDup (student_keys db) ->
  In s (students db) -> st_school_id s = school_id -> admission_no s = adm ->
  find_student db school_id adm = Some s.
Proof.
  intros Hnd Hs Hsch Hadm. unfold find_student.
  destruct (find (student_key school_id adm) (students db)) as [s'|] eqn:Hf.
  - apply find_some in Hf. destruct Hf as [Hs' Hk]. apply student_key_true in Hk.
    f_equal.
    apply (NoDup_map_eq (fun s => (st_school_id s, admission_no s)) (students db));
      try assumption.
    destruct Hk as [-> ->]. now rewrite Hsch, Hadm.
  - exfalso. apply (find_none _ _ Hf) in Hs.
    assert (student_key school_id adm s = true) by now apply student_key_true.
    congruence.
Qed.

Lemma find_book_row db school_id bc b :
  NoDup (book_keys db) ->
  In b (books db) -> bk_school_id b = school_id -> barcode b = bc ->
  find_book db school_id bc = Some b.
Proof.
  intros Hnd Hb Hsch Hbc. unfold find_book.
  destruct (find (book_key school_id bc) (books db)) as [b'|] eqn:Hf.
  - apply find_some in Hf. destruct Hf as [Hb' Hk]. apply book_key_true in Hk.
    f_equal.
    apply (NoDup_map_eq (fun b => (bk_school_id b, barcode b)) (books db));
      try assumption.
    destruct Hk as [-> ->]. now rewrite Hsch, Hbc.
  - exfalso. apply (find_none _ _ Hf) in Hb.
    assert (book_key school_id bc b = true) by now apply book_key_true.
    congruence.
Qed.

(** A loan that is out, of a book and to a student that exist, is a row of
    [current_loans]; the refresh of the borrow page then raises. *)
Lemma refresh_borrow_lists_raises db school_id l b s :
  In l (loans db) -> ln_school_id l = school_id -> returned_at l = None ->
  In b (books db) -> bk_id b = book_id l ->
  In s (students db) -> st_id s = student_id l ->
  refresh_borrow_lists db school_id = Raised AttributeError.
Proof.
  intros Hl Hsch Hret Hb Hbid Hs Hsid. unfold refresh_borrow_lists.
  destruct (current_loans db school_id) as [|v vs] eqn:E; [|reflexivity].
  exfalso.
  assert (Hin : In (view_of (l, b, s)) (current_loans db school_id)).
  { unfold current_loans. apply in_map. apply filter_In. split.
    - apply in_loans_books_students. tauto.
    - simpl. rewrite Hsch, Z.eqb_refl, Hret. reflexivity. }
  rewrite E in Hin. exact Hin.
Qed.

(** X23.  What the borrow button does, case by case, in a store that calls
    reach.  It refuses, each time with the message of the first check that
    fails and with the store untouched: a field is empty; the school of the
    window has no student with the admission number; it has no book with
    the barcode; the book does not circulate; a loan of the book is not
    returned.  It raises [OverflowError], the store untouched, when the due
    date cannot be held.  In the one remaining case it lends: the store
    gains one loan of that book to that student, made now and due after
    the loan days of the school, the message names the borrower, and the
    refresh of the table of loans that follows raises [AttributeError]. *)
Theorem borrow_action_lends_or_refuses :
  forall db,
    reachable db ->
    forall w now adm bc,
      let school_id := w_school_id w in
      let r := MainWindow_borrow_action w now db adm bc in
      let student_of s :=
        In s (students db) /\ st_school_id s = school_id /\ admission_no s = adm in
      let book_of b :=
        In b (books db) /\ bk_school_id b = school_id /\ barcode b = bc in
      let out b :=
        exists l, In l (loans db) /\ ln_school_id l = school_id
                  /\ book_id l = bk_id b /\ returned_at l = None in
      (adm = "" \/ bc = "" -> r = (db, Some "Enter admission and barcode", None))
      /\ (adm <> "" -> bc <> "" -> (forall s, ~ student_of s) ->
          r = (db, Some "Student not found", None))
      /\ (forall s, adm <> "" -> bc <> "" -> student_of s ->
                    (forall b, ~ book_of b) ->
                    r = (db, Some "Book not found", None))
      /\ (forall s b,
            adm <> "" -> bc <> "" -> student_of s -> book_of b ->
            (non_circulating b <> 0 ->
             r = (db, Some "Book not for borrowing", None))
            /\ (non_circulating b = 0 -> out b ->
                r = (db, Some "Book already borrowed", None))
            /\ (non_circulating b = 0 -> ~ out b ->
                ~ representable now (loan_days db school_id None) ->
                r = (db, None, Some OverflowError))
            /\ (non_circulating b = 0 -> ~ out b ->
                representable now (loan_days db school_id None) ->
                r = (set_loans db
                       (loans db ++
                        [mk_loan (next_rowid (map ln_id (loans db))) school_id
                                 (bk_id b) (st_id s) now
                                 (now + loan_days db school_id None * US_PER_DAY)
                                 None 0]),
                     Some ("Borrowed by " ++ st_name s)%string,
                     Some AttributeError)))
      /\ (forall sch, In sch (schools db) -> sc_id sch = school_id ->
                      loan_days db school_id None = default_loan_days sch)
      /\ ((forall sch, In sch (schools db) -> sc_id sch <> school_id) ->
          loan_days db school_id None = 14).
Proof.
  intros db Hreach w now adm bc school_id r student_of book_of out.
  destruct (reachable_keys db Hreach) as [Hsk Hbk].
  assert (Hdays : (forall sch, In sch (schools db) -> sc_id sch = school_id ->
                               loan_days db school_id None = default_loan_days sch)
                  /\ ((forall sch, In sch (schools db) -> sc_id sch <> school_id) ->
                      loan_days db school_id None = 14)).
  { split.
    - intros sch Hin Hid. apply loan_days_row. split; [exact Hin|]. split; [exact Hid|].
      intros s' Hs' Hid'.
      apply (NoDup_map_eq sc_id (schools db)); try assumption.
      + now apply reachable_school_ids.
      + congruence.
    - intros Hnone. unfold loan_days.
      now rewrite (get_school_by_id_missing _ _ Hnone). }
  cut ((adm = "" \/ bc = "" -> r = (db, Some "Enter admission and barcode", None))
      /\ (adm <> "" -> bc <> "" -> (forall s, ~ student_of s) ->
          r = (db, Some "Student not found", None))
      /\ (forall s, adm <> "" -> bc <> "" -> student_of s ->
                    (forall b, ~ book_of b) ->
                    r = (db, Some "Book not found", None))
      /\ (forall s b,
            adm <> "" -> bc <> "" -> student_of s -> book_of b ->
            (non_circulating b <> 0 ->
             r = (db, Some "Book not for borrowing", None))
            /\ (non_circulating b = 0 -> out b ->
                r = (db, Some "Book already borrowed", None))
            /\ (non_circulating b = 0 -> ~ out b ->
                ~ representable now (loan_days db school_id None) ->
                r = (db, None, Some OverflowError))
            /\ (non_circulating b = 0 -> ~ out b ->
                representable now (loan_days db school_id None) ->
                r = (set_loans db
                       (loans db ++
                        [mk_loan (next_rowid (map ln_id (loans db))) school_id
                                 (bk_id b) (st_id s) now
                                 (now + loan_days db school_id None * US_PER_DAY)
                                 None 0]),
                     Some ("Borrowed by " ++ st_name s)%string,
                     Some AttributeError)))).
  { intros [H1 [H2 [H3 H4]]]. repeat (split; [assumption|]). exact Hdays. }
  clear Hdays.
  unfold r, MainWindow_borrow_action. fold school_id.
  split.
  { intros [->| ->]; [reflexivity|]. now rewrite String.eqb_refl, orb_true_r. }
  assert (Hfields : adm <> "" -> bc <> "" ->
                    ((adm =? "")%string || (bc =? "")%string) = false).
  { intros Ha Hb. apply orb_false_iff. split; now apply String.eqb_neq. }
  split.
  { intros Ha Hb Hnone. rewrite (Hfields Ha Hb).
    now rewrite (find_student_absent db school_id adm Hnone). }
  split.
  { intros s Ha Hb [Hs [Hsch Hadm]] Hnone. rewrite (Hfields Ha Hb).
    rewrite (find_student_row db school_id adm s Hsk Hs Hsch Hadm).
    now rewrite (find_book_absent db school_id bc Hnone). }
  intros s b Ha Hb [Hs [Hsch Hadm]] [Hbin [Hbsch Hbc]]. rewrite (Hfields Ha Hb).
  rewrite (find_student_row db school_id adm s Hsk Hs Hsch Hadm).
  rewrite (find_book_row db school_id bc b Hbk Hbin Hbsch Hbc).
  split.
  { intros Hnon. apply Z.eqb_neq in Hnon. now rewrite Hnon. }
  assert (Hout : out b <-> active_loans db school_id (bk_id b) <> []).
  { split.
    - intros [l Hl] E. apply active_loans_in in Hl. rewrite E in Hl. exact Hl.
    - intros Hne. destruct (active_loans db school_id (bk_id b)) as [|l rest] eqn:E;
        [congruence|].
      exists l. apply active_loans_in. rewrite E. now left. }
  split.
  { intros Hcirc Hb'. rewrite Hcirc. cbn [Z.eqb negb].
    rewrite borrow_book_taken by now apply Hout. reflexivity. }
  assert (Hfree : ~ out b -> active_loans db school_id (bk_id b) = []).
  { intros Hn. destruct (active_loans db school_id (bk_id b)) eqn:E; [reflexivity|].
    exfalso. apply Hn, Hout. discriminate. }
  split.
  { intros Hcirc Hn Hr. rewrite Hcirc. cbn [Z.eqb negb].
    now rewrite (borrow_book_overflow _ _ _ _ _ _ (Hfree Hn) Hr). }
  intros Hcirc Hn Hr. rewrite Hcirc. cbn [Z.eqb negb].
  rewrite (borrow_book_free _ _ _ _ _ _ (Hfree Hn) Hr). cbn [fst snd negb].
  rewrite (refresh_borrow_lists_raises _ school_id
             (new_loan now db school_id (bk_id b) (st_id s) None) b s);
    try reflexivity; try assumption.
  simpl. apply in_or_app. right. now left.
Qed.

(** At the counter of Oakview, where "A100" has "BC001": "BC002" goes to
    "A200"; "BC001" is refused; an unknown barcode is not found. *)
Lemma borrow_action_lends_or_refuses_witness :
  reachable (ui_run guard_history empty_db)
  /\ MainWindow_borrow_action (mk_window 1 "Assistant") 6
       (ui_run guard_history empty_db) "A200" "BC002"
     = (set_loans (ui_run guard_history empty_db)
          [mk_loan 1 1 1 1 5 (5 + 14 * US_PER_DAY) None 0;
           mk_loan 2 1 2 2 6 (6 + 14 * US_PER_DAY) None 0],
        Some "Borrowed by Joan", Some AttributeError)
  /\ MainWindow_borrow_action (mk_window 1 "Assistant") 6
       (ui_run guard_history empty_db) "A200" "BC001"
     = (ui_run guard_history empty_db, Some "Book already borrowed", None)
  /\ MainWindow_borrow_action (mk_window 1 "Assistant") 6
       (ui_run guard_history empty_db) "A200" "BC003"
     = (ui_run guard_history empty_db, Some "Book not found", None)
  /\ fst (fst (MainWindow_borrow_action (mk_window 1 "Assistant") 8
                 (ui_run (guard_history
                          ++ [(7, UiSaveSettings (mk_window 1 "Admin") 5 21)])
                         empty_db) "A200" "BC002"))
     = mk_DB [mk_school 1 "Oakview" "secret" 0 5 21]
             [mk_student 1 1 "A100" "Jane" "4B"; mk_student 2 1 "A200" "Joan" "5C"]
             [mk_book 1 1 "Emma" "Austen" "BC001" 0 "Good";
              mk_book 2 1 "Ulysses" "Joyce" "BC002" 0 "New"]
             [mk_loan 1 1 1 1 5 (5 + 14 * US_PER_DAY) None 0;
              mk_loan 2 1 2 2 8 (8 + 21 * US_PER_DAY) None 0]
             [].
Proof.
  assert (Hreach : reachable (ui_run guard_history empty_db)).
  { apply ui_reachable_reachable. exists guard_history. reflexivity. }
  split; [exact Hreach|].
  assert (Hlater : fst (fst (MainWindow_borrow_action (mk_window 1 "Assistant") 8
                 (ui_run (guard_history
                          ++ [(7, UiSaveSettings (mk_window 1 "Admin") 5 21)])
                         empty_db) "A200" "BC002"))
     = mk_DB [mk_school 1 "Oakview" "secret" 0 5 21]
             [mk_student 1 1 "A100" "Jane" "4B"; mk_student 2 1 "A200" "Joan" "5C"]
             [mk_book 1 1 "Emma" "Austen" "BC001" 0 "Good";
              mk_book 2 1 "Ulysses" "Joyce" "BC002" 0 "New"]
             [mk_loan 1 1 1 1 5 (5 + 14 * US_PER_DAY) None 0;
              mk_loan 2 1 2 2 8 (8 + 21 * US_PER_DAY) None 0]
             []) by reflexivity.
  cut (MainWindow_borrow_action (mk_window 1 "Assistant") 6
         (ui_run guard_history empty_db) "A200" "BC002"
       = (set_loans (ui_run guard_history empty_db)
            [mk_loan 1 1 1 1 5 (5 + 14 * US_PER_DAY) None 0;
             mk_loan 2 1 2 2 6 (6 + 14 * US_PER_DAY) None 0],
          Some "Borrowed by Joan", Some AttributeError)
       /\ MainWindow_borrow_action (mk_window 1 "Assistant") 6
            (ui_run guard_history empty_db) "A200" "BC001"
          = (ui_run guard_history empty_db, Some "Book already borrowed", None)
       /\ MainWindow_borrow_action (mk_window 1 "Assistant") 6
            (ui_run guard_history empty_db) "A200" "BC003"
          = (ui_run guard_history empty_db, Some "Book not found", None)).
  { intros [H1 [H2 H3]]. repeat (split; [assumption|]). exact Hlater. }
  clear Hlater.
  pose proof (borrow_action_lends_or_refuses _ Hreach (mk_window 1 "Assistant") 6
                "A200") as H.
  split; [|split].
  - destruct (H "BC002") as [_ [_ [_ [Hrow _]]]].
    destruct (Hrow (mk_student 2 1 "A200" "Joan" "5C")
                   (mk_book 2 1 "Ulysses" "Joyce" "BC002" 0 "New"))
      as [_ [_ [_ Hlend]]]; try discriminate.
    + split; [right; now left|split; reflexivity].
    + split; [right; now left|split; reflexivity].
    + rewrite Hlend; [reflexivity|reflexivity| |].
      * intros [l [[<-|[]] [_ [Hb _]]]]. discriminate.
      * unfold representable. vm_compute. repeat split; discriminate.
  - destruct (H "BC001") as [_ [_ [_ [Hrow _]]]].
    destruct (Hrow (mk_student 2 1 "A200" "Joan" "5C")
                   (mk_book 1 1 "Emma" "Austen" "BC001" 0 "Good"))
      as [_ [Hout _]]; try discriminate.
    + split; [right; now left|split; reflexivity].
    + split; [now left|split; reflexivity].
    + apply Hout; [reflexivity|].
      exists (mk_loan 1 1 1 1 5 (plus_days 5 14) None 0).
      split; [now left|]. repeat split.
  - destruct (H "BC003") as [_ [_ [Hnone _]]].
    apply (Hnone (mk_student 2 1 "A200" "Joan" "5C")); try discriminate.
    + split; [right; now left|split; reflexivity].
    + intros b [[<-|[<-|[]]] [_ Hbc]]; discriminate.
Defined.

(* ================================================================== *)
(** * Drafts *)

Lemma find_dict_set_same d category data :
  find (fun kv : string * pydict => (fst kv =? category)%string)
       (dict_set d category data) = Some (category, data).
Proof.
  induction d as [|kv d IH]; simpl.
  - now rewrite String.eqb_refl.
  - destruct (fst kv =? category)%string eqn:E; simpl.
    + now rewrite String.eqb_refl.
    + rewrite E. exact IH.
Qed.

Lemma find_dict_set_other d category data other :
  other <> category ->
  find (fun kv : string * pydict => (fst kv =? other)%string)
       (dict_set d category data)
  = find (fun kv : string * pydict => (fst kv =? other)%string) d.
Proof.
  intros Hneq. induction d as [|kv d IH]; simpl.
  - destruct (String.eqb_spec category other); [congruence|reflexivity].
  - destruct (String.eqb_spec (fst kv) category) as [E|E]; simpl.
    + destruct (String.eqb_spec category other); [congruence|].
      destruct (String.eqb_spec (fst kv) other); [congruence|reflexivity].
    + destruct (fst kv =? other)%string; [reflexivity|exact IH].
Qed.

Lemma find_filter_other {A : Type} (p q : A -> bool) (l : list A) :
  (forall x, p x = true -> q x = true) ->
  find p (filter q l) = find p l.
Proof.
  intros H. induction l as [|a l IH]; simpl; [reflexivity|].
  destruct (q a) eqn:Hq; simpl.
  - destruct (p a); [reflexivity|exact IH].
  - destruct (p a) eqn:Hp; [|exact IH]. rewrite (H a Hp) in Hq. discriminate.
Qed.

(** X24.  With a drafts file that is absent or holds a drafts object, a
    draft saved for a category is what [load_draft] gives back for it, the
    drafts of the other categories are as before, and [clear_draft]
    removes the draft of its category and of no other.  A drafts file that
    cannot be parsed stays as it is: saving into it saves nothing and
    [load_draft] answers the empty draft. *)
Theorem drafts_round_trip :
  forall f category data,
    (f <> Unreadable ->
     load_draft (save_draft f category data) category = data
     /\ (forall other, other <> category ->
                       load_draft (save_draft f category data) other = load_draft f other)
     /\ load_draft (clear_draft (save_draft f category data) category) category = [])
    /\ (forall other, other <> category ->
                      load_draft (clear_draft f category) other = load_draft f other)
    /\ (f = Unreadable ->
        save_draft f category data = Unreadable
        /\ load_draft (save_draft f category data) category = []).
Proof.
  intros f category data. split; [|split].
  - intros Hf. destruct f as [| |d]; [|congruence|]; simpl.
    + rewrite String.eqb_refl. simpl. split; [reflexivity|]. split; [|reflexivity].
      intros other Hneq. destruct (String.eqb_spec category other); [congruence|reflexivity].
    + rewrite find_dict_set_same. split; [reflexivity|]. split.
      * intros other Hneq. now rewrite find_dict_set_other.
      * now rewrite find_filter_neg.
  - intros other Hneq. destruct f as [| |d]; simpl; try reflexivity.
    rewrite find_filter_other; [reflexivity|].
    intros kv Hkv. apply String.eqb_eq in Hkv. apply negb_true_iff.
    apply String.eqb_neq. congruence.
  - intros ->. split; reflexivity.
Qed.

Lemma drafts_round_trip_witness :
  load_draft (save_draft (save_draft NoFile "student" [("name", JStr "Jane")])
                         "book" [("title", JStr "Emma")]) "student"
  = [("name", JStr "Jane")]
  /\ load_draft (save_draft Unreadable "student" [("name", JStr "Jane")]) "student" = [].
Proof.
  split.
  - destruct (drafts_round_trip (save_draft NoFile "student" [("name", JStr "Jane")])
                "book" [("title", JStr "Emma")]) as [H _].
    destruct H as [_ [H _]]; [discriminate|].
    rewrite H by discriminate. reflexivity.
  - destruct (drafts_round_trip Unreadable "student" [("name", JStr "Jane")]) as [_ [_ H]].
    exact (proj2 (H eq_refl)).
Defined.
